(** * Health agent system: intent routing, extraction and session gating

    A shallow embedding of the conversational health-tracking backend
    ([main.py], [agents/cgm_agent.py], [agents/mood_tracker_agent.py],
    [agents/greeting_agent.py], the login guards of
    [agents/food_intake_agent.py] and [agents/meal_planner_agent.py],
    [utils/database.py]) together with the properties its specification
    states about it.

    Modelling conventions.
    - A Python [str] is a [string]; the model is exact for ASCII text
      (case folding, whitespace and digit classes are the ASCII ones).
    - A Python [float] that holds a finite value is the rational it
      denotes ([Q]); comparisons against integer thresholds are exact.
      [float(text)] rounds the decimal literal to the nearest double,
      ties to even, and gives [inf] beyond the largest double.
    - A Python [dict] is an association list in insertion order.
    - [re] is a backtracking matcher over the pattern constructs the
      program uses, with Python's priorities.
    - Code that touches the relational store runs in a state-and-exception
      monad over [Database]; code of [HealthAgentSystem] runs in the same
      monad over the orchestrator's fields and the store.
    - The wall clock, number formatting, time-windowed aggregates of the
      store and everything behind the generative backend are parameters,
      gathered in [HealthAgentSystem.environment]. *)

From Stdlib Require Import Bool Arith ZArith QArith List Ascii String Lia.
From Stdlib Require Import DecimalString Lqa.
Import ListNotations.
Close Scope Q_scope.
Open Scope string_scope.

Set Implicit Arguments.

(* ================================================================== *)
(** ** Python values, exceptions and the effect monad *)

Inductive exn : Type :=
| KeyError (key : string)
| ValueError (msg : string)
| TypeError (msg : string)
| AttributeError (attr : string)
| OperationalError (msg : string)
| IntegrityError (msg : string)
| RuntimeError (msg : string).

Inductive result (A : Type) : Type :=
| Ok (a : A)
| Raise (e : exn).
Arguments Ok {A} a.
Arguments Raise {A} e.

#[local] Unset Elimination Schemes.
Inductive value : Type :=
| VNone
| VBool (b : bool)
| VInt (z : Z)
| VFloat (q : Q)
| VStr (s : string)
| VList (l : list value)
| VDict (d : list (string * value)).
#[local] Set Elimination Schemes.

(** The double quote, spliced into texts that quote examples. *)
Definition dq : string := String "034" EmptyString.

(** [str(o)] for an optional string. *)
Definition str_of_option (o : option string) : string :=
  match o with
  | Some s => s
  | None => "None"
  end.

(** A [dict] with string keys, in insertion order. *)
Definition dict := list (string * value).

Fixpoint dict_get (d : dict) (key : string) : option value :=
  match d with
  | [] => None
  | (k, v) :: d' => if String.eqb k key then Some v else dict_get d' key
  end.

(** [d[key]]: raises [KeyError] on a missing key. *)
Definition dict_item (d : dict) (key : string) : result value :=
  match dict_get d key with
  | Some v => Ok v
  | None => Raise (KeyError key)
  end.

(** [d.get(key)]: [None] on a missing key. *)
Definition dict_get_default (d : dict) (key : string) : value :=
  match dict_get d key with
  | Some v => v
  | None => VNone
  end.

(** [v == s] for a string literal [s]. *)
Definition value_is (v : value) (s : string) : bool :=
  match v with
  | VStr s' => String.eqb s' s
  | _ => false
  end.

(** [v == z] for an integer literal [z]. *)
Definition value_eq_int (v : value) (z : Z) : bool :=
  match v with
  | VInt n => (n =? z)%Z
  | VBool b => ((if b then 1 else 0) =? z)%Z
  | VFloat q => Qeq_bool q (inject_Z z)
  | _ => false
  end.

(** The number a value stands for in a comparison or a subtraction; any
    other value is a [TypeError] there. *)
Definition as_number (v : value) : result Q :=
  match v with
  | VInt n => Ok (inject_Z n)
  | VBool b => Ok (inject_Z (if b then 1 else 0))
  | VFloat q => Ok q
  | _ => Raise (TypeError "unsupported operand type(s)")
  end.

(** Sequencing of steps that may raise, outside the store. *)
Definition and_then {A B} (r : result A) (k : A -> result B) : result B :=
  match r with
  | Ok a => k a
  | Raise e => Raise e
  end.

Notation "x <-? r ;; k" := (and_then r (fun x => k))
  (at level 61, r at next level, right associativity).

(** State-and-exception monad: a raised exception keeps the state reached
    so far (writes that were committed stay committed). *)
Definition M (S A : Type) : Type := S -> result A * S.

Definition ret {S A} (a : A) : M S A := fun s => (Ok a, s).
Definition raise {S A} (e : exn) : M S A := fun s => (Raise e, s).
Definition bind {S A B} (c : M S A) (k : A -> M S B) : M S B :=
  fun s =>
    match c s with
    | (Ok a, s') => k a s'
    | (Raise e, s') => (Raise e, s')
    end.
Definition lift_result {S A} (r : result A) : M S A := fun s => (r, s).

(** [try: c except Exception as e: h e] *)
Definition try_except {S A} (c : M S A) (h : exn -> M S A) : M S A :=
  fun s =>
    match c s with
    | (Ok a, s') => (Ok a, s')
    | (Raise e, s') => h e s'
    end.

Notation "x <- c ;; k" := (bind c (fun x => k))
  (at level 61, c at next level, right associativity).
Notation "c ;;; k" := (bind c (fun _ => k))
  (at level 61, right associativity).

(* ================================================================== *)
(** ** Python string operations (ASCII) *)

Module PyStr.

Definition code (c : ascii) : nat := nat_of_ascii c.

Definition between (lo hi : nat) (c : ascii) : bool :=
  Nat.leb lo (code c) && Nat.leb (code c) hi.

Definition is_upper (c : ascii) : bool := between 65 90 c.
Definition is_lower (c : ascii) : bool := between 97 122 c.
Definition is_digit (c : ascii) : bool := between 48 57 c.

(** [str.isspace] on ASCII: TAB..CR, FS..US and the blank. *)
Definition is_space (c : ascii) : bool :=
  between 9 13 c || between 28 32 c.

(** [\w] on ASCII. *)
Definition is_word (c : ascii) : bool :=
  is_upper c || is_lower c || is_digit c || Nat.eqb (code c) 95.

Definition lower_char (c : ascii) : ascii :=
  if is_upper c then ascii_of_nat (code c + 32) else c.

Fixpoint lower (s : string) : string :=
  match s with
  | EmptyString => EmptyString
  | String c s' => String (lower_char c) (lower s')
  end.

Fixpoint lstrip (s : string) : string :=
  match s with
  | EmptyString => EmptyString
  | String c s' => if is_space c then lstrip s' else s
  end.

Fixpoint rstrip (s : string) : string :=
  match s with
  | EmptyString => EmptyString
  | String c s' =>
      match rstrip s' with
      | EmptyString => if is_space c then EmptyString else String c EmptyString
      | r => String c r
      end
  end.

Definition strip (s : string) : string := rstrip (lstrip s).

Definition startswith (s p : string) : bool := String.prefix p s.

(** [s[n:]] *)
Fixpoint drop (n : nat) (s : string) : string :=
  match n, s with
  | O, _ => s
  | S n', EmptyString => EmptyString
  | S n', String _ s' => drop n' s'
  end.

(** [s[:n]] *)
Fixpoint take (n : nat) (s : string) : string :=
  match n, s with
  | O, _ => EmptyString
  | S n', EmptyString => EmptyString
  | S n', String c s' => String c (take n' s')
  end.

(** [sub in s] *)
Fixpoint contains (s sub : string) : bool :=
  String.prefix sub s ||
  match s with
  | EmptyString => false
  | String _ s' => contains s' sub
  end.

(** [x in xs] for a list of strings. *)
Definition mem (x : string) (xs : list string) : bool :=
  existsb (String.eqb x) xs.

(** [any(w in s for w in ws)] *)
Definition any_in (ws : list string) (s : string) : bool :=
  existsb (contains s) ws.

(** [sum(k for w in ws if w in s)] *)
Fixpoint sum_in (k : Z) (ws : list string) (s : string) : Z :=
  match ws with
  | [] => 0%Z
  | w :: ws' => ((if contains s w then k else 0) + sum_in k ws' s)%Z
  end.

(** Truthiness of an optional string: [None] and the empty string are
    falsy. *)
Definition truthy (o : option string) : bool :=
  match o with
  | Some s => negb (String.eqb s EmptyString)
  | None => false
  end.

(** [s.split(sep)] for a one-character separator. *)
Fixpoint split (sep : ascii) (s : string) : list string :=
  match s with
  | EmptyString => [EmptyString]
  | String c s' =>
      if Ascii.eqb c sep then EmptyString :: split sep s'
      else match split sep s' with
           | [] => [String c EmptyString]
           | w :: ws => String c w :: ws
           end
  end.

Fixpoint repeat_char (c : ascii) (n : nat) : string :=
  match n with
  | O => EmptyString
  | S n' => String c (repeat_char c n')
  end.

(** [s.zfill(width)] for a string of digits. *)
Definition zfill (width : nat) (s : string) : string :=
  repeat_char "0" (width - String.length s) ++ s.

(** [c in s] for a character. *)
Fixpoint has_char (c : ascii) (s : string) : bool :=
  match s with
  | EmptyString => false
  | String c' s' => Ascii.eqb c' c || has_char c s'
  end.

(** The value of a string of decimal digits, most significant first. *)
Fixpoint digits_value (acc : Z) (s : string) : option Z :=
  match s with
  | EmptyString => Some acc
  | String c s' =>
      if is_digit c
      then digits_value (10 * acc + Z.of_nat (code c - 48)) s'
      else None
  end.

(** [str(z)] for an [int]. *)
Definition str_of_int (z : Z) : string :=
  NilEmpty.string_of_int (Z.to_int z).

Definition upper_char (c : ascii) : ascii :=
  if is_lower c then ascii_of_nat (code c - 32) else c.

(** [s.title()]: a letter after a letter is lower-cased, any other letter
    is upper-cased. *)
Fixpoint title_from (previous_is_cased : bool) (s : string) : string :=
  match s with
  | EmptyString => EmptyString
  | String c s' =>
      String (if previous_is_cased then lower_char c else upper_char c)
             (title_from (is_upper c || is_lower c) s')
  end.

Definition title (s : string) : string := title_from false s.

(** [s.replace(old, new)] for one-character [old] and [new]. *)
Fixpoint replace_char (old new : ascii) (s : string) : string :=
  match s with
  | EmptyString => EmptyString
  | String c s' =>
      String (if Ascii.eqb c old then new else c) (replace_char old new s')
  end.

End PyStr.

(** Comparisons of a finite [float] with an [int]. *)
Module PyNum.

Definition ltb (x y : Q) : bool := negb (Qle_bool y x).
Definition gtb (x y : Q) : bool := ltb y x.
Definition of_int (z : Z) : Q := inject_Z z.

(** What [float(text)] returns for an unsigned literal: a finite double,
    as the rational it denotes, or positive infinity. *)
Inductive float_value : Type :=
| Finite (q : Q)
| Infinity.

(** [f"{x}"] for what [float] returned, given the formatting of finite
    values. *)
Definition format (float_str : Q -> string) (x : float_value) : string :=
  match x with
  | Finite q => float_str q
  | Infinity => "inf"
  end.

(** [x <= v] for a finite [x]. *)
Definition le (x : Q) (v : float_value) : Prop :=
  match v with
  | Finite q => (x <= q)%Q
  | Infinity => True
  end.

(** The integer nearest to [n / d] for [d > 0], a tie going to the even
    one. *)
Definition round_half_even (n d : Z) : Z :=
  let q := (n / d)%Z in
  match (2 * (n mod d) ?= d)%Z with
  | Lt => q
  | Gt => (q + 1)%Z
  | Eq => if Z.even q then q else (q + 1)%Z
  end.

(** The double nearest to [n / d] ([0 <= n], [0 < d]), ties to even.  A
    double is [m * 2^e] with [m < 2^53] and [-1074 <= e <= 971]; [e] is
    chosen so that [2^52 <= n / d / 2^e < 2^53], or is -1074 for the
    subnormal values.  Rounding up to [m = 2^53] gives the double
    [2^52 * 2^(e+1)], and what rounds to [2^1024] or more is infinite. *)
Definition nearest_double (n d : Z) : float_value :=
  if (n <=? 0)%Z then Finite (inject_Z 0)
  else
    let k := (Z.log2 n - Z.log2 d)%Z in
    let below :=
      if (0 <=? k)%Z then (n <? d * 2 ^ k)%Z else (n * 2 ^ (- k) <? d)%Z in
    let e := Z.max ((if below then k - 1 else k) - 52) (-1074) in
    if (0 <=? e)%Z then
      let m := round_half_even n (d * 2 ^ e) in
      if (2 ^ 1024 <=? m * 2 ^ e)%Z then Infinity
      else Finite (inject_Z (m * 2 ^ e))
    else
      let m := round_half_even (n * 2 ^ (- e)) d in
      Finite (Qred (Qmake m (Z.to_pos (2 ^ (- e))))).

(** [float(s)] on the decimal literals the extractors produce: digits with
    an optional fraction.  The value is the double nearest to the number
    the literal denotes; any other text is a [ValueError] here. *)
Definition float (s : string) : result float_value :=
  match PyStr.split "." s with
  | [whole] =>
      match whole, PyStr.digits_value 0 whole with
      | String _ _, Some n => Ok (nearest_double n 1)
      | _, _ => Raise (ValueError "could not convert string to float")
      end
  | [whole; frac] =>
      match whole, frac, PyStr.digits_value 0 whole, PyStr.digits_value 0 frac with
      | String _ _, String _ _, Some n, Some f =>
          let scale := (10 ^ Z.of_nat (String.length frac))%Z in
          Ok (nearest_double (n * scale + f) scale)
      | _, _, _, _ => Raise (ValueError "could not convert string to float")
      end
  | _ => Raise (ValueError "could not convert string to float")
  end.

End PyNum.

(** A finite value is read as a [float] where one is expected, also under
    [Ok] and [Some]. *)
Coercion PyNum.Finite : Q >-> PyNum.float_value.
Arguments Ok {A} & a.
Arguments Some {A} & a.

(* ================================================================== *)
(** ** Regular expressions ([re.match], [re.search])

    A backtracking matcher with Python's priorities: alternatives left to
    right, greedy repetition longest first, lazy repetition shortest first,
    and [search] returning the leftmost match.  Repetition is over a
    character class, which is all the patterns of this program need. *)

Module Re.

Inductive regex : Type :=
| Eps
| Cls (p : ascii -> bool)
| Seq (r1 r2 : regex)
| Alt (r1 r2 : regex)
| Opt (r : regex)
| Rep (p : ascii -> bool) (lo : nat) (hi : option nat) (greedy : bool)
| Grp (r : regex)
| Bol
| Eol.

(** Character classes. *)
Definition chr (c : ascii) : ascii -> bool := Ascii.eqb c.
Definition dot (c : ascii) : bool := negb (Ascii.eqb c "010"%char).
Definition digit : ascii -> bool := PyStr.is_digit.
Definition space : ascii -> bool := PyStr.is_space.
Definition word : ascii -> bool := PyStr.is_word.
(** [[a-f0-9]] and [[a-f0-9-]] *)
Definition hex (c : ascii) : bool := PyStr.between 97 102 c || PyStr.is_digit c.
Definition hex_dash (c : ascii) : bool := hex c || Ascii.eqb c "-"%char.

(** A literal. *)
Fixpoint lit (s : string) : regex :=
  match s with
  | EmptyString => Eps
  | String c EmptyString => Cls (chr c)
  | String c s' => Seq (Cls (chr c)) (lit s')
  end.

(** [a|b|...] *)
Fixpoint alts (rs : list regex) : regex :=
  match rs with
  | [] => Eps
  | [r] => r
  | r :: rs' => Alt r (alts rs')
  end.

(** [r1 r2 ...] *)
Fixpoint seqs (rs : list regex) : regex :=
  match rs with
  | [] => Eps
  | [r] => r
  | r :: rs' => Seq r (seqs rs')
  end.

Definition star (p : ascii -> bool) : regex := Rep p 0 None true.
Definition plus (p : ascii -> bool) : regex := Rep p 1 None true.
Definition star_lazy (p : ascii -> bool) : regex := Rep p 0 None false.
Definition times (p : ascii -> bool) (n : nat) : regex := Rep p n (Some n) true.
Definition range (p : ascii -> bool) (lo hi : nat) : regex := Rep p lo (Some hi) true.

Definition or_else {A} (x y : option A) : option A :=
  match x with
  | Some a => Some a
  | None => y
  end.

Section Matcher.
Variable A : Type.

(** [p{lo,hi}] from the current position; [bol] tells whether the position
    is the start of the subject. *)
Fixpoint rep (p : ascii -> bool) (lo : nat) (hi : option nat) (greedy : bool)
    (bol : bool) (s : string) (k : bool -> string -> option A) : option A :=
  let stop := match lo with O => k bol s | S _ => None end in
  let more :=
    match s with
    | String c s' =>
        if p c && match hi with Some O => false | _ => true end
        then rep p (Nat.pred lo) (option_map Nat.pred hi) greedy false s' k
        else None
    | EmptyString => None
    end in
  if greedy then or_else more stop else or_else stop more.

(** [run r bol s g k]: match [r] at the front of [s], then continue with
    [k] on the rest; [g] is the text of group 1 so far. *)
Fixpoint run (r : regex) (bol : bool) (s : string) (g : option string)
    (k : bool -> string -> option string -> option A) : option A :=
  match r with
  | Eps => k bol s g
  | Cls p =>
      match s with
      | String c s' => if p c then k false s' g else None
      | EmptyString => None
      end
  | Seq r1 r2 => run r1 bol s g (fun bol' s' g' => run r2 bol' s' g' k)
  | Alt r1 r2 => or_else (run r1 bol s g k) (run r2 bol s g k)
  | Opt r1 => or_else (run r1 bol s g k) (k bol s g)
  | Rep p lo hi greedy => rep p lo hi greedy bol s (fun bol' s' => k bol' s' g)
  | Grp r1 =>
      run r1 bol s g
        (fun bol' s' _ =>
           k bol' s' (Some (PyStr.take (String.length s - String.length s') s)))
  | Bol => if bol then k bol s g else None
  | Eol =>
      match s with
      | EmptyString => k bol s g
      | String c EmptyString =>
          if Ascii.eqb c "010"%char then k bol s g else None
      | _ => None
      end
  end.

End Matcher.

(** A match object: [group1] is [m.group(1)], [None] when the group took no
    part in the match. *)
Record match_object : Type := mk_match { group1 : option string }.

Definition match_at (r : regex) (bol : bool) (s : string) : option match_object :=
  run r bol s None (fun _ _ g => Some (mk_match g)).

(** [re.match(r, s)] *)
Definition re_match (r : regex) (s : string) : option match_object :=
  match_at r true s.

Fixpoint search_from (r : regex) (bol : bool) (s : string) : option match_object :=
  or_else (match_at r bol s)
    match s with
    | String _ s' => search_from r false s'
    | EmptyString => None
    end.

(** [re.search(r, s)] *)
Definition re_search (r : regex) (s : string) : option match_object :=
  search_from r true s.

(** [bool(m)] for an optional match. *)
Definition found (m : option match_object) : bool :=
  match m with Some _ => true | None => false end.

End Re.

(* ================================================================== *)
(** ** The relational store ([utils/database.py]) *)

Module DatabaseManager.

Record user_data : Type := mk_user {
  user_id : string;
  name : string;
  city : string;
  dietary_category : string;
  medical_conditions : list string
}.

(** The [medical_conditions] column of a [users] row, by what
    [json.loads] makes of it.  The program has no CREATE TABLE for
    [users], so nothing constrains the column: it may hold the JSON array
    of condition names the agents expect, text that is no JSON (a
    [JSONDecodeError], which is a [ValueError], with the decoder's message)
    or NULL (a [TypeError]).  JSON of another shape is left out: the
    agents use the loaded value as a list of condition names. *)
Inductive stored_conditions : Type :=
| JsonArray (conditions : list string)
| NotJson (message : string)
| Null.

Definition json_loads (column : stored_conditions) : result (list string) :=
  match column with
  | JsonArray conditions => Ok conditions
  | NotJson message => Raise (ValueError message)
  | Null =>
      Raise (TypeError "the JSON object must be str, bytes or bytearray, not NoneType")
  end.

(** A row of [users] as stored. *)
Record user_row : Type := mk_row {
  row_user_id : string;
  row_name : string;
  row_city : string;
  row_dietary_category : string;
  row_medical_conditions : stored_conditions
}.

(** What [get_user_by_name] selects of a row. *)
Record user_match : Type := mk_match {
  match_user_id : string;
  match_name : string;
  match_city : string
}.

Record mood_row : Type := mk_mood_row {
  mood_user : string; mood_label : string; mood_score : Z
}.

Record cgm_row : Type := mk_cgm_row {
  cgm_user : string; cgm_reading : Q
}.

Record alert_row : Type := mk_alert_row {
  alert_user : string; alert_reading : Q;
  alert_type : string; alert_message : string
}.

Record food_row : Type := mk_food_row {
  food_user : string; food_description : string; food_nutrients : dict
}.

Record plan_row : Type := mk_plan_row {
  plan_user : string; plan_date : string; plan_meals : dict
}.

Record interaction_row : Type := mk_interaction_row {
  ia_user : string; ia_source : string; ia_target : string;
  ia_data_type : string; ia_summary : string
}.

(** The tables.  [init_agent_tables] creates every table but [users], which
    the deployment has to provide: [users_table = None] is a store without
    it.  Rows are kept oldest first; an INSERT appends. *)
Record Database : Type := mk_db {
  users_table : option (list user_row);
  mood_tracking : list mood_row;
  cgm_readings : list cgm_row;
  cgm_alerts : list alert_row;
  food_intake : list food_row;
  meal_plans : list plan_row;
  agent_interactions : list interaction_row
}.

Definition DB (A : Type) : Type := M Database A.


(** What [get_cgm_trends] and [get_recent_mood_data] return: a count, an
    average, a trend label and the newest rows. *)
Record cgm_trends : Type := mk_cgm_trends {
  readings_count : Z; average_glucose : Q; cgm_trend : string;
  recent_readings : value
}.

Record mood_data : Type := mk_mood_data {
  entries_count : Z; average_mood : Q; mood_trend : string;
  recent_entries : value
}.

(** Every agent table declares [user_id TEXT NOT NULL]. *)
Definition not_null (table : string) (uid : option string) : DB string :=
  match uid with
  | Some u => ret u
  | None => raise (IntegrityError ("NOT NULL constraint failed: " ++ table ++ ".user_id"))
  end.

(** The dict [validate_user_id] builds from a row. *)
Definition load_user (row : user_row) : result user_data :=
  conditions <-? json_loads (row_medical_conditions row) ;;
  Ok (mk_user (row_user_id row) (row_name row) (row_city row)
              (row_dietary_category row) conditions).

Definition validate_user_id (uid : option string) : DB (option user_data) :=
  fun db =>
    match users_table db with
    | None => (Raise (OperationalError "no such table: users"), db)
    | Some rows =>
        match uid with
        | None => (Ok None, db)
        | Some u =>
            match find (fun r => String.eqb (row_user_id r) u) rows with
            | Some row =>
                match load_user row with
                | Ok user => (Ok (Some user), db)
                | Raise e => (Raise e, db)
                end
            | None => (Ok None, db)
            end
        end
    end.

(** The users of a store all of whose rows load: [users db = Some rows]
    says that the store has a [users] table and that [validate_user_id]
    builds [rows] from its rows, so that no lookup fails in
    [json.loads]. *)
Fixpoint load_all (rows : list user_row) : option (list user_data) :=
  match rows with
  | [] => Some []
  | row :: rest =>
      match load_user row, load_all rest with
      | Ok user, Some loaded => Some (user :: loaded)
      | _, _ => None
      end
  end.

Definition users (db : Database) : option (list user_data) :=
  match users_table db with
  | Some rows => load_all rows
  | None => None
  end.

(** [get_user_by_name]: the rows whose name matches [LIKE '%who%'];
    [sql_like pattern text] is SQLite's LIKE. *)
Definition get_user_by_name (sql_like : string -> string -> bool) (who : string)
  : DB (list user_match) :=
  fun db =>
    match users_table db with
    | None => (Raise (OperationalError "no such table: users"), db)
    | Some rows =>
        (Ok (map (fun r => mk_match (row_user_id r) (row_name r) (row_city r))
               (filter (fun r => sql_like ("%" ++ who ++ "%") (row_name r)) rows)),
         db)
    end.

Definition store_mood (uid : option string) (label : string) (score : Z) : DB unit :=
  u <- not_null "mood_tracking" uid ;;
  fun db =>
    (Ok tt, mk_db (users_table db) (mood_tracking db ++ [mk_mood_row u label score])
                  (cgm_readings db) (cgm_alerts db) (food_intake db)
                  (meal_plans db) (agent_interactions db)).

Definition store_cgm_reading (uid : option string) (reading : Q) : DB unit :=
  u <- not_null "cgm_readings" uid ;;
  fun db =>
    (Ok tt, mk_db (users_table db) (mood_tracking db)
                  (cgm_readings db ++ [mk_cgm_row u reading])
                  (cgm_alerts db) (food_intake db)
                  (meal_plans db) (agent_interactions db)).

Definition store_cgm_alert (uid : option string) (reading : Q)
    (alert message : string) : DB unit :=
  u <- not_null "cgm_alerts" uid ;;
  fun db =>
    (Ok tt, mk_db (users_table db) (mood_tracking db) (cgm_readings db)
                  (cgm_alerts db ++ [mk_alert_row u reading alert message])
                  (food_intake db) (meal_plans db) (agent_interactions db)).

Definition log_agent_interaction (uid : option string)
    (source target data_type summary : string) : DB unit :=
  u <- not_null "agent_interactions" uid ;;
  fun db =>
    (Ok tt, mk_db (users_table db) (mood_tracking db) (cgm_readings db)
                  (cgm_alerts db) (food_intake db) (meal_plans db)
                  (agent_interactions db
                     ++ [mk_interaction_row u source target data_type summary])).

End DatabaseManager.

(* ================================================================== *)
(** ** Glucose agent ([agents/cgm_agent.py]) *)

Module CGMAgent.
Import DatabaseManager.

Record cgm_range : Type := mk_range {
  range_min : Z; range_max : Z; target_min : Z; target_max : Z
}.

(** [self.cgm_ranges], set once in [__init__]. *)
Definition cgm_ranges : list (string * cgm_range) :=
  [ ("Type 1 Diabetes", mk_range 80 250 80 180);
    ("Type 2 Diabetes", mk_range 90 220 90 180);
    ("Pre-diabetes",    mk_range 85 180 85 140);
    ("None",            mk_range 70 140 70 140);
    ("default",         mk_range 70 180 80 140) ].

Fixpoint ranges_get (d : list (string * cgm_range)) (key : string)
  : option cgm_range :=
  match d with
  | [] => None
  | (k, v) :: d' => if String.eqb k key then Some v else ranges_get d' key
  end.

(** [self.cgm_ranges[key]] *)
Definition ranges_item (key : string) : DB cgm_range :=
  match ranges_get cgm_ranges key with
  | Some r => ret r
  | None => raise (KeyError key)
  end.

Record t : Type := mk_agent { authenticated_user_id : option string }.

Definition create_cgm_agent (uid : option string) : t := mk_agent uid.

Definition get_user_cgm_range (self : t) (uid : option string) : DB cgm_range :=
  user <- validate_user_id uid ;;
  match user with
  | None => ranges_item "default"
  | Some user =>
      let conditions := medical_conditions user in
      if PyStr.mem "Type 1 Diabetes" conditions then ranges_item "Type 1 Diabetes"
      else if PyStr.mem "Type 2 Diabetes" conditions then ranges_item "Type 2 Diabetes"
      else if PyStr.mem "Pre-diabetes" conditions then ranges_item "Pre-diabetes"
      else if PyStr.mem "None" conditions
              || match conditions with [] => true | _ => false end
      then ranges_item "None"
      else ranges_item "default"
  end.

Section WithEnvironment.

(** [f"{x}"] for a float. *)
Variable float_str : Q -> string.
(** [self.db.get_cgm_trends(uid, days)]: a read of the readings inside the
    time window, which depends on the wall clock. *)
Variable get_cgm_trends : option string -> Z -> Database -> cgm_trends.

(** The alert level, message and first recommendations
    ([process_glucose_reading], "Determine alert level"). *)
Definition determine_alert (glucose_reading : Q) (user_ranges : cgm_range)
  : string * string * list string :=
  if PyNum.ltb glucose_reading (PyNum.of_int (target_min user_ranges)) then
    if PyNum.ltb glucose_reading (PyNum.of_int 70) then
      ("critical_low",
       "ðŸš¨ CRITICAL LOW: " ++ float_str glucose_reading ++ " mg/dL",
       [ "Consume 15g of fast-acting carbs immediately";
         "Test again in 15 minutes";
         "Contact healthcare provider if severe symptoms" ])
    else
      ("low",
       "âš ï¸ LOW: " ++ float_str glucose_reading ++ " mg/dL",
       [ "Consider a small snack with carbohydrates";
         "Monitor closely for symptoms";
         "Test again in 30 minutes" ])
  else if PyNum.gtb glucose_reading (PyNum.of_int (target_max user_ranges)) then
    if PyNum.gtb glucose_reading (PyNum.of_int 250) then
      ("critical_high",
       "ðŸš¨ CRITICAL HIGH: " ++ float_str glucose_reading ++ " mg/dL",
       [ "Check for ketones if diabetic";
         "Stay hydrated";
         "Contact healthcare provider immediately";
         "Avoid strenuous exercise" ])
    else
      ("high",
       "âš ï¸ HIGH: " ++ float_str glucose_reading ++ " mg/dL",
       [ "Stay hydrated";
         "Consider light physical activity if safe";
         "Monitor carbohydrate intake";
         "Test again in 1-2 hours" ])
  else
    ("normal",
     "âœ… NORMAL: " ++ float_str glucose_reading ++ " mg/dL - Great job!",
     [ "Keep up the good work!"; "Continue current management plan" ]).

Definition _get_glucose_based_recommendations (self : t) (reading : Q)
    (user_ranges : cgm_range) : DB (list string) :=
  let recommendations :=
    if PyNum.ltb reading (PyNum.of_int (target_min user_ranges)) then
      [ "Consider having a small snack with protein and complex carbs";
        "Monitor for symptoms of hypoglycemia" ]
    else if PyNum.gtb reading (PyNum.of_int (target_max user_ranges)) then
      [ "Consider light physical activity if safe";
        "Stay well hydrated";
        "Monitor for symptoms of hyperglycemia" ]
    else [] in
  fun db =>
    let recent_trends := get_cgm_trends (authenticated_user_id self) 3 db in
    if (2 <=? readings_count recent_trends)%Z then
      if String.eqb (cgm_trend recent_trends) "increasing" then
        (Ok (recommendations ++
           ["Your glucose has been trending higher - consider reviewing recent meals"])%list, db)
      else if String.eqb (cgm_trend recent_trends) "decreasing" then
        (Ok (recommendations ++
           ["Your glucose has been trending lower - monitor for hypoglycemia"])%list, db)
      else (Ok recommendations, db)
    else (Ok recommendations, db).

Definition process_glucose_reading (self : t) (glucose_reading : Q) : DB dict :=
  if negb (PyStr.truthy (authenticated_user_id self)) then
    ret [ ("status", VStr "error");
          ("message", VStr "Please log in first before recording glucose readings.") ]
  else if PyNum.ltb glucose_reading (PyNum.of_int 20)
          || PyNum.gtb glucose_reading (PyNum.of_int 600) then
    ret [ ("status", VStr "error");
          ("message", VStr ("Invalid glucose reading: " ++ float_str glucose_reading
                            ++ " mg/dL. Please check your meter and try again.")) ]
  else
    user_ranges <- get_user_cgm_range self (authenticated_user_id self) ;;
    let '(alert, message, recommendations) :=
      determine_alert glucose_reading user_ranges in
    store_cgm_reading (authenticated_user_id self) glucose_reading ;;;
    log_agent_interaction (authenticated_user_id self)
      "CGMAgent" "Database" "glucose_logging"
      ("Reading: " ++ float_str glucose_reading ++ " mg/dL, Alert: " ++ alert) ;;;
    (if negb (String.eqb alert "normal")
     then store_cgm_alert (authenticated_user_id self) glucose_reading alert message
     else ret tt) ;;;
    glucose_recommendations <-
      _get_glucose_based_recommendations self glucose_reading user_ranges ;;
    ret [ ("status", VStr "success");
          ("reading", VFloat glucose_reading);
          ("alert_type", VStr alert);
          ("message", VStr message);
          ("recommendations",
           VList (map VStr (recommendations ++ glucose_recommendations)%list));
          ("target_range",
           VStr (PyStr.str_of_int (target_min user_ranges) ++ "-"
                 ++ PyStr.str_of_int (target_max user_ranges) ++ " mg/dL")) ].

(** [process_glucose_reading] on what [float] returned.  An infinite
    reading takes the same two guards: the login guard first, then the
    range guard, which refuses it ([inf > 600]) with [inf] in the
    message. *)
Definition process_glucose_reading_value (self : t)
    (glucose_reading : PyNum.float_value) : DB dict :=
  match glucose_reading with
  | PyNum.Finite reading => process_glucose_reading self reading
  | PyNum.Infinity =>
      if negb (PyStr.truthy (authenticated_user_id self)) then
        ret [ ("status", VStr "error");
              ("message",
               VStr "Please log in first before recording glucose readings.") ]
      else
        ret [ ("status", VStr "error");
              ("message",
               VStr ("Invalid glucose reading: "
                     ++ PyNum.format float_str glucose_reading
                     ++ " mg/dL. Please check your meter and try again.")) ]
  end.

(** [self.db.get_recent_cgm_readings(uid, days)], newest first, and
    [round(x, 1)]. *)
Variable get_recent_cgm_readings : option string -> Z -> Database -> list Q.
Variable round1 : Q -> Q.

Definition get_glucose_trends (self : t) (days : Z) : DB dict :=
  if negb (PyStr.truthy (authenticated_user_id self)) then
    ret [ ("status", VStr "error");
          ("message", VStr "Please log in first to view glucose trends.") ]
  else
    fun db =>
      let cgm_data := get_cgm_trends (authenticated_user_id self) days db in
      if (readings_count cgm_data =? 0)%Z then
        (Ok [ ("status", VStr "success");
              ("message", VStr ("No glucose readings found in the past "
                                ++ PyStr.str_of_int days ++ " days."));
              ("readings_count", VInt 0) ], db)
      else
        (log_agent_interaction (authenticated_user_id self)
           "CGMAgent" "User" "trend_analysis"
           ("Analyzed " ++ PyStr.str_of_int (readings_count cgm_data)
            ++ " glucose readings over " ++ PyStr.str_of_int days ++ " days") ;;;
         user_ranges <- get_user_cgm_range self (authenticated_user_id self) ;;
         fun db' =>
           let readings :=
             get_recent_cgm_readings (authenticated_user_id self) days db' in
           let in_range_count :=
             List.length
               (filter (fun r =>
                          Qle_bool (PyNum.of_int (target_min user_ranges)) r
                          && Qle_bool r (PyNum.of_int (target_max user_ranges)))
                       readings) in
           let time_in_range :=
             match readings with
             | [] => PyNum.of_int 0
             | _ => ((inject_Z (Z.of_nat in_range_count)
                      / inject_Z (Z.of_nat (List.length readings)))
                     * PyNum.of_int 100)%Q
             end in
           (Ok [ ("status", VStr "success");
                 ("readings_count", VInt (readings_count cgm_data));
                 ("average_glucose", VFloat (average_glucose cgm_data));
                 ("trend", VStr (cgm_trend cgm_data));
                 ("time_in_range", VFloat (round1 time_in_range));
                 ("target_range",
                  VStr (PyStr.str_of_int (target_min user_ranges) ++ "-"
                        ++ PyStr.str_of_int (target_max user_ranges) ++ " mg/dL"));
                 ("recent_readings", recent_readings cgm_data) ], db')) db.

Definition validate_reading_range (glucose_reading : Q) : dict :=
  if PyNum.ltb glucose_reading (PyNum.of_int 20) then
    [ ("valid", VBool false);
      ("message",
       VStr "Reading too low - glucose meters typically can't measure below 20 mg/dL") ]
  else if PyNum.gtb glucose_reading (PyNum.of_int 600) then
    [ ("valid", VBool false);
      ("message", VStr "Reading too high - please check your meter and try again") ]
  else if PyNum.ltb glucose_reading (PyNum.of_int 80)
          || PyNum.gtb glucose_reading (PyNum.of_int 300) then
    [ ("valid", VBool true);
      ("message",
       VStr "Reading is in measurable range but may require immediate attention");
      ("warning", VBool true) ]
  else
    [ ("valid", VBool true);
      ("message", VStr "Reading is within normal measurement range") ].

End WithEnvironment.

End CGMAgent.

(* ================================================================== *)
(** ** Mood agent ([agents/mood_tracker_agent.py]) *)

Module MoodTrackerAgent.
Import DatabaseManager.

(** [self.mood_scores] *)
Definition mood_scores : list (string * Z) :=
  [ ("terrible", 1); ("awful", 1); ("horrible", 1);
    ("depressed", 2); ("miserable", 2);
    ("sad", 3); ("down", 3); ("low", 3);
    ("tired", 4); ("bad", 4);
    ("okay", 5); ("neutral", 5); ("fine", 5);
    ("good", 6); ("decent", 6); ("alright", 6);
    ("happy", 7); ("positive", 7); ("cheerful", 7);
    ("great", 8); ("wonderful", 8); ("fantastic", 8);
    ("excited", 9); ("amazing", 9); ("thrilled", 9);
    ("ecstatic", 10); ("overjoyed", 10); ("blissful", 10) ]%Z.

Fixpoint scores_get (d : list (string * Z)) (key : string) : option Z :=
  match d with
  | [] => None
  | (k, v) :: d' => if String.eqb k key then Some v else scores_get d' key
  end.

Record t : Type := mk_agent { authenticated_user_id : option string }.

Definition create_mood_tracker_agent (uid : option string) : t := mk_agent uid.

(** [sum(1 for word in ws if word in s)] *)
Definition count_in (ws : list string) (s : string) : Z := PyStr.sum_in 1 ws s.

Definition extract_simple_mood_label (mood_input : string) : string :=
  let mood_lower := PyStr.strip (PyStr.lower mood_input) in
  if PyStr.any_in ["terrible"; "awful"; "horrible"; "worst"] mood_lower then "terrible"
  else if PyStr.any_in ["very sad"; "depressed"; "miserable"; "devastated"] mood_lower
  then "depressed"
  else if PyStr.any_in ["sad"; "down"; "low"; "blue"; "upset"] mood_lower then "sad"
  else if PyStr.any_in ["tired"; "sluggish"; "drained"; "exhausted"; "weary"] mood_lower
  then "tired"
  else if PyStr.any_in ["bad"; "not good"; "poor"; "rough"] mood_lower then "bad"
  else if PyStr.any_in ["ecstatic"; "overjoyed"; "blissful"; "euphoric"; "elated"] mood_lower
  then "ecstatic"
  else if PyStr.any_in ["excited"; "amazing"; "thrilled"; "energetic"; "pumped"] mood_lower
  then "excited"
  else if PyStr.any_in ["great"; "wonderful"; "fantastic"; "awesome"; "excellent"] mood_lower
  then "great"
  else if PyStr.any_in ["happy"; "positive"; "cheerful"; "content"; "joyful"] mood_lower
  then "happy"
  else if PyStr.any_in ["good"; "decent"; "alright"; "better"; "well"] mood_lower then "good"
  else if PyStr.any_in ["okay"; "fine"; "meh"; "so-so"] mood_lower then "okay"
  else
    let positive_words := ["love"; "like"; "enjoy"; "nice"; "pleasant"; "bright"] in
    let negative_words := ["hate"; "dislike"; "stress"; "worry"; "angry"; "frustrated"] in
    let pos_count := count_in positive_words mood_lower in
    let neg_count := count_in negative_words mood_lower in
    if (neg_count <? pos_count)%Z then "good"
    else if (pos_count <? neg_count)%Z then "down"
    else "neutral".

Definition convert_mood_to_score (mood_label : string) : dict :=
  let mood_lower := PyStr.strip (PyStr.lower mood_label) in
  let score :=
    match scores_get mood_scores mood_lower with
    | Some v => v
    | None =>
        if PyStr.any_in ["terrible"; "awful"; "horrible"; "worst"] mood_lower then 1
        else if PyStr.any_in ["very sad"; "depressed"; "miserable"; "devastated"] mood_lower
        then 2
        else if PyStr.any_in ["sad"; "down"; "low"; "blue"; "upset"] mood_lower then 3
        else if PyStr.any_in ["tired"; "sluggish"; "drained"; "exhausted"; "weary"] mood_lower
        then 4
        else if PyStr.any_in ["good"; "decent"; "alright"; "better"] mood_lower then 6
        else if PyStr.any_in ["happy"; "positive"; "cheerful"; "content"] mood_lower then 7
        else if PyStr.any_in ["great"; "wonderful"; "fantastic"; "awesome"] mood_lower then 8
        else if PyStr.any_in ["excited"; "amazing"; "thrilled"; "energetic"] mood_lower then 9
        else if PyStr.any_in ["ecstatic"; "overjoyed"; "blissful"; "euphoric"] mood_lower
        then 10
        else 5
    end%Z in
  let interpretation :=
    if (score <=? 2)%Z then "Very Low - Consider reaching out for support"
    else if (score <=? 4)%Z then "Low - Self-care and rest may help"
    else if (score =? 5)%Z then "Neutral - A typical day"
    else if (score <=? 7)%Z then "Good - Positive and stable"
    else if (score <=? 9)%Z then "High - Feeling great!"
    else "Very High - Excellent mood!" in
  [ ("mood_label", VStr mood_label);
    ("mood_score", VInt score);
    ("interpretation", VStr interpretation) ].

Section WithEnvironment.

Variable float_str : Q -> string.
(** [self.db.get_mood_rolling_average(uid, days)] and
    [self.db.get_recent_mood_data(uid, days)]: reads of the rows inside a
    time window, which depend on the wall clock. *)
Variable get_mood_rolling_average : option string -> Z -> Database -> Q.
Variable get_recent_mood_data : option string -> Z -> Database -> mood_data.

Definition _get_mood_based_recommendations (current_score : Z) (rolling_avg : Q)
  : string :=
  let cur := PyNum.of_int current_score in
  if (current_score <=? 3)%Z then
    if PyNum.gtb rolling_avg (PyNum.of_int 0)
       && PyNum.ltb cur (rolling_avg - PyNum.of_int 2)%Q
    then "Consider reaching out to a friend or family member. Your mood has been lower than usual."
    else "Try some gentle self-care activities like deep breathing or a warm bath."
  else if (current_score <=? 5)%Z then
    if PyNum.gtb rolling_avg (PyNum.of_int 0)
       && PyNum.ltb cur (rolling_avg - PyNum.of_int 1)%Q
    then "A short walk or listening to your favorite music might help lift your spirits."
    else "Consider activities that bring you joy, even small ones."
  else if (8 <=? current_score)%Z then
    "Great energy! Consider channeling this positive mood into productive activities."
  else "You're doing well! Keep up the positive momentum.".

Definition as_int (v : value) : result Z :=
  match v with
  | VInt z => Ok z
  | VBool b => Ok (if b then 1 else 0)%Z
  | _ => Raise (TypeError "an integer is required")
  end.

Definition log_mood (self : t) (mood_input : string) : DB dict :=
  if negb (PyStr.truthy (authenticated_user_id self)) then
    ret [ ("status", VStr "error");
          ("message", VStr "Please log in first before logging your mood.") ]
  else
    let simple_mood_label := extract_simple_mood_label mood_input in
    let mood_data := convert_mood_to_score simple_mood_label in
    score_v <- lift_result (dict_item mood_data "mood_score") ;;
    score <- lift_result (as_int score_v) ;;
    store_mood (authenticated_user_id self) simple_mood_label score ;;;
    log_agent_interaction (authenticated_user_id self)
      "MoodTrackerAgent" "Database" "mood_logging"
      ("Mood: " ++ simple_mood_label ++ " (Score: " ++ PyStr.str_of_int score ++ "/10)") ;;;
    fun db =>
      let rolling_avg := get_mood_rolling_average (authenticated_user_id self) 7 db in
      let message :=
        "Mood logged: **" ++ simple_mood_label ++ "** (Score: "
        ++ PyStr.str_of_int score ++ "/10)" in
      let message :=
        if negb (String.eqb (PyStr.strip (PyStr.lower mood_input))
                            (PyStr.lower simple_mood_label))
        then message ++ String "010" "From: " ++ String "034" mood_input
                     ++ String "034" EmptyString
        else message in
      let message :=
        if PyNum.gtb rolling_avg (PyNum.of_int 0) then
          let message :=
            message ++ String "010" "Your 7-day average: "
                    ++ float_str rolling_avg ++ "/10" in
          if PyNum.gtb (PyNum.of_int score) (rolling_avg + PyNum.of_int 1)%Q then
            message ++ String "010" "That's higher than your recent average - great to see!"
          else if PyNum.ltb (PyNum.of_int score) (rolling_avg - PyNum.of_int 1)%Q then
            message ++ String "010" "That's lower than usual - remember to be kind to yourself."
          else message
        else message in
      let recommendations := _get_mood_based_recommendations score rolling_avg in
      let message :=
        if negb (String.eqb recommendations EmptyString)
        then message ++ String "010" (String "010" "💡 **Suggestions:** ") ++ recommendations
        else message in
      match dict_item mood_data "interpretation" with
      | Raise e => (Raise e, db)
      | Ok interpretation =>
          (Ok [ ("status", VStr "success");
                ("message", VStr message);
                ("mood_score", VInt score);
                ("interpretation", interpretation);
                ("rolling_average", VFloat rolling_avg);
                ("recommendations", VStr recommendations) ], db)
      end.

Definition get_mood_trends (self : t) (days : Z) : DB dict :=
  if negb (PyStr.truthy (authenticated_user_id self)) then
    ret [ ("status", VStr "error");
          ("message", VStr "Please log in first to view mood trends.") ]
  else
    fun db =>
      let mood_data := get_recent_mood_data (authenticated_user_id self) days db in
      if (entries_count mood_data =? 0)%Z then
        (Ok [ ("status", VStr "success");
              ("message", VStr ("No mood entries found in the past "
                                ++ PyStr.str_of_int days ++ " days."));
              ("entries_count", VInt 0) ], db)
      else
        (log_agent_interaction (authenticated_user_id self)
           "MoodTrackerAgent" "User" "trend_analysis"
           ("Analyzed " ++ PyStr.str_of_int (entries_count mood_data)
            ++ " mood entries over " ++ PyStr.str_of_int days ++ " days") ;;;
         ret [ ("status", VStr "success");
               ("entries_count", VInt (entries_count mood_data));
               ("average_mood", VFloat (average_mood mood_data));
               ("trend", VStr (mood_trend mood_data));
               ("recent_entries", recent_entries mood_data) ]) db.

Definition _get_overall_assessment (avg_mood : Q) (trend : value) : string :=
  if Qle_bool (PyNum.of_int 7) avg_mood
     && (value_is trend "improving" || value_is trend "stable")
  then "Excellent - You're maintaining great mental wellness!"
  else if Qle_bool (PyNum.of_int 5) avg_mood && value_is trend "improving"
  then "Good - You're on a positive trajectory!"
  else if Qle_bool (PyNum.of_int 5) avg_mood && value_is trend "stable"
  then "Stable - You're managing well overall."
  else if value_is trend "improving"
  then "Encouraging - Your mood is trending upward!"
  else "Needs attention - Consider focusing on mood-supporting activities.".

Definition get_mood_insights (self : t) : DB dict :=
  if negb (PyStr.truthy (authenticated_user_id self)) then
    ret [ ("status", VStr "error");
          ("message", VStr "Please log in first to get mood insights.") ]
  else
    trends <- get_mood_trends self 30 ;;
    entries_count <- lift_result (dict_item trends "entries_count") ;;
    if value_eq_int entries_count 0 then
      ret [ ("status", VStr "success");
            ("message",
             VStr "Not enough mood data for insights. Keep logging your mood daily!") ]
    else
      avg_mood_value <- lift_result (dict_item trends "average_mood") ;;
      avg_mood <- lift_result (as_number avg_mood_value) ;;
      let '(insights, recommendations) :=
        if Qle_bool (PyNum.of_int 7) avg_mood then
          ([ "You've been maintaining a positive mood - excellent!" ],
           [ "Keep doing what you're doing!" ])
        else if Qle_bool (PyNum.of_int 5) avg_mood then
          ([ "Your mood has been generally balanced." ],
           [ "Consider activities that bring you joy to boost your mood further." ])
        else
          ([ "Your mood has been lower than ideal recently." ],
           [ "Consider speaking with a counselor or trusted friend.";
             "Try incorporating mood-boosting activities into your routine." ]) in
      trend <- lift_result (dict_item trends "trend") ;;
      let '(insights, recommendations) :=
        if value_is trend "improving" then
          ((insights ++ [ "Great news! Your mood trend is improving over time." ])%list,
           recommendations)
        else if value_is trend "declining" then
          ((insights
            ++ [ "Your mood trend shows some decline - let's work on reversing this." ])%list,
           (recommendations
            ++ [ "Identify any recent stressors or changes in routine." ])%list)
        else (insights, recommendations) in
      max_mood_value <- lift_result (dict_item trends "max_mood") ;;
      min_mood_value <- lift_result (dict_item trends "min_mood") ;;
      max_mood <- lift_result (as_number max_mood_value) ;;
      min_mood <- lift_result (as_number min_mood_value) ;;
      let mood_range := (max_mood - min_mood)%Q in
      let '(insights, recommendations) :=
        if Qle_bool mood_range (PyNum.of_int 3) then
          ((insights
            ++ [ "Your mood has been quite stable - that's a positive sign." ])%list,
           recommendations)
        else if Qle_bool (PyNum.of_int 6) mood_range then
          ((insights
            ++ [ "You've experienced significant mood swings recently." ])%list,
           (recommendations ++ [ "Try to identify triggers for mood changes." ])%list)
        else (insights, recommendations) in
      trend <- lift_result (dict_item trends "trend") ;;
      ret [ ("status", VStr "success");
            ("insights", VList (map VStr insights));
            ("recommendations", VList (map VStr recommendations));
            ("overall_assessment", VStr (_get_overall_assessment avg_mood trend)) ].

End WithEnvironment.

End MoodTrackerAgent.

(* ================================================================== *)
(** ** Food and meal-plan agents
       ([agents/food_intake_agent.py], [agents/meal_planner_agent.py])

    Past their login guard these handlers call the generative backend;
    that part is a parameter. *)

Module FoodIntakeAgent.
Import DatabaseManager.

Record t : Type := mk_agent { authenticated_user_id : option string }.

Definition create_food_intake_agent (uid : option string) : t := mk_agent uid.

Section WithEnvironment.

(** The bodies below the guard of [log_meal] and [get_nutrition_insights]. *)
Variable log_meal_authenticated : t -> string -> DB dict.
Variable get_nutrition_insights_authenticated : t -> Z -> DB dict.

Definition log_meal (self : t) (meal_description : string) : DB dict :=
  if negb (PyStr.truthy (authenticated_user_id self)) then
    ret [ ("status", VStr "error");
          ("message", VStr "Please log in first before logging meals.") ]
  else log_meal_authenticated self meal_description.

Definition get_nutrition_insights (self : t) (days : Z) : DB dict :=
  if negb (PyStr.truthy (authenticated_user_id self)) then
    ret [ ("status", VStr "error");
          ("message", VStr "Please log in first to view nutrition insights.") ]
  else get_nutrition_insights_authenticated self days.

End WithEnvironment.

End FoodIntakeAgent.

Module MealPlannerAgent.
Import DatabaseManager.

Record t : Type := mk_agent { authenticated_user_id : option string }.

Definition create_meal_planner_agent (uid : option string) : t := mk_agent uid.

Section WithEnvironment.

(** The body below the guard of [generate_meal_plan]. *)
Variable generate_meal_plan_authenticated : t -> option string -> DB dict.

Definition generate_meal_plan (self : t) (plan_date : option string) : DB dict :=
  if negb (PyStr.truthy (authenticated_user_id self)) then
    ret [ ("status", VStr "error");
          ("message", VStr "Please log in first to generate a meal plan.") ]
  else generate_meal_plan_authenticated self plan_date.

End WithEnvironment.

End MealPlannerAgent.

(* ================================================================== *)
(** ** Greeting and interrupt agents
       ([agents/greeting_agent.py], [agents/interrupt_agent.py]) *)

Module GreetingAgent.
Import DatabaseManager.

Record t : Type := mk_agent { current_user : option user_data }.

(** The reply of both lookups: [user_data] is present on a successful
    validation, [users] on a successful search. *)
Record reply : Type := mk_reply {
  status : string;
  message : string;
  reply_user : option user_data;
  reply_users : option (list user_match)
}.

Definition validate_user_id (self : t) (uid : string) : DB (reply * t) :=
  found <- DatabaseManager.validate_user_id (Some (PyStr.strip uid)) ;;
  match found with
  | Some u =>
      ret (mk_reply "success"
             ("Welcome back, " ++ name u ++ " from " ++ city u ++ "!")
             (Some u) None,
           mk_agent (Some u))
  | None =>
      ret (mk_reply "error"
             "Invalid user ID. Please check your ID or tell me your name so I can help you find it."
             None None,
           self)
  end.

Definition search_users_by_name (sql_like : string -> string -> bool)
    (self : t) (who : string) : DB (reply * t) :=
  found <- get_user_by_name sql_like (PyStr.strip who) ;;
  match found with
  | _ :: _ =>
      ret (mk_reply "success"
             ("Found " ++ PyStr.str_of_int (Z.of_nat (List.length found))
              ++ " user(s) matching '" ++ who ++ "':")
             None (Some found),
           self)
  | [] =>
      ret (mk_reply "error"
             ("No users found matching '" ++ who
              ++ "'. Please try a different name or check the spelling.")
             None None,
           self)
  end.

Definition is_user_authenticated (self : t) : bool :=
  match current_user self with
  | Some _ => true
  | None => false
  end.

Definition get_authenticated_user_id (self : t) : option string :=
  match current_user self with
  | Some u => Some (user_id u)
  | None => None
  end.

End GreetingAgent.

Module InterruptAgent.
Import DatabaseManager.

Record t : Type := mk_agent {
  authenticated_user_id : option string;
  current_user_name : option string
}.

Definition features_explanation : string :=
  "
ğŸ¥ **Health Agent System Features**

**ğŸ­ Mood Tracking**
â€¢ Log your daily mood with descriptive labels
â€¢ View mood trends and rolling averages
â€¢ Get personalized mood-boosting suggestions
â€¢ Track patterns over time

**ğŸ©¸ Glucose Monitoring (CGM)**
â€¢ Log glucose readings with smart validation
â€¢ Get alerts for out-of-range readings
â€¢ Medical condition-aware target ranges
â€¢ Track glucose trends and time in range

**ğŸ½ï¸ Food Intake Tracking**
â€¢ Log meals with automatic nutrient analysis
â€¢ AI-powered food categorization
â€¢ Daily nutrition summaries
â€¢ Dietary preference considerations

**ğŸ“‹ Meal Planning**
â€¢ Generate personalized 3-meal daily plans
â€¢ Adapts to your medical conditions
â€¢ Considers recent mood and glucose data
â€¢ Customizable with shopping lists

**â“ General Q&A Assistant**
â€¢ Ask health and nutrition questions anytime
â€¢ Get answers without losing your place
â€¢ Helpful routing back to main features
â€¢ FAQ support for common questions

**ğŸ” Smart Authentication**
â€¢ Secure user ID validation
â€¢ Name-based user search
â€¢ Personalized greetings with location

**ğŸ’¡ Quick Commands:**
â€¢ " ++ dq ++ "Track mood" ++ dq ++ " - Log how you're feeling
â€¢ " ++ dq ++ "Log glucose" ++ dq ++ " - Record a CGM reading
â€¢ " ++ dq ++ "Log meal" ++ dq ++ " - Track food intake
â€¢ " ++ dq ++ "Plan meals" ++ dq ++ " - Generate meal suggestions
â€¢ " ++ dq ++ "Show insights" ++ dq ++ " - View health trends
â€¢ " ++ dq ++ "Help" ++ dq ++ " - See this feature list

What would you like to try?".

Definition explain_system_features : dict :=
  [ ("status", VStr "success"); ("explanation", VStr features_explanation) ].

Definition get_authenticated_user_id (self : t) : option string :=
  authenticated_user_id self.

Definition is_user_authenticated (self : t) : bool :=
  match authenticated_user_id self with
  | Some _ => true
  | None => false
  end.

(** *** [answer_general_question]

    The groups of its patterns are never read; they are written as plain
    alternations. *)

Definition health_keywords : list string :=
  [ "health"; "medical"; "doctor"; "medicine"; "symptoms"; "treatment";
    "diet"; "exercise"; "nutrition"; "wellness"; "fitness" ].

Definition spaces : Re.regex := Re.plus Re.space.

Definition words (ws : list string) : Re.regex := Re.alts (map Re.lit ws).

(** [i'?m] *)
Definition im : list Re.regex := [Re.lit "i"; Re.Opt (Re.lit "'"); Re.lit "m"].

Definition emotional_patterns : list Re.regex :=
  [ Re.seqs (im ++ [spaces;
       words ["stupid"; "dumb"; "worthless"; "useless"; "terrible"; "awful";
              "pathetic"]]);
    Re.seqs [Re.lit "i"; spaces; Re.lit "feel"; spaces; Re.lit "like"];
    Re.seqs (im ++ [spaces; words ["so"; "really"; "very"; "extremely"]; spaces;
       words ["sad"; "depressed"; "angry"; "frustrated"; "upset"; "down"; "low"]]);
    Re.seqs [Re.lit "having"; spaces; Re.lit "a"; spaces;
             words ["bad"; "rough"; "terrible"; "awful"]; spaces; Re.lit "day"];
    Re.seqs [Re.lit "life"; spaces; Re.lit "is"; spaces;
             words ["hard"; "difficult"; "tough"]] ].

Definition food_patterns : list Re.regex :=
  [ Re.seqs [Re.lit "i"; spaces; words ["ate"; "had"; "consumed"; "eaten"]; spaces];
    Re.seqs [Re.lit "just"; spaces; words ["ate"; "had"; "finished"]; spaces];
    Re.seqs [Re.lit "for"; spaces; words ["breakfast"; "lunch"; "dinner"]; spaces;
             Re.lit "i"; spaces] ].

Definition glucose_patterns : list Re.regex :=
  [ Re.seqs [Re.plus Re.digit; Re.star Re.space; Re.lit "mg"];
    Re.seqs [Re.lit "blood"; spaces; Re.lit "sugar"; spaces; Re.lit "is"; spaces;
             Re.plus Re.digit];
    Re.seqs [Re.lit "glucose"; spaces; words ["reading"; "level"]; spaces;
             Re.plus Re.digit] ].

Definition negative_expressions : list Re.regex :=
  [ Re.seqs [Re.lit "you"; spaces; Re.lit "are"; spaces;
             words ["stupid"; "dumb"; "useless"; "terrible"; "awful"; "bad"]];
    Re.seqs [Re.lit "this"; spaces; Re.lit "is"; spaces;
             words ["stupid"; "dumb"; "useless"; "terrible"; "awful"]];
    Re.seqs [words ["stupid"; "dumb"; "useless"; "terrible"; "awful"]; Re.Eol] ].

(** [any(re.search(pattern, text) for pattern in patterns)] *)
Definition any_search (patterns : list Re.regex) (text : string) : bool :=
  existsb (fun pattern => Re.found (Re.re_search pattern text)) patterns.

Definition answer_general_question (self : t) (question : string) : dict :=
  let question_lower := PyStr.strip (PyStr.lower question) in
  let is_health_related := PyStr.any_in health_keywords question_lower in
  let '(answer, routing_suggestion) :=
    if any_search emotional_patterns question_lower then
      ("It sounds like you might be going through something difficult. Would you like to track your mood? I can help you log how you're feeling.",
       VStr "mood_tracking")
    else if any_search food_patterns question_lower then
      ("I noticed you mentioned food. Would you like to log what you've eaten? I can help track your meals and nutrition.",
       VStr "food_logging")
    else if any_search glucose_patterns question_lower then
      ("I see some numbers that look like glucose readings. Would you like to log a blood sugar reading?",
       VStr "glucose_logging")
    else if any_search negative_expressions question_lower then
      (if PyStr.truthy (current_user_name self)
       then "No worries, " ++ str_of_option (current_user_name self)
            ++ "! I'm here to help you with your health tracking. What would you like to do today?"
       else "That's okay! I'm here to help you track your health. What would you like to work on?",
       VNone)
    else if is_health_related then
      ("I can help with general health information, though for specific medical advice, it's best to consult healthcare professionals.",
       VNone)
    else
      (if PyStr.truthy (current_user_name self)
       then "I'm here to help you track your health, "
            ++ str_of_option (current_user_name self)
            ++ ". What would you like to do today?"
       else "I'm your health tracking assistant. I can help you log your mood, track food, monitor glucose levels, or plan meals.",
       VNone) in
  [ ("status", VStr "success");
    ("question", VStr question);
    ("answer", VStr answer);
    ("is_health_related", VBool is_health_related);
    ("user_context",
     VBool (match current_user_name self with Some _ => true | None => false end));
    ("routing_suggestion", routing_suggestion) ].

(** *** [route_to_appropriate_agent] *)

Record route : Type := mk_route {
  keywords : list string;
  agent : string;
  route_message : string
}.

(** [routing_map], in insertion order. *)
Definition routing_map : list (string * route) :=
  [ ("mood_tracker",
     mk_route
       [ "mood"; "feeling"; "emotion"; "happy"; "sad"; "excited"; "tired";
         "anxious"; "stressed"; "depressed"; "angry" ]
       "mood_tracker"
       "It sounds like you might want to track your mood. Would you like to log how you're feeling today?");
    ("cgm_monitor",
     mk_route
       [ "glucose"; "blood sugar"; "cgm"; "diabetes"; "sugar level"; "mg/dl";
         "blood test"; "glucose reading" ]
       "cgm_monitor"
       "It looks like you're interested in glucose monitoring. Would you like to log a glucose reading?");
    ("food_intake",
     mk_route
       [ "food"; "eat"; "ate"; "meal"; "lunch"; "dinner"; "breakfast"; "snack";
         "calories"; "nutrition"; "hungry" ]
       "food_intake"
       "I see you're talking about food! Would you like to log what you've eaten or are planning to eat?");
    ("meal_planner",
     mk_route
       [ "meal plan"; "diet plan"; "recipe"; "menu"; "dietary"; "vegetarian";
         "vegan"; "plan meals"; "what to eat" ]
       "meal_planner"
       "It sounds like you need help with meal planning! Would you like me to generate a personalized meal plan for you?");
    ("main_menu",
     mk_route
       [ "menu"; "options"; "what can"; "help"; "start over"; "begin"; "main" ]
       "main_menu"
       "Would you like to see the main menu to choose what you'd like to track or plan today?") ].

(** The loop over [routing_map.items()]: the first route with a keyword in
    the input. *)
Fixpoint first_route (routes : list (string * route)) (input_lower : string)
  : option route :=
  match routes with
  | [] => None
  | (_, route_info) :: rest =>
      if PyStr.any_in (keywords route_info) input_lower then Some route_info
      else first_route rest input_lower
  end.

Definition route_to_appropriate_agent (user_input : string) : dict :=
  let input_lower := PyStr.lower user_input in
  match first_route routing_map input_lower with
  | Some route_info =>
      [ ("status", VStr "success");
        ("routing_found", VBool true);
        ("recommended_agent", VStr (agent route_info));
        ("message", VStr (route_message route_info));
        ("routing_suggestion", VStr (route_message route_info)) ]
  | None =>
      [ ("status", VStr "success");
        ("routing_found", VBool false);
        ("recommended_agent", VNone);
        ("message",
         VStr "I can help answer your question, and then you can choose what you'd like to do next.");
        ("routing_suggestion", VNone) ]
  end.

(** *** [check_health_related_query] *)

(** [agent_mapping], in insertion order. *)
Definition agent_mapping : list (string * list string) :=
  [ ("mood",
     [ "mood"; "feeling"; "emotion"; "happy"; "sad"; "excited"; "tired";
       "anxious"; "stressed" ]);
    ("glucose",
     [ "glucose"; "blood sugar"; "cgm"; "diabetes"; "sugar level"; "mg/dl" ]);
    ("food",
     [ "food"; "eat"; "meal"; "lunch"; "dinner"; "breakfast"; "calories";
       "nutrition" ]);
    ("meal_plan",
     [ "meal plan"; "diet"; "recipe"; "menu"; "dietary"; "vegetarian"; "vegan" ]);
    ("greeting", [ "login"; "user id"; "sign in"; "account"; "profile" ]) ].

Fixpoint first_agent (mapping : list (string * list string)) (query_lower : string)
  : option string :=
  match mapping with
  | [] => None
  | (agent_name, agent_keywords) :: rest =>
      if PyStr.any_in agent_keywords query_lower then Some agent_name
      else first_agent rest query_lower
  end.

Definition check_health_related_query (query : string) : dict :=
  let query_lower := PyStr.lower query in
  match first_agent agent_mapping query_lower with
  | Some agent_name =>
      [ ("status", VStr "success");
        ("is_health_related", VBool true);
        ("suggested_agent", VStr agent_name);
        ("confidence", VStr "high") ]
  | None =>
      [ ("status", VStr "success");
        ("is_health_related", VBool false);
        ("suggested_agent", VNone);
        ("confidence", VStr "low") ]
  end.

End InterruptAgent.

(* ================================================================== *)
(** ** The orchestrator ([main.py]): classifier and extractors *)

Module HealthAgentSystem.
Import DatabaseManager.

(** *** Intent classifier *)

Definition mood_indicators_direct : list string :=
  [ "feel"; "mood"; "feeling"; "emotions"; "emotional" ].

Definition mood_indicators_positive : list string :=
  [ "happy"; "great"; "awesome"; "fantastic"; "wonderful"; "excited";
    "thrilled"; "amazing"; "good"; "better"; "cheerful"; "joyful"; "elated";
    "ecstatic" ].

Definition mood_indicators_negative : list string :=
  [ "sad"; "terrible"; "awful"; "horrible"; "bad"; "worse"; "depressed";
    "down"; "low"; "upset"; "angry"; "frustrated"; "stressed"; "anxious";
    "worried"; "scared"; "tired"; "exhausted"; "drained" ].

Definition mood_indicators_self_ref : list string :=
  [ "i am"; "i'm"; "i feel"; "i'm feeling"; "feeling"; "today i";
    "right now i" ].

Definition mood_indicators_qualifiers : list string :=
  [ "really"; "very"; "extremely"; "super"; "so"; "quite"; "pretty";
    "kind of"; "sort of"; "a bit"; "little" ].

Definition cgm_indicators_direct : list string :=
  [ "glucose"; "blood sugar"; "cgm"; "reading"; "mg/dl"; "sugar level";
    "diabetes"; "diabetic" ].

Definition cgm_indicators_actions : list string :=
  [ "check"; "test"; "measure"; "monitor" ].

Definition food_indicators_past_tense : list string :=
  [ "ate"; "had"; "eaten"; "consumed"; "finished"; "devoured" ].

Definition food_indicators_present_tense : list string :=
  [ "eating"; "having"; "consuming" ].

Definition food_indicators_meals : list string :=
  [ "breakfast"; "lunch"; "dinner"; "snack"; "meal"; "brunch"; "supper" ].

Definition food_indicators_food_items : list string :=
  [ "food"; "pizza"; "salad"; "chicken"; "rice"; "bread"; "fruit";
    "vegetables" ].

Definition food_indicators_context : list string :=
  [ "just"; "recently"; "earlier"; "this morning"; "for lunch"; "for dinner" ].

Definition planning_indicators_direct : list string :=
  [ "meal plan"; "plan meal"; "plan a meal"; "meal planning"; "menu";
    "meal ideas"; "suggest meals"; "what to eat"; "plan my meals" ].

Definition planning_indicators_planning_verbs : list string :=
  [ "plan"; "planning"; "suggest"; "recommend"; "generate"; "create" ].

Definition planning_indicators_questions : list string :=
  [ "what should i eat"; "what can i eat"; "meal suggestions";
    "food recommendations" ].

Definition planning_indicators_time_based : list string :=
  [ "tomorrow"; "today"; "this week"; "next week"; "meal prep" ].

Definition insights_indicators_direct : list string :=
  [ "trends"; "insights"; "show me"; "view"; "display"; "analysis";
    "patterns"; "summary"; "report"; "data"; "statistics"; "dashboard" ].

Definition insights_indicators_requests : list string :=
  [ "how am i doing"; "my progress"; "track my"; "history"; "overview";
    "my health"; "health dashboard" ].

(** [cgm_indicators["values"]] *)
Definition glucose_units : Re.regex :=
  Re.alts [Re.lit "mg"; Re.lit "glucose"; Re.lit "sugar"; Re.lit "reading"].

Definition cgm_indicators_values : list Re.regex :=
  [ Re.seqs [Re.plus Re.digit; Re.star Re.space; glucose_units];
    Re.seqs [Re.lit "glucose"; Re.star Re.dot; Re.plus Re.digit];
    Re.seqs [Re.lit "sugar"; Re.star Re.dot; Re.plus Re.digit];
    Re.seqs [Re.lit "reading"; Re.star Re.dot; Re.plus Re.digit] ].

(** [i'?m\s+] *)
Definition im_prefix : list Re.regex :=
  [Re.lit "i"; Re.Opt (Re.lit "'"); Re.lit "m"; Re.plus Re.space].

(** [i'?m\s+(stupid|dumb|worthless|useless|terrible|awful|pathetic)] *)
Definition self_deprecating : Re.regex :=
  Re.seqs (im_prefix ++
    [Re.Grp (Re.alts [Re.lit "stupid"; Re.lit "dumb"; Re.lit "worthless";
                      Re.lit "useless"; Re.lit "terrible"; Re.lit "awful";
                      Re.lit "pathetic"])]).

(** [i\s+feel\s+like] *)
Definition i_feel_like : Re.regex :=
  Re.seqs [Re.lit "i"; Re.plus Re.space; Re.lit "feel"; Re.plus Re.space;
           Re.lit "like"].

(** [i'?m\s+(so|really|very|extremely)\s+\w+] *)
Definition intensity_qualified : Re.regex :=
  Re.seqs (im_prefix ++
    [Re.Grp (Re.alts [Re.lit "so"; Re.lit "really"; Re.lit "very";
                      Re.lit "extremely"]);
     Re.plus Re.space; Re.plus Re.word]).

Definition calculate_mood_score (input_lower : string) : Z :=
  (PyStr.sum_in 2 mood_indicators_direct input_lower
   + PyStr.sum_in 2 mood_indicators_positive input_lower
   + PyStr.sum_in 2 mood_indicators_negative input_lower
   + PyStr.sum_in 3 mood_indicators_self_ref input_lower
   + (if Re.found (Re.re_search self_deprecating input_lower) then 5 else 0)
   + (if Re.found (Re.re_search i_feel_like input_lower) then 4 else 0)
   + (if Re.found (Re.re_search intensity_qualified input_lower) then 3 else 0))%Z.

Definition calculate_cgm_score (input_lower : string) : Z :=
  (PyStr.sum_in 2 cgm_indicators_direct input_lower
   + PyStr.sum_in 1 cgm_indicators_actions input_lower)%Z.

Definition calculate_food_score (input_lower : string) : Z :=
  let score :=
    (PyStr.sum_in 3 food_indicators_past_tense input_lower
     + PyStr.sum_in 2 food_indicators_present_tense input_lower
     + PyStr.sum_in 1 food_indicators_food_items input_lower
     + PyStr.sum_in 1 food_indicators_context input_lower)%Z in
  let has_logging_context :=
    PyStr.any_in (food_indicators_past_tense ++ food_indicators_context)
                 input_lower in
  let has_planning_context :=
    PyStr.any_in planning_indicators_planning_verbs input_lower in
  if negb has_planning_context && has_logging_context then
    (score + PyStr.sum_in 2 food_indicators_meals input_lower)%Z
  else if negb has_planning_context then
    (score + PyStr.sum_in 1 food_indicators_meals input_lower)%Z
  else score.

Definition calculate_planning_score (input_lower : string) : Z :=
  let score :=
    (PyStr.sum_in 4 planning_indicators_direct input_lower
     + PyStr.sum_in 2 planning_indicators_questions input_lower
     + PyStr.sum_in 1 planning_indicators_time_based input_lower)%Z in
  let planning_verbs_present :=
    PyStr.any_in planning_indicators_planning_verbs input_lower in
  let meal_words_present :=
    PyStr.any_in ["meal"; "menu"; "food"; "diet"] input_lower in
  if planning_verbs_present && meal_words_present then (score + 5)%Z
  else if planning_verbs_present then (score + 2)%Z
  else score.

Definition calculate_insights_score (input_lower : string) : Z :=
  let score :=
    (PyStr.sum_in 2 insights_indicators_direct input_lower
     + PyStr.sum_in 2 insights_indicators_requests input_lower)%Z in
  if PyStr.any_in ["show"; "view"; "display"; "get"] input_lower
  then (score + 5)%Z
  else score.

(** The [scores] dict, in insertion order. *)
Definition scores (input_lower : string) : list (string * Z) :=
  [ ("mood_tracking", calculate_mood_score input_lower);
    ("cgm_monitoring", calculate_cgm_score input_lower);
    ("food_logging", calculate_food_score input_lower);
    ("meal_planning", calculate_planning_score input_lower);
    ("insights_request", calculate_insights_score input_lower) ].

(** [max(d.values())] and [max(d, key=d.get)] after the first item: the
    running maximum is replaced only by a strictly larger value, so the
    first key holding the maximum wins. *)
Fixpoint max_value (best : Z) (d : list (string * Z)) : Z :=
  match d with
  | [] => best
  | (_, v) :: d' => max_value (if (best <? v)%Z then v else best) d'
  end.

Fixpoint max_key (best : string * Z) (d : list (string * Z)) : string :=
  match d with
  | [] => fst best
  | (k, v) :: d' => max_key (if (snd best <? v)%Z then (k, v) else best) d'
  end.

Definition _detect_primary_intent (user_input : string) : string :=
  let input_lower := PyStr.strip (PyStr.lower user_input) in
  if existsb (fun pattern => Re.found (Re.re_search pattern input_lower))
             cgm_indicators_values
  then "cgm_monitoring"
  else
    match scores input_lower with
    | [] => "general_question"
    | first :: rest =>
        let max_score := max_value (snd first) rest in
        if (0 <? max_score)%Z then max_key first rest
        else "general_question"
    end.

(** *** Authentication resolver *)

Definition dash : Re.regex := Re.lit "-".

Definition _looks_like_user_id (text : string) : bool :=
  Re.found (Re.re_match (Re.seqs [Re.Bol; Re.times Re.digit 4; Re.Eol]) text)
  || Re.found (Re.re_match
                 (Re.seqs [Re.Bol; Re.Rep Re.hex_dash 8 None true; Re.Eol])
                 (PyStr.lower text))
  || Re.found (Re.re_match
                 (Re.seqs [Re.Bol; Re.times Re.hex 8; dash; Re.times Re.hex 4;
                           dash; Re.times Re.hex 4; dash; Re.times Re.hex 4;
                           dash; Re.times Re.hex 12; Re.Eol])
                 (PyStr.lower text)).

Definition _looks_like_name_search (text : string) : bool :=
  PyStr.any_in ["my name is"; "i am"; "name:"; "called"; "i'm"] (PyStr.lower text).

(** *** Lexical extractors *)

(** The loop of [_extract_name_from_input]: the first pattern found gives
    [match.group(1).strip()]. *)
Fixpoint first_name (patterns : list Re.regex) (text_lower fallback : string)
  : result string :=
  match patterns with
  | [] => Ok fallback
  | pattern :: rest =>
      match Re.re_search pattern text_lower with
      | Some m =>
          match Re.group1 m with
          | Some g => Ok (PyStr.strip g)
          | None => Raise (AttributeError "strip")
          end
      | None => first_name rest text_lower fallback
      end
  end.

Definition rest_of_line : Re.regex := Re.Grp (Re.plus Re.dot).

Definition name_patterns : list Re.regex :=
  [ Re.seqs [Re.lit "my name is "; rest_of_line];
    Re.seqs [Re.lit "i am "; rest_of_line];
    Re.seqs [Re.lit "name"; Re.Opt (Re.lit ":"); Re.star Re.space; rest_of_line];
    Re.seqs [Re.lit "called "; rest_of_line];
    Re.seqs [Re.lit "i'm "; rest_of_line] ].

Definition _extract_name_from_input (text : string) : result string :=
  first_name name_patterns (PyStr.lower text) (PyStr.strip text).

(** The prefix loop shared by [_extract_mood_from_input] and
    [_extract_meal_description]. *)
Fixpoint strip_prefix (prefixes : list string) (text : string) : string :=
  match prefixes with
  | [] => PyStr.strip text
  | prefix :: rest =>
      if PyStr.startswith (PyStr.lower text) prefix
      then PyStr.strip (PyStr.drop (String.length prefix) text)
      else strip_prefix rest text
  end.

Definition _extract_mood_from_input (text : string) : string :=
  strip_prefix ["i feel"; "i'm feeling"; "feeling"; "i am"; "mood:"; "my mood is"]
               text.

Definition _extract_meal_description (text : string) : string :=
  strip_prefix
    [ "i ate"; "i had"; "just ate"; "just had"; "meal:"; "food:";
      "consumed"; "eaten"; "my meal was"; "for lunch i had";
      "for dinner i had"; "for breakfast i had" ]
    text.

(** [(\d+(?:\.\d+)?)] *)
Definition number : Re.regex :=
  Re.Grp (Re.Seq (Re.plus Re.digit)
                 (Re.Opt (Re.Seq (Re.lit ".") (Re.plus Re.digit)))).

Definition glucose_patterns : list Re.regex :=
  [ Re.seqs [number; Re.star Re.space;
             Re.alts [Re.lit "mg/dl"; Re.lit "mg"; Re.lit "glucose";
                      Re.lit "reading"]];
    Re.seqs [Re.lit "glucose"; Re.star_lazy Re.dot; number];
    Re.seqs [Re.lit "reading"; Re.star_lazy Re.dot; number];
    Re.seqs [Re.lit "sugar"; Re.star_lazy Re.dot; number];
    number ].

(** The loop of [_extract_glucose_reading]: a [ValueError] from [float]
    moves on to the next pattern; [float(None)] is a [TypeError]. *)
Fixpoint first_reading (patterns : list Re.regex) (text_lower : string)
  : result (option PyNum.float_value) :=
  match patterns with
  | [] => Ok None
  | pattern :: rest =>
      match Re.re_search pattern text_lower with
      | Some m =>
          match Re.group1 m with
          | None => Raise (TypeError "float() argument must be a string or a real number")
          | Some g =>
              match PyNum.float g with
              | Ok v => Ok (Some v)
              | Raise (ValueError _) => first_reading rest text_lower
              | Raise e => Raise e
              end
          end
      | None => first_reading rest text_lower
      end
  end.

Definition _extract_glucose_reading (text : string)
  : result (option PyNum.float_value) :=
  first_reading glucose_patterns (PyStr.lower text).

Definition date_patterns : list Re.regex :=
  [ Re.Grp (Re.seqs [Re.times Re.digit 4; dash; Re.times Re.digit 2; dash;
                     Re.times Re.digit 2]);
    Re.Grp (Re.seqs [Re.range Re.digit 1 2; Re.lit "/"; Re.range Re.digit 1 2;
                     Re.lit "/"; Re.times Re.digit 4]);
    Re.Grp (Re.seqs [Re.range Re.digit 1 2; dash; Re.range Re.digit 1 2; dash;
                     Re.times Re.digit 4]) ].

(** [month, day, year = parts; f"{year}-{month.zfill(2)}-{day.zfill(2)}"] *)
Definition month_day_year (parts : list string) : result string :=
  match parts with
  | [month; day; year] =>
      Ok (year ++ "-" ++ PyStr.zfill 2 month ++ "-" ++ PyStr.zfill 2 day)
  | _ => Raise (ValueError "wrong number of values to unpack")
  end.

(** The body of the [try] in [_extract_date_from_input]. *)
Definition normalize_date (m : Re.match_object) : result string :=
  match Re.group1 m with
  | None => Raise (TypeError "argument of type 'NoneType' is not iterable")
  | Some date_str =>
      if PyStr.has_char "/" date_str then
        month_day_year (PyStr.split "/" date_str)
      else if PyStr.has_char "-" date_str
              && match PyStr.split "-" date_str with
                 | first :: _ => Nat.leb (String.length first) 2
                 | [] => false
                 end
      then month_day_year (PyStr.split "-" date_str)
      else Ok date_str
  end.

(** The pattern loop: any exception in the body moves on to the next
    pattern (bare [except]). *)
Fixpoint first_date (patterns : list Re.regex) (text : string) : option string :=
  match patterns with
  | [] => None
  | pattern :: rest =>
      match Re.re_search pattern text with
      | Some m =>
          match normalize_date m with
          | Ok d => Some d
          | Raise _ => first_date rest text
          end
      | None => first_date rest text
      end
  end.

Section WithClock.

(** [datetime.now()] and its neighbours, formatted [%Y-%m-%d]. *)
Variables today tomorrow yesterday : string.

Definition _extract_date_from_input (text : string) : option string :=
  let text_lower := PyStr.lower text in
  if PyStr.contains text_lower "today" then Some today
  else if PyStr.contains text_lower "tomorrow" then Some tomorrow
  else if PyStr.contains text_lower "yesterday" then Some yesterday
  else first_date date_patterns text.

End WithClock.

(** *** Session state and the turn boundary *)

Inductive state : Type := Unauthenticated | Authenticated.

(** The value of [self.system_state]. *)
Definition state_str (st : state) : string :=
  match st with
  | Unauthenticated => "unauthenticated"
  | Authenticated => "authenticated"
  end.

Record t : Type := mk_system {
  authenticated_user_id : option string;
  current_user_name : option string;
  current_user_location : option string;
  greeting_agent : GreetingAgent.t;
  interrupt_agent : InterruptAgent.t;
  cgm_agent : option CGMAgent.t;
  mood_tracker_agent : option MoodTrackerAgent.t;
  food_intake_agent : option FoodIntakeAgent.t;
  meal_planner_agent : option MealPlannerAgent.t;
  system_state : state
}.

(** [HealthAgentSystem.__init__] *)
Definition init : t :=
  mk_system None None None (GreetingAgent.mk_agent None)
            (InterruptAgent.mk_agent None None) None None None None
            Unauthenticated.

(** The orchestrator and the store it writes to. *)
Record World : Type := mk_world { self_of : t; db_of : Database }.

Definition Sys (A : Type) : Type := M World A.

Definition lift_db {A} (c : DB A) : Sys A :=
  fun w =>
    let '(r, db') := c (db_of w) in
    (r, mk_world (self_of w) db').

Definition get_self : Sys t := fun w => (Ok (self_of w), w).

Definition update_self (f : t -> t) : Sys unit :=
  fun w => (Ok tt, mk_world (f (self_of w)) (db_of w)).

(** [agent.method(...)] through a field that may hold [None]. *)
Definition call {Agent A} (agent : option Agent) (method : string)
    (f : Agent -> DB A) : Sys A :=
  match agent with
  | Some a => lift_db (f a)
  | None => raise (AttributeError method)
  end.

Definition welcome_message (current_user_name current_user_location : string) : string :=
  "🎉 **Welcome back, " ++ current_user_name ++ " from " ++ current_user_location ++ "!**

I'm your personal health assistant. Here's what I can help you with today:

**🏥 Quick Actions:**
• **Track Mood** - " ++ dq ++ "I'm feeling great today!" ++ dq ++ "
• **Log Glucose** - " ++ dq ++ "My glucose reading is 120" ++ dq ++ "
• **Log Food** - " ++ dq ++ "I ate grilled chicken with vegetables" ++ dq ++ "
• **Plan Meals** - " ++ dq ++ "Generate a meal plan for tomorrow" ++ dq ++ "
• **Get Insights** - " ++ dq ++ "Show me my mood trends" ++ dq ++ "

**❓ Need Help?**
• Ask me anything about health and nutrition
• Say " ++ dq ++ "help" ++ dq ++ " or " ++ dq ++ "what can you do?" ++ dq ++ " for more options
• Type " ++ dq ++ "features" ++ dq ++ " to see all available tools

What would you like to do first?".

Definition confirm_message (user_name user_city : string) : string :=
  "✅ **Found a match!**
                    
**Name:** " ++ user_name ++ "
**Location:** " ++ user_city ++ "`

Is this you? If yes, type your User ID to log in.".

Definition multiple_message (count name matches_text : string) : string :=
  "📋 **Found " ++ count ++ " matches for '" ++ name ++ "':**

" ++ matches_text ++ "

Please copy and paste the correct User ID to log in.".

Definition help_message : string :=
  "👋 **Welcome to your Personal Health Assistant!**

To get started, I need to verify your identity:

**🔐 Login Options:**
1. **Enter your User ID** - If you know your unique user ID
2. **Tell me your name** - Say " ++ dq ++ "My name is [Your Name]" ++ dq ++ " and I'll help find your ID

**❓ Don't have an account?**
This system uses the synthetic health database. Check with your administrator for access.

**💡 Example:**
• " ++ dq ++ "My name is John Smith" ++ dq ++ " 
• Or paste your User ID directly

How would you like to proceed?".

(** What the orchestrator takes from outside: number formatting, the wall
    clock, time-windowed reads of the store, SQLite's LIKE, and the
    handlers that call the generative backend. *)
Record environment : Type := mk_env {
  float_str : Q -> string;
  value_str : value -> string;
  today : string;
  tomorrow : string;
  yesterday : string;
  sql_like : string -> string -> bool;
  round1 : Q -> Q;
  get_cgm_trends : option string -> Z -> Database -> cgm_trends;
  get_recent_cgm_readings : option string -> Z -> Database -> list Q;
  get_mood_rolling_average : option string -> Z -> Database -> Q;
  get_recent_mood_data : option string -> Z -> Database -> mood_data;
  get_user_context : option string -> DB (option dict);
  get_health_summary : option string -> DB (option dict);
  log_meal_authenticated : FoodIntakeAgent.t -> string -> DB dict;
  get_nutrition_insights_authenticated : FoodIntakeAgent.t -> Z -> DB dict;
  generate_meal_plan_authenticated : MealPlannerAgent.t -> option string -> DB dict;
  answer_general_question : string -> DB dict;
  route_to_appropriate_agent : string -> DB dict;
  _format_mood_trends : dict -> result string;
  _format_glucose_trends : dict -> result string;
  _format_nutrition_insights : dict -> result string;
  _generate_comprehensive_insights : t -> DB dict
}.

Section WithEnvironment.

Variable env : environment.

Definition item (d : dict) (key : string) : Sys value :=
  lift_result (dict_item d key).

(** [d[key]] where [d] may be [None]. *)
Definition item_opt (d : option dict) (key : string) : Sys value :=
  match d with
  | Some d' => item d' key
  | None => raise (TypeError "'NoneType' object is not subscriptable")
  end.

(** [d.get(key)] where [d] may be [None]. *)
Definition get_opt (d : option dict) (key : string) : Sys value :=
  match d with
  | Some d' => ret (dict_get_default d' key)
  | None => raise (AttributeError "get")
  end.

Definition _initialize_authenticated_agents : Sys unit :=
  self <- get_self ;;
  if PyStr.truthy (authenticated_user_id self) then
    let uid := authenticated_user_id self in
    update_self (fun s =>
      mk_system (authenticated_user_id s) (current_user_name s)
        (current_user_location s) (greeting_agent s)
        (InterruptAgent.mk_agent uid
           (InterruptAgent.current_user_name (interrupt_agent s)))
        (Some (CGMAgent.create_cgm_agent uid))
        (Some (MoodTrackerAgent.create_mood_tracker_agent uid))
        (Some (FoodIntakeAgent.create_food_intake_agent uid))
        (Some (MealPlannerAgent.create_meal_planner_agent uid))
        (system_state s)) ;;;
    found <- lift_db (validate_user_id uid) ;;
    match found with
    | Some u =>
        update_self (fun s =>
          mk_system (authenticated_user_id s) (current_user_name s)
            (current_user_location s) (greeting_agent s)
            (InterruptAgent.mk_agent uid (Some (name u)))
            (cgm_agent s) (mood_tracker_agent s) (food_intake_agent s)
            (meal_planner_agent s) (system_state s))
    | None => ret tt
    end
  else ret tt.

(** The three branches of [_handle_authentication]. *)
Definition authenticate_by_id (user_input : string) : Sys dict :=
  self <- get_self ;;
  r <- lift_db (GreetingAgent.validate_user_id (greeting_agent self) user_input) ;;
  let '(result, greeting) := r in
  update_self (fun s =>
    mk_system (authenticated_user_id s) (current_user_name s)
      (current_user_location s) greeting (interrupt_agent s)
      (cgm_agent s) (mood_tracker_agent s) (food_intake_agent s)
      (meal_planner_agent s) (system_state s)) ;;;
  if String.eqb (GreetingAgent.status result) "success" then
    match GreetingAgent.reply_user result with
    | None => raise (KeyError "user_data")
    | Some u =>
        update_self (fun s =>
          mk_system (Some user_input) (Some (name u)) (Some (city u))
            (greeting_agent s) (interrupt_agent s)
            (cgm_agent s) (mood_tracker_agent s) (food_intake_agent s)
            (meal_planner_agent s) Authenticated) ;;;
        _initialize_authenticated_agents ;;;
        ret [ ("response", VStr (welcome_message (name u) (city u)));
              ("agent_used", VStr "GreetingAgent");
              ("system_state", VStr (state_str Authenticated));
              ("user_authenticated", VBool true) ]
    end
  else
    ret [ ("response",
           VStr (GreetingAgent.message result ++ String "010" (String "010"
                 ("💡 **Can't find your ID?** Tell me your name and I'll help you find it!"
                  ++ String "010" "Example: 'My name is John Smith'"))));
          ("agent_used", VStr "GreetingAgent");
          ("system_state", VStr (state_str (system_state self))) ].

Definition search_by_name (user_input : string) : Sys dict :=
  who <- lift_result (_extract_name_from_input user_input) ;;
  self <- get_self ;;
  r <- lift_db (GreetingAgent.search_users_by_name (sql_like env)
                  (greeting_agent self) who) ;;
  let '(result, _) := r in
  if String.eqb (GreetingAgent.status result) "success" then
    match GreetingAgent.reply_users result with
    | None => raise (KeyError "users")
    | Some [user] =>
        ret [ ("response",
               VStr (confirm_message (match_name user) (match_city user)));
              ("agent_used", VStr "GreetingAgent");
              ("system_state", VStr (state_str (system_state self)));
              ("suggested_user_id", VStr (match_user_id user)) ]
    | Some users =>
        let matches_text :=
          String.concat (String "010" EmptyString)
            (map (fun u => "• **" ++ match_name u ++ "** (" ++ match_city u
                           ++ ") - ID: `" ++ match_user_id u ++ "`") users) in
        ret [ ("response",
               VStr (multiple_message
                       (PyStr.str_of_int (Z.of_nat (List.length users)))
                       who matches_text));
              ("agent_used", VStr "GreetingAgent");
              ("system_state", VStr (state_str (system_state self))) ]
    end
  else
    ret [ ("response",
           VStr (GreetingAgent.message result ++ String "010" (String "010"
                 "Try a different spelling or ask for help finding your account.")));
          ("agent_used", VStr "GreetingAgent");
          ("system_state", VStr (state_str (system_state self))) ].

Definition help_prompt : Sys dict :=
  self <- get_self ;;
  ret [ ("response", VStr help_message);
        ("agent_used", VStr "GreetingAgent");
        ("system_state", VStr (state_str (system_state self))) ].

Definition _handle_authentication (user_input : string) : Sys dict :=
  if _looks_like_user_id user_input then authenticate_by_id user_input
  else if _looks_like_name_search user_input then search_by_name user_input
  else help_prompt.

Definition _handle_logout : Sys dict :=
  self <- get_self ;;
  let user_name := current_user_name self in
  update_self (fun s =>
    mk_system None None (current_user_location s)
      (greeting_agent s) (interrupt_agent s) None None None None
      Unauthenticated) ;;;
  ret [ ("response",
         VStr ("👋 Goodbye, " ++ str_of_option user_name
               ++ "! You've been successfully logged out." ++ String "010" (String "010"
               "To log back in, just provide your User ID or name when you're ready.")));
        ("agent_used", VStr "GreetingAgent");
        ("system_state", VStr (state_str Unauthenticated));
        ("user_logged_out", VBool true) ].

Definition _handle_meal_planning (user_input : string) : Sys dict :=
  self <- get_self ;;
  let plan_date :=
    _extract_date_from_input (today env) (tomorrow env) (yesterday env) user_input in
  user_context <- lift_db (get_user_context env (authenticated_user_id self)) ;;
  dietary <- item_opt user_context "dietary_category" ;;
  lift_db (log_agent_interaction (authenticated_user_id self)
             "MainSystem" "MealPlannerAgent" "meal_planning_request"
             ("Requesting meal plan for " ++ str_of_option plan_date
              ++ " with context: " ++ value_str env dietary ++ " diet")) ;;;
  result <- call (meal_planner_agent self) "generate_meal_plan"
              (fun a => MealPlannerAgent.generate_meal_plan
                          (generate_meal_plan_authenticated env) a plan_date) ;;
  response <- item result "message" ;;
  dietary_category <- item_opt user_context "dietary_category" ;;
  conditions <- item_opt user_context "medical_conditions" ;;
  recent_mood_avg <- get_opt user_context "recent_mood_avg" ;;
  recent_cgm_avg <- get_opt user_context "recent_cgm_avg" ;;
  mood_trend <- get_opt user_context "mood_trend" ;;
  cgm_trend <- get_opt user_context "cgm_trend" ;;
  ret [ ("response", response);
        ("agent_used", VStr "MealPlannerAgent");
        ("system_state", VStr (state_str (system_state self)));
        ("data_generated", VStr "meal_plan");
        ("user_context_used",
         VDict [ ("dietary_category", dietary_category);
                 ("medical_conditions", conditions);
                 ("recent_mood_avg", recent_mood_avg);
                 ("recent_cgm_avg", recent_cgm_avg);
                 ("mood_trend", mood_trend);
                 ("cgm_trend", cgm_trend) ]) ].

Definition _handle_mood_tracking (user_input : string) : Sys dict :=
  self <- get_self ;;
  let mood_label := _extract_mood_from_input user_input in
  lift_db (log_agent_interaction (authenticated_user_id self)
             "MainSystem" "MoodTrackerAgent" "mood_logging_request"
             ("Logging mood: " ++ mood_label)) ;;;
  result <- call (mood_tracker_agent self) "log_mood"
              (fun a => MoodTrackerAgent.log_mood (float_str env)
                          (get_mood_rolling_average env) a mood_label) ;;
  response <- item result "message" ;;
  ret [ ("response", response);
        ("agent_used", VStr "MoodTrackerAgent");
        ("system_state", VStr (state_str (system_state self)));
        ("data_logged", VStr "mood");
        ("mood_score", dict_get_default result "mood_score");
        ("recommendations", dict_get_default result "recommendations") ].

Definition _handle_cgm_monitoring (user_input : string) : Sys dict :=
  self <- get_self ;;
  glucose_reading <- lift_result (_extract_glucose_reading user_input) ;;
  match glucose_reading with
  | None =>
      ret [ ("response",
             VStr "I couldn't find a glucose reading in your message. Please include the number, like 'My glucose is 120' or '125 mg/dL'");
            ("agent_used", VStr "CGMAgent");
            ("system_state", VStr (state_str (system_state self))) ]
  | Some reading =>
      lift_db (log_agent_interaction (authenticated_user_id self)
                 "MainSystem" "CGMAgent" "glucose_logging_request"
                 ("Logging glucose reading: "
                  ++ PyNum.format (float_str env) reading ++ " mg/dL")) ;;;
      result <- call (cgm_agent self) "process_glucose_reading"
                  (fun a => CGMAgent.process_glucose_reading_value (float_str env)
                              (get_cgm_trends env) a reading) ;;
      response <- item result "message" ;;
      ret [ ("response", response);
            ("agent_used", VStr "CGMAgent");
            ("system_state", VStr (state_str (system_state self)));
            ("data_logged", VStr "glucose");
            ("alert_type", dict_get_default result "alert_type");
            ("recommendations", dict_get_default result "recommendations") ]
  end.

Definition _handle_food_logging (user_input : string) : Sys dict :=
  self <- get_self ;;
  let meal_description := _extract_meal_description user_input in
  lift_db (log_agent_interaction (authenticated_user_id self)
             "MainSystem" "FoodIntakeAgent" "food_logging_request"
             ("Logging meal: " ++ PyStr.take 50 meal_description ++ "...")) ;;;
  result <- call (food_intake_agent self) "log_meal"
              (fun a => FoodIntakeAgent.log_meal (log_meal_authenticated env)
                          a meal_description) ;;
  response <- item result "message" ;;
  ret [ ("response", response);
        ("agent_used", VStr "FoodIntakeAgent");
        ("system_state", VStr (state_str (system_state self)));
        ("data_logged", VStr "food");
        ("nutrients", dict_get_default result "nutrients");
        ("context_feedback", dict_get_default result "context_feedback") ].

Definition _handle_insights_request (user_input : string) : Sys dict :=
  self <- get_self ;;
  let input_lower := PyStr.lower user_input in
  lift_db (get_health_summary env (authenticated_user_id self)) ;;;
  if PyStr.contains input_lower "mood" then
    result <- call (mood_tracker_agent self) "get_mood_trends"
                (fun a => MoodTrackerAgent.get_mood_trends
                            (get_recent_mood_data env) a 30) ;;
    text <- lift_result (_format_mood_trends env result) ;;
    ret [ ("response",
           VStr ("📊 **Mood Trends:**" ++ String "010" (String "010" text)));
          ("agent_used", VStr "MoodTrackerAgent");
          ("system_state", VStr (state_str (system_state self))) ]
  else if PyStr.contains input_lower "glucose" || PyStr.contains input_lower "cgm" then
    result <- call (cgm_agent self) "get_glucose_trends"
                (fun a => CGMAgent.get_glucose_trends (get_cgm_trends env)
                            (get_recent_cgm_readings env) (round1 env) a 7) ;;
    text <- lift_result (_format_glucose_trends env result) ;;
    ret [ ("response",
           VStr ("📈 **Glucose Trends:**" ++ String "010" (String "010" text)));
          ("agent_used", VStr "CGMAgent");
          ("system_state", VStr (state_str (system_state self))) ]
  else if PyStr.contains input_lower "nutrition" || PyStr.contains input_lower "food" then
    result <- call (food_intake_agent self) "get_nutrition_insights"
                (fun a => FoodIntakeAgent.get_nutrition_insights
                            (get_nutrition_insights_authenticated env) a 7) ;;
    text <- lift_result (_format_nutrition_insights env result) ;;
    ret [ ("response",
           VStr ("🥗 **Nutrition Insights:**" ++ String "010" (String "010" text)));
          ("agent_used", VStr "FoodIntakeAgent");
          ("system_state", VStr (state_str (system_state self))) ]
  else lift_db (_generate_comprehensive_insights env self).

(** Python truthiness of a value. *)
Definition value_truthy (v : value) : bool :=
  match v with
  | VNone => false
  | VBool b => b
  | VInt z => negb (z =? 0)%Z
  | VFloat q => negb (Qeq_bool q (inject_Z 0))
  | VStr s => negb (String.eqb s EmptyString)
  | VList l => match l with [] => false | _ => true end
  | VDict d => match d with [] => false | _ => true end
  end.

Definition _handle_general_question (user_input : string) : Sys dict :=
  self <- get_self ;;
  result <- lift_db (answer_general_question env user_input) ;;
  response <- item result "answer" ;;
  let routing_suggestion := dict_get_default result "routing_suggestion" in
  r <- (if negb (value_truthy routing_suggestion) then
          routing <- lift_db (route_to_appropriate_agent env user_input) ;;
          if value_truthy (dict_get_default routing "routing_suggestion") then
            msg <- item routing "message" ;;
            ret (VStr (value_str env response ++ String "010" (String "010"
                         ("🔄 **Suggestion:** " ++ value_str env msg))),
                 dict_get_default routing "recommended_agent")
          else ret (response, routing_suggestion)
        else ret (response, routing_suggestion)) ;;
  let '(response, routing_suggestion) := r in
  ret [ ("response", response);
        ("agent_used", VStr "InterruptAgent");
        ("system_state", VStr (state_str (system_state self)));
        ("routing_suggestion", routing_suggestion) ].

(** The reply built by the [except Exception] clause of
    [_route_authenticated_request]; [exn_str e] is [str(e)]. *)
Definition exn_str (e : exn) : string :=
  match e with
  | KeyError key => "'" ++ key ++ "'"
  | ValueError msg => msg
  | TypeError msg => msg
  | AttributeError attr => "'NoneType' object has no attribute '" ++ attr ++ "'"
  | OperationalError msg => msg
  | IntegrityError msg => msg
  | RuntimeError msg => msg
  end.

Definition error_reply (e : exn) : Sys dict :=
  self <- get_self ;;
  ret [ ("response",
         VStr ("❌ Sorry, I encountered an error: " ++ exn_str e
               ++ String "010" (String "010" "Please try again or ask for help.")));
        ("agent_used", VStr "SystemError");
        ("system_state", VStr (state_str (system_state self))) ].

(** The body of the [try] in [_route_authenticated_request]. *)
Definition dispatch (intent user_input : string) : Sys dict :=
  if String.eqb intent "mood_tracking" then _handle_mood_tracking user_input
  else if String.eqb intent "cgm_monitoring" then _handle_cgm_monitoring user_input
  else if String.eqb intent "food_logging" then _handle_food_logging user_input
  else if String.eqb intent "meal_planning" then _handle_meal_planning user_input
  else if String.eqb intent "insights_request" then _handle_insights_request user_input
  else _handle_general_question user_input.

Definition _route_authenticated_request (user_input : string) : Sys dict :=
  let input_lower := PyStr.lower user_input in
  if PyStr.mem input_lower ["help"; "features"; "what can you do"; "options"] then
    self <- get_self ;;
    explanation <- item InterruptAgent.explain_system_features "explanation" ;;
    ret [ ("response", explanation);
          ("agent_used", VStr "InterruptAgent");
          ("system_state", VStr (state_str (system_state self))) ]
  else if PyStr.mem input_lower ["logout"; "sign out"; "exit"] then
    _handle_logout
  else
    let intent := _detect_primary_intent user_input in
    try_except (dispatch intent user_input) error_reply.

Definition process_user_input (user_input : string) : Sys dict :=
  let user_input := PyStr.strip user_input in
  self <- get_self ;;
  if String.eqb user_input EmptyString then
    ret [ ("response", VStr "Please enter a message!");
          ("agent_used", VNone);
          ("system_state", VStr (state_str (system_state self))) ]
  else
    match system_state self with
    | Unauthenticated => _handle_authentication user_input
    | Authenticated => _route_authenticated_request user_input
    end.

End WithEnvironment.

End HealthAgentSystem.

(* ================================================================== *)
(** ** The orchestrator ([main.py]): formatting trends and cross-agent
       insights *)

Module Insights.

Definition nl : string := String "010" EmptyString.

(** [v[key]] for a string key: only a [dict] can be indexed by one. *)
Definition value_item (v : value) (key : string) : result value :=
  match v with
  | VDict d => dict_item d key
  | _ => Raise (TypeError "object is not subscriptable by a string key")
  end.

(** [v.replace('_', ' ').title()] *)
Definition display_trend (v : value) : result string :=
  match v with
  | VStr s => Ok (PyStr.title (PyStr.replace_char "_" " " s))
  | _ => Raise (AttributeError "replace")
  end.

(** [v[:3]] as the sequence a [for] loop walks. *)
Definition first_three (v : value) : result (list value) :=
  match v with
  | VList l => Ok (firstn 3 l)
  | VStr s =>
      Ok (map (fun c => VStr (String c EmptyString))
              (list_ascii_of_string (PyStr.take 3 s)))
  | _ => Raise (TypeError "object is not subscriptable by a slice")
  end.

(** [mood, count = row] *)
Definition unpack_pair (row : value) : result (value * value) :=
  match row with
  | VList [a; b] => Ok (a, b)
  | VStr (String a (String b EmptyString)) =>
      Ok (VStr (String a EmptyString), VStr (String b EmptyString))
  | VDict [(a, _); (b, _)] => Ok (VStr a, VStr b)
  | VList _ | VStr _ | VDict _ =>
      Raise (ValueError "wrong number of values to unpack")
  | _ => Raise (TypeError "cannot unpack non-iterable object")
  end.

Section WithFormat.

(** [f"{v}"] *)
Variable value_str : value -> string.

(** The loop over [result['common_moods'][:3]]. *)
Fixpoint common_mood_lines (rows : list value) : result string :=
  match rows with
  | [] => Ok EmptyString
  | row :: rest =>
      pair <-? unpack_pair row ;;
      let '(mood, count) := pair in
      match mood with
      | VStr m =>
          lines <-? common_mood_lines rest ;;
          Ok ("• " ++ PyStr.title m ++ ": " ++ value_str count ++ " times" ++ nl
              ++ lines)
      | _ => Raise (AttributeError "title")
      end
  end.

Definition _format_mood_trends (data : dict) : result string :=
  entries_count <-? dict_item data "entries_count" ;;
  if value_eq_int entries_count 0 then
    Ok "No mood entries found. Start logging your mood daily to see trends!"
  else
    entries_count <-? dict_item data "entries_count" ;;
    average_mood <-? dict_item data "average_mood" ;;
    min_mood <-? dict_item data "min_mood" ;;
    max_mood <-? dict_item data "max_mood" ;;
    trend <-? dict_item data "trend" ;;
    trend_text <-? display_trend trend ;;
    let text :=
      "**Entries:** " ++ value_str entries_count ++ " in the past month" ++ nl
      ++ "**Average Mood:** " ++ value_str average_mood ++ "/10" ++ nl
      ++ "**Range:** " ++ value_str min_mood ++ "-" ++ value_str max_mood
      ++ "/10" ++ nl
      ++ "**Trend:** " ++ trend_text ++ nl ++ nl in
    if HealthAgentSystem.value_truthy (dict_get_default data "common_moods") then
      common_moods <-? dict_item data "common_moods" ;;
      rows <-? first_three common_moods ;;
      lines <-? common_mood_lines rows ;;
      Ok (text ++ "**Most Common Moods:**" ++ nl ++ lines)
    else Ok text.

Definition _format_glucose_trends (data : dict) : result string :=
  readings_count <-? dict_item data "readings_count" ;;
  if value_eq_int readings_count 0 then
    Ok "No glucose readings found. Start logging readings to see trends!"
  else
    readings_count <-? dict_item data "readings_count" ;;
    average_glucose <-? dict_item data "average_glucose" ;;
    min_glucose <-? dict_item data "min_glucose" ;;
    max_glucose <-? dict_item data "max_glucose" ;;
    time_in_range <-? dict_item data "time_in_range" ;;
    target_range <-? dict_item data "target_range" ;;
    trend <-? dict_item data "trend" ;;
    trend_text <-? display_trend trend ;;
    Ok ("**Readings:** " ++ value_str readings_count ++ " in the past week" ++ nl
        ++ "**Average:** " ++ value_str average_glucose ++ " mg/dL" ++ nl
        ++ "**Range:** " ++ value_str min_glucose ++ "-" ++ value_str max_glucose
        ++ " mg/dL" ++ nl
        ++ "**Time in Range:** " ++ value_str time_in_range ++ "%" ++ nl
        ++ "**Target Range:** " ++ value_str target_range ++ nl
        ++ "**Trend:** " ++ trend_text ++ nl).

End WithFormat.

(** [summary[key] > z] and [summary[key] < z] *)
Definition above (summary : value) (key : string) (z : Z) : result bool :=
  v <-? value_item summary key ;;
  n <-? as_number v ;;
  Ok (PyNum.gtb n (PyNum.of_int z)).

Definition below (summary : value) (key : string) (z : Z) : result bool :=
  v <-? value_item summary key ;;
  n <-? as_number v ;;
  Ok (PyNum.ltb n (PyNum.of_int z)).

(** [a and b]: [b] is not evaluated when [a] is false. *)
Definition both (a b : result bool) : result bool :=
  x <-? a ;;
  if x then b else Ok false.

Definition _generate_cross_agent_insights (health_summary : dict)
  : result (list string) :=
  let insights : list string := [] in
  mood_summary <-? dict_item health_summary "mood_summary" ;;
  glucose_summary <-? dict_item health_summary "glucose_summary" ;;
  nutrition_summary <-? dict_item health_summary "nutrition_summary" ;;
  mood_and_glucose <-? both (above mood_summary "entries_count" 0)
                            (above glucose_summary "readings_count" 0) ;;
  insights <-?
    (if mood_and_glucose then
       stressed <-? both (below mood_summary "average" 4)
                         (above glucose_summary "average" 180) ;;
       if stressed then
         Ok (insights ++ [ "Your mood and glucose levels suggest stress may be affecting both - consider stress management techniques" ])%list
       else
         balanced <-? both (above mood_summary "average" 7)
                           (below glucose_summary "average" 100) ;;
         if balanced then
           Ok (insights ++ [ "Great balance! Your positive mood and stable glucose levels indicate good health management" ])%list
         else Ok insights
     else Ok insights) ;;
  nutrition_and_glucose <-? both (above nutrition_summary "entries_count" 0)
                                 (above glucose_summary "readings_count" 0) ;;
  insights <-?
    (if nutrition_and_glucose then
       calories <-? both (above nutrition_summary "average_calories" 2000)
                         (above glucose_summary "average" 180) ;;
       if calories then
         Ok (insights ++ [ "High calorie intake may be affecting glucose levels - consider portion control" ])%list
       else
         carbs <-? both (above nutrition_summary "average_carbs" 250)
                        (above glucose_summary "average" 160) ;;
         if carbs then
           Ok (insights ++ [ "High carbohydrate intake may be impacting glucose - consider carb timing and quality" ])%list
         else Ok insights
     else Ok insights) ;;
  mood_and_nutrition <-? both (above mood_summary "entries_count" 0)
                              (above nutrition_summary "entries_count" 0) ;;
  if mood_and_nutrition then
    low <-? both (below mood_summary "average" 4)
                 (below nutrition_summary "average_calories" 1200) ;;
    if low then
      Ok (insights ++ [ "Low mood and low calorie intake may be related - consider mood-supporting foods" ])%list
    else
      protein <-? both (above mood_summary "average" 7)
                       (above nutrition_summary "average_protein" 80) ;;
      if protein then
        Ok (insights ++ [ "Good protein intake may be supporting your positive mood - keep it up!" ])%list
      else Ok insights
  else Ok insights.

End Insights.

(* ================================================================== *)
(** ** Sample data: a store with two users, and a store without the
       [users] table *)

Module Sample.
Import DatabaseManager.

Definition jane : user_data :=
  mk_user "1234" "Jane Doe" "Austin" "vegetarian" ["Hypertension"].

Definition sam : user_data :=
  mk_user "5678" "Sam Roe" "Boston" "vegan" ["Type 2 Diabetes"; "Hypertension"].

(** The row [validate_user_id] builds a user from. *)
Definition row_of (u : user_data) : user_row :=
  mk_row (user_id u) (name u) (city u) (dietary_category u)
         (JsonArray (medical_conditions u)).

Definition store : Database :=
  mk_db (Some [row_of jane; row_of sam]) [] [] [] [] [] [].

(** A third user, whose [medical_conditions] column is NULL. *)
Definition store_with_null_conditions : Database :=
  mk_db (Some [row_of jane; row_of sam; mk_row "9012" "Ann Poe" "Denver" "keto" Null])
        [] [] [] [] [] [].

Definition store_without_users : Database := mk_db None [] [] [] [] [] [].

Definition float_str (q : Q) : string :=
  PyStr.str_of_int (Qnum q / Zpos (Qden q)) ++ ".0".

Definition no_trends : cgm_trends := mk_cgm_trends 0 (inject_Z 0) "no_data" VNone.

Definition two_moods : mood_data :=
  mk_mood_data 2 (inject_Z 7) "stable" (VList []).

(** LIKE for the patterns the store builds, [%text%]: a case-insensitive
    substring test. *)
Definition sql_like (pattern text : string) : bool :=
  PyStr.contains (PyStr.lower text)
    (PyStr.lower (PyStr.take (String.length pattern - 2) (PyStr.drop 1 pattern))).

(** [_format_mood_trends] on what [get_mood_trends] returns: the reply of
    an empty window, or a [KeyError] on the missing ['min_mood']. *)
Definition format_mood_trends (d : dict) : result string :=
  match dict_item d "entries_count" with
  | Raise e => Raise e
  | Ok (VInt 0) =>
      Ok "No mood entries found. Start logging your mood daily to see trends!"
  | Ok _ => Raise (KeyError "min_mood")
  end.

Definition unavailable {A} : DB A := raise (RuntimeError "backend unavailable").

Definition env : HealthAgentSystem.environment :=
  HealthAgentSystem.mk_env
    float_str
    (fun v => match v with VStr s => s | _ => "?" end)
    "2026-01-15" "2026-01-16" "2026-01-14"
    sql_like
    (fun q => q)
    (fun _ _ _ => no_trends)
    (fun _ _ _ => [])
    (fun _ _ _ => inject_Z 0)
    (fun _ _ _ => two_moods)
    (fun _ => ret None)
    (fun _ => ret None)
    (fun _ _ => unavailable)
    (fun _ _ => unavailable)
    (fun _ _ => unavailable)
    (fun _ => unavailable)
    (fun _ => unavailable)
    format_mood_trends
    (fun _ => Raise (KeyError "min_glucose"))
    (fun _ => Raise (KeyError "averages"))
    (fun _ => unavailable).

(** A session logged in as [jane]. *)
Definition logged_in : HealthAgentSystem.t :=
  HealthAgentSystem.mk_system
    (Some "1234") (Some "Jane Doe") (Some "Austin")
    (GreetingAgent.mk_agent (Some jane))
    (InterruptAgent.mk_agent (Some "1234") (Some "Jane Doe"))
    (Some (CGMAgent.create_cgm_agent (Some "1234")))
    (Some (MoodTrackerAgent.create_mood_tracker_agent (Some "1234")))
    (Some (FoodIntakeAgent.create_food_intake_agent (Some "1234")))
    (Some (MealPlannerAgent.create_meal_planner_agent (Some "1234")))
    HealthAgentSystem.Authenticated.

End Sample.

(* ================================================================== *)
(** * Properties *)

(** ** The users table *)

Module StoreFacts.
Import DatabaseManager.

Lemma load_user_fields (row : user_row) (u : user_data) :
  load_user row = Ok u ->
  user_id u = row_user_id row /\ name u = row_name row /\ city u = row_city row
  /\ json_loads (row_medical_conditions row) = Ok (medical_conditions u).
Proof.
  unfold load_user, and_then.
  destruct (json_loads (row_medical_conditions row)); [| discriminate].
  intros H. injection H as <-. cbn. auto.
Qed.

(** In a table all of whose rows load, the row a lookup finds loads to the
    user found among the loaded ones. *)
Lemma find_loaded (uid : string) (table : list user_row) :
  forall rows,
    load_all table = Some rows ->
    match find (fun r => String.eqb (row_user_id r) uid) table with
    | Some row =>
        exists u, load_user row = Ok u
                  /\ find (fun r => String.eqb (user_id r) uid) rows = Some u
    | None => find (fun r => String.eqb (user_id r) uid) rows = None
    end.
Proof.
  induction table as [|row table IH]; cbn [load_all find]; intros rows H.
  - injection H as <-. reflexivity.
  - destruct (load_user row) as [u | e] eqn:L; [| discriminate].
    destruct (load_all table) as [loaded |]; [| discriminate].
    injection H as <-. cbn [find].
    destruct (load_user_fields _ L) as [-> _].
    destruct (String.eqb (row_user_id row) uid).
    + exists u. auto.
    + now apply IH.
Qed.

Lemma users_table_present (db : Database) (rows : list user_data) :
  users db = Some rows ->
  exists table, users_table db = Some table /\ load_all table = Some rows.
Proof.
  unfold users. destruct (users_table db) as [table |]; [eauto | discriminate].
Qed.

(** With every row loading, a lookup by id is a search among the users. *)
Lemma validate_user_id_loaded (uid : option string) (db : Database)
    (rows : list user_data) :
  users db = Some rows ->
  validate_user_id uid db
  = (Ok match uid with
        | Some u => find (fun r => String.eqb (user_id r) u) rows
        | None => None
        end, db).
Proof.
  intros H. destruct (users_table_present _ H) as [table [Ht Hl]].
  unfold validate_user_id. rewrite Ht. destruct uid as [u |]; [| reflexivity].
  pose proof (find_loaded u _ Hl) as F.
  destruct (find (fun r => String.eqb (row_user_id r) u) table) as [row |].
  - destruct F as [user [-> ->]]. reflexivity.
  - now rewrite F.
Qed.

(** No write touches the users table. *)
Lemma users_of_table (db db' : Database) :
  users_table db' = users_table db -> users db' = users db.
Proof. unfold users. now intros ->. Qed.

End StoreFacts.


(** ** Comparisons of readings with integer thresholds *)

Module PyNumFacts.
Import PyNum.

Lemma ltb_lt (x y : Q) : ltb x y = true <-> (x < y)%Q.
Proof.
  unfold ltb. rewrite negb_true_iff, <- not_true_iff_false, Qle_bool_iff.
  split; [apply Qnot_le_lt | apply Qlt_not_le].
Qed.

Lemma ltb_ge (x y : Q) : ltb x y = false <-> (y <= x)%Q.
Proof.
  unfold ltb. rewrite negb_false_iff. apply Qle_bool_iff.
Qed.

Lemma gtb_gt (x y : Q) : gtb x y = true <-> (y < x)%Q.
Proof. apply ltb_lt. Qed.

Lemma gtb_le (x y : Q) : gtb x y = false <-> (x <= y)%Q.
Proof. apply ltb_ge. Qed.

Lemma of_int_le (a b : Z) : (a <= b)%Z -> (of_int a <= of_int b)%Q.
Proof. unfold of_int. now rewrite <- Zle_Qle. Qed.

End PyNumFacts.

(** ** Glucose agent *)

Module CGMAgentFacts.
Import DatabaseManager CGMAgent PyNumFacts.

(** The key the priority order of [get_user_cgm_range] selects. *)
Definition range_key (user : option user_data) : string :=
  match user with
  | None => "default"
  | Some u =>
      let conditions := medical_conditions u in
      if PyStr.mem "Type 1 Diabetes" conditions then "Type 1 Diabetes"
      else if PyStr.mem "Type 2 Diabetes" conditions then "Type 2 Diabetes"
      else if PyStr.mem "Pre-diabetes" conditions then "Pre-diabetes"
      else if PyStr.mem "None" conditions
              || match conditions with [] => true | _ => false end
      then "None"
      else "default"
  end.

Lemma mem_In (x : string) (xs : list string) : PyStr.mem x xs = true <-> In x xs.
Proof.
  unfold PyStr.mem. rewrite existsb_exists. split.
  - intros [y [Hy E]]. apply String.eqb_eq in E. now subst.
  - intros H. exists x. split; [assumption | apply String.eqb_refl].
Qed.

Lemma mem_not_In (x : string) (xs : list string) :
  PyStr.mem x xs = false <-> ~ In x xs.
Proof. rewrite <- mem_In. now destruct (PyStr.mem x xs). Qed.

(** Every key the priority order can select is in the table. *)
Lemma range_key_in_table (user : option user_data) :
  exists r, ranges_get cgm_ranges (range_key user) = Some r
            /\ (70 <= target_min r <= target_max r)%Z
            /\ (target_max r <= 250)%Z.
Proof.
  unfold range_key. destruct user as [u|].
  - repeat match goal with
           | |- context [if ?b then _ else _] => destruct b
           end; eexists; (split; [reflexivity | cbn; lia]).
  - eexists; (split; [reflexivity | cbn; lia]).
Qed.

Lemma get_user_cgm_range_found (self : t) (uid : option string) (db : Database)
    (user : option user_data) :
  validate_user_id uid db = (Ok user, db) ->
  exists r,
    ranges_get cgm_ranges (range_key user) = Some r
    /\ get_user_cgm_range self uid db = (Ok r, db).
Proof.
  intros Hv.
  destruct (range_key_in_table user) as [r [Hr _]]. exists r.
  split; [exact Hr |].
  unfold get_user_cgm_range, bind. rewrite Hv.
  unfold range_key in Hr. destruct user as [u|].
  - repeat match goal with
           | |- context [if ?b then _ else _] => destruct b
           end; unfold ranges_item; rewrite Hr; reflexivity.
  - unfold ranges_item; rewrite Hr; reflexivity.
Qed.

Lemma get_user_cgm_range_ok (self : t) (uid : option string) (db : Database)
    (rows : list user_data) :
  users db = Some rows ->
  exists user r,
    validate_user_id uid db = (Ok user, db)
    /\ ranges_get cgm_ranges (range_key user) = Some r
    /\ get_user_cgm_range self uid db = (Ok r, db).
Proof.
  intros Hrows.
  pose proof (StoreFacts.validate_user_id_loaded uid db Hrows) as Hv.
  destruct (@get_user_cgm_range_found self uid db _ Hv) as [r [Hr Hg]]. eauto.
Qed.

Section Bands.
Variable float_str : Q -> string.

Definition alert_of (reading : Q) (r : cgm_range) : string :=
  fst (fst (determine_alert float_str reading r)).

Lemma determine_alert_bands (reading : Q) (r : cgm_range) :
  (70 <= target_min r <= target_max r)%Z -> (target_max r <= 250)%Z ->
  ((reading < inject_Z 70)%Q -> alert_of reading r = "critical_low")
  /\ ((inject_Z 70 <= reading)%Q -> (reading < inject_Z (target_min r))%Q ->
      alert_of reading r = "low")
  /\ ((inject_Z (target_min r) <= reading)%Q ->
      (reading <= inject_Z (target_max r))%Q ->
      alert_of reading r = "normal")
  /\ ((inject_Z (target_max r) < reading)%Q -> (reading <= inject_Z 250)%Q ->
      alert_of reading r = "high")
  /\ ((inject_Z 250 < reading)%Q -> alert_of reading r = "critical_high").
Proof.
  intros [Hmin Hmid] Hmax.
  apply of_int_le in Hmin, Hmid, Hmax. unfold PyNum.of_int in Hmin, Hmid, Hmax.
  unfold alert_of, determine_alert, PyNum.of_int.
  destruct (PyNum.ltb reading (inject_Z (target_min r))) eqn:E1;
    [ apply ltb_lt in E1 | apply ltb_ge in E1 ].
  - destruct (PyNum.ltb reading (inject_Z 70)) eqn:E2;
      [ apply ltb_lt in E2 | apply ltb_ge in E2 ]; cbn [fst];
      repeat split; intros; try reflexivity; exfalso; lra.
  - destruct (PyNum.gtb reading (inject_Z (target_max r))) eqn:E2;
      [ apply gtb_gt in E2 | apply gtb_le in E2 ].
    + destruct (PyNum.gtb reading (inject_Z 250)) eqn:E3;
        [ apply gtb_gt in E3 | apply gtb_le in E3 ]; cbn [fst];
        repeat split; intros; try reflexivity; exfalso; lra.
    + cbn [fst]. repeat split; intros; try reflexivity; exfalso; lra.
Qed.

End Bands.

(** The priority order in the specification's words: Type 1 Diabetes, then
    Type 2 Diabetes, then Pre-diabetes, then None (also an empty list of
    conditions), then the default entry (also an unknown user). *)
Definition resolved_by_priority (user : option user_data) (r : cgm_range) : Prop :=
  let entry key := ranges_get cgm_ranges key = Some r in
  match user with
  | None => entry "default"
  | Some u =>
      let c := medical_conditions u in
      (In "Type 1 Diabetes" c -> entry "Type 1 Diabetes")
      /\ (~ In "Type 1 Diabetes" c -> In "Type 2 Diabetes" c ->
          entry "Type 2 Diabetes")
      /\ (~ In "Type 1 Diabetes" c -> ~ In "Type 2 Diabetes" c ->
          In "Pre-diabetes" c -> entry "Pre-diabetes")
      /\ (~ In "Type 1 Diabetes" c -> ~ In "Type 2 Diabetes" c ->
          ~ In "Pre-diabetes" c -> In "None" c \/ c = [] -> entry "None")
      /\ (~ In "Type 1 Diabetes" c -> ~ In "Type 2 Diabetes" c ->
          ~ In "Pre-diabetes" c -> ~ In "None" c -> c <> [] -> entry "default")
  end.

Lemma range_key_priority (user : option user_data) (r : cgm_range) :
  ranges_get cgm_ranges (range_key user) = Some r ->
  resolved_by_priority user r.
Proof.
  unfold range_key, resolved_by_priority. destruct user as [u|]; [| easy].
  cbv zeta.
  destruct (PyStr.mem "Type 1 Diabetes" (medical_conditions u)) eqn:E1;
    [ apply mem_In in E1 | apply mem_not_In in E1 ].
  { intros H. repeat split; intros; solve [assumption | contradiction]. }
  destruct (PyStr.mem "Type 2 Diabetes" (medical_conditions u)) eqn:E2;
    [ apply mem_In in E2 | apply mem_not_In in E2 ].
  { intros H. repeat split; intros; solve [assumption | contradiction]. }
  destruct (PyStr.mem "Pre-diabetes" (medical_conditions u)) eqn:E3;
    [ apply mem_In in E3 | apply mem_not_In in E3 ].
  { intros H. repeat split; intros; solve [assumption | contradiction]. }
  destruct (PyStr.mem "None" (medical_conditions u)) eqn:E4;
    [ apply mem_In in E4 | apply mem_not_In in E4 ].
  { intros H. repeat split; intros; solve [assumption | contradiction]. }
  destruct (medical_conditions u) as [|c0 cs] eqn:E5; cbn [orb]; intros H.
  - repeat split; intros; solve [assumption | contradiction | congruence].
  - repeat split; intros; try solve [assumption | contradiction].
    match goal with H' : _ \/ _ |- _ => destruct H' as [H'|H'] end;
      [contradiction | discriminate].
Qed.

Lemma truthy_some (uid : option string) :
  PyStr.truthy uid = true -> exists u, uid = Some u.
Proof. destruct uid; [eauto | discriminate]. Qed.

Section Processing.
Variable float_str : Q -> string.
Variable get_cgm_trends : option string -> Z -> Database -> cgm_trends.

Lemma recommendations_ok (self : t) (reading : Q) (r : cgm_range) (db : Database) :
  exists l,
    _get_glucose_based_recommendations get_cgm_trends self reading r db = (Ok l, db).
Proof.
  unfold _get_glucose_based_recommendations.
  repeat match goal with
         | |- context [if ?b then _ else _] => destruct b
         end; eauto.
Qed.

(** An accepted reading of a logged-in user is classified, stored and
    answered with the band and the target range of the resolved entry. *)
Lemma process_glucose_reading_accepted_found (self : t) (reading : Q)
    (db : Database) (user : option user_data) :
  PyStr.truthy (authenticated_user_id self) = true ->
  validate_user_id (authenticated_user_id self) db = (Ok user, db) ->
  (inject_Z 20 <= reading)%Q -> (reading <= inject_Z 600)%Q ->
  exists r result db',
    ranges_get cgm_ranges (range_key user) = Some r
    /\ process_glucose_reading float_str get_cgm_trends self reading db
       = (Ok result, db')
    /\ dict_get result "status" = Some (VStr "success")
    /\ dict_get result "alert_type" = Some (VStr (alert_of float_str reading r))
    /\ dict_get result "target_range"
       = Some (VStr (PyStr.str_of_int (target_min r) ++ "-"
                     ++ PyStr.str_of_int (target_max r) ++ " mg/dL")).
Proof.
  intros Hauth Hv Hlo Hhi.
  destruct (truthy_some _ Hauth) as [u Hu].
  destruct (@get_user_cgm_range_found self (authenticated_user_id self) db _ Hv)
    as [r [Hr Hg]].
  exists r.
  unfold process_glucose_reading. rewrite Hauth. cbn [negb].
  apply ltb_ge in Hlo. apply gtb_le in Hhi.
  unfold PyNum.of_int. rewrite Hlo, Hhi. cbn [orb].
  unfold bind at 1. rewrite Hg.
  unfold alert_of.
  destruct (determine_alert float_str reading r) as [[alert message] recs].
  cbn [fst].
  rewrite Hu.
  unfold bind, store_cgm_reading, log_agent_interaction, store_cgm_alert,
    not_null, ret.
  cbn.
  destruct (negb (String.eqb alert "normal")); cbn;
  match goal with
  | |- context [_get_glucose_based_recommendations ?g ?s ?x ?y ?d] =>
      destruct (recommendations_ok s x y d) as [l Hl]; rewrite Hl
  end; do 2 eexists; (split; [assumption|]);
  (split; [reflexivity|]); cbn; auto.
Qed.

Lemma process_glucose_reading_accepted (self : t) (reading : Q) (db : Database)
    (rows : list user_data) :
  PyStr.truthy (authenticated_user_id self) = true ->
  users db = Some rows ->
  (inject_Z 20 <= reading)%Q -> (reading <= inject_Z 600)%Q ->
  exists user r result db',
    validate_user_id (authenticated_user_id self) db = (Ok user, db)
    /\ ranges_get cgm_ranges (range_key user) = Some r
    /\ process_glucose_reading float_str get_cgm_trends self reading db
       = (Ok result, db')
    /\ dict_get result "status" = Some (VStr "success")
    /\ dict_get result "alert_type" = Some (VStr (alert_of float_str reading r))
    /\ dict_get result "target_range"
       = Some (VStr (PyStr.str_of_int (target_min r) ++ "-"
                     ++ PyStr.str_of_int (target_max r) ++ " mg/dL")).
Proof.
  intros Hauth Hrows Hlo Hhi.
  pose proof (StoreFacts.validate_user_id_loaded (authenticated_user_id self) db
                Hrows) as Hv.
  destruct (@process_glucose_reading_accepted_found self reading db _ Hauth Hv
              Hlo Hhi)
    as [r [result [db' H]]].
  eexists. exists r, result, db'. split; [exact Hv | exact H].
Qed.

(** A reading outside 20..600 is refused before anything is looked up or
    written. *)
Lemma process_glucose_reading_refused (self : t) (reading : Q) (db : Database) :
  PyStr.truthy (authenticated_user_id self) = true ->
  (reading < inject_Z 20)%Q \/ (inject_Z 600 < reading)%Q ->
  process_glucose_reading float_str get_cgm_trends self reading db
  = (Ok [ ("status", VStr "error");
          ("message",
           VStr ("Invalid glucose reading: " ++ float_str reading
                 ++ " mg/dL. Please check your meter and try again.")) ],
     db).
Proof.
  intros Hauth Hout.
  unfold process_glucose_reading. rewrite Hauth. cbn [negb].
  assert (E : PyNum.ltb reading (PyNum.of_int 20)
              || PyNum.gtb reading (PyNum.of_int 600) = true).
  { apply orb_true_iff. destruct Hout as [H|H];
      [left; now apply ltb_lt | right; now apply gtb_gt]. }
  rewrite E. reflexivity.
Qed.

End Processing.

End CGMAgentFacts.

Module CGMClaims.
Import DatabaseManager CGMAgent PyNumFacts CGMAgentFacts.

(** C1.  A reading inside 20..600 of a logged-in user is answered with the
    band of the user's target range: below 70 critical_low, from 70 up to
    but excluding target_min low, from target_min to target_max inclusive
    normal, above target_max up to 250 high, above 250 critical_high; and
    the range is the table entry chosen by the priority order Type 1
    Diabetes, Type 2 Diabetes, Pre-diabetes, None, default.  The store has
    a users table whose rows load ([users db = Some rows]). *)
Theorem severity_band_of_accepted_reading
    (float_str : Q -> string)
    (get_cgm_trends : option string -> Z -> Database -> cgm_trends)
    (self : t) (reading : Q) (db : Database) (rows : list user_data) :
  PyStr.truthy (authenticated_user_id self) = true ->
  users db = Some rows ->
  (inject_Z 20 <= reading)%Q -> (reading <= inject_Z 600)%Q ->
  exists user r result db' alert,
    validate_user_id (authenticated_user_id self) db = (Ok user, db)
    /\ resolved_by_priority user r
    /\ process_glucose_reading float_str get_cgm_trends self reading db
       = (Ok result, db')
    /\ dict_get result "alert_type" = Some (VStr alert)
    /\ ((reading < inject_Z 70)%Q -> alert = "critical_low")
    /\ ((inject_Z 70 <= reading)%Q -> (reading < inject_Z (target_min r))%Q ->
        alert = "low")
    /\ ((inject_Z (target_min r) <= reading)%Q ->
        (reading <= inject_Z (target_max r))%Q -> alert = "normal")
    /\ ((inject_Z (target_max r) < reading)%Q -> (reading <= inject_Z 250)%Q ->
        alert = "high")
    /\ ((inject_Z 250 < reading)%Q -> alert = "critical_high").
Proof.
  intros Hauth Hrows Hlo Hhi.
  destruct (process_glucose_reading_accepted float_str get_cgm_trends
              self db Hauth Hrows Hlo Hhi)
    as [user [r [result [db' [Hv [Hr [Hp [_ [Ha _]]]]]]]]].
  exists user, r, result, db', (alert_of float_str reading r).
  split; [exact Hv |]. split; [now apply range_key_priority |].
  split; [exact Hp |]. split; [exact Ha |].
  destruct (range_key_in_table user) as [r' [Hr' [Hmin Hmax]]].
  assert (r' = r) by congruence. subst r'.
  now apply determine_alert_bands.
Qed.

Lemma severity_band_of_accepted_reading_witness :
  PyStr.truthy (authenticated_user_id (create_cgm_agent (Some "5678"))) = true
  /\ users Sample.store = Some [Sample.jane; Sample.sam]
  /\ (inject_Z 20 <= inject_Z 200)%Q /\ (inject_Z 200 <= inject_Z 600)%Q
  /\ exists user r result db' alert,
       validate_user_id (Some "5678") Sample.store = (Ok user, Sample.store)
       /\ resolved_by_priority user r
       /\ process_glucose_reading Sample.float_str (fun _ _ _ => Sample.no_trends)
            (create_cgm_agent (Some "5678")) (inject_Z 200) Sample.store
          = (Ok result, db')
       /\ dict_get result "alert_type" = Some (VStr alert)
       /\ ((inject_Z 200 < inject_Z 70)%Q -> alert = "critical_low")
       /\ ((inject_Z 70 <= inject_Z 200)%Q ->
           (inject_Z 200 < inject_Z (target_min r))%Q -> alert = "low")
       /\ ((inject_Z (target_min r) <= inject_Z 200)%Q ->
           (inject_Z 200 <= inject_Z (target_max r))%Q -> alert = "normal")
       /\ ((inject_Z (target_max r) < inject_Z 200)%Q ->
           (inject_Z 200 <= inject_Z 250)%Q -> alert = "high")
       /\ ((inject_Z 250 < inject_Z 200)%Q -> alert = "critical_high").
Proof.
  assert (H20 : (inject_Z 20 <= inject_Z 200)%Q) by (vm_compute; discriminate).
  assert (H600 : (inject_Z 200 <= inject_Z 600)%Q) by (vm_compute; discriminate).
  split; [reflexivity |]. split; [reflexivity |].
  split; [exact H20 |]. split; [exact H600 |].
  exact (@severity_band_of_accepted_reading Sample.float_str
           (fun _ _ _ => Sample.no_trends)
           (create_cgm_agent (Some "5678")) (inject_Z 200) Sample.store
           [Sample.jane; Sample.sam] eq_refl eq_refl H20 H600).
Defined.

(** C10.  For a logged-in user a reading strictly below 20 or strictly
    above 600 is answered with a status "error" result carrying the
    invalid-reading message, and the store is left as it was: no reading,
    no alert and no interaction row is written. *)
Theorem out_of_range_reading_is_refused
    (float_str : Q -> string)
    (get_cgm_trends : option string -> Z -> Database -> cgm_trends)
    (self : t) (reading : Q) (db : Database) :
  PyStr.truthy (authenticated_user_id self) = true ->
  (reading < inject_Z 20)%Q \/ (inject_Z 600 < reading)%Q ->
  exists result,
    process_glucose_reading float_str get_cgm_trends self reading db
    = (Ok result, db)
    /\ dict_get result "status" = Some (VStr "error")
    /\ dict_get result "message"
       = Some (VStr ("Invalid glucose reading: " ++ float_str reading
                     ++ " mg/dL. Please check your meter and try again."))
    /\ dict_get result "alert_type" = None.
Proof.
  intros Hauth Hout. eexists. split.
  - now apply process_glucose_reading_refused.
  - repeat split.
Qed.

Lemma out_of_range_reading_is_refused_witness :
  PyStr.truthy (authenticated_user_id (create_cgm_agent (Some "1234"))) = true
  /\ ((inject_Z 601 < inject_Z 20)%Q \/ (inject_Z 600 < inject_Z 601)%Q)
  /\ exists result,
       process_glucose_reading Sample.float_str (fun _ _ _ => Sample.no_trends)
         (create_cgm_agent (Some "1234")) (inject_Z 601) Sample.store
       = (Ok result, Sample.store)
       /\ dict_get result "status" = Some (VStr "error")
       /\ dict_get result "message"
          = Some (VStr ("Invalid glucose reading: "
                        ++ Sample.float_str (inject_Z 601)
                        ++ " mg/dL. Please check your meter and try again."))
       /\ dict_get result "alert_type" = None.
Proof.
  assert (H : (inject_Z 601 < inject_Z 20)%Q \/ (inject_Z 600 < inject_Z 601)%Q)
    by (right; reflexivity).
  split; [reflexivity |]. split; [exact H |].
  exact (@out_of_range_reading_is_refused Sample.float_str
           (fun _ _ _ => Sample.no_trends)
           (create_cgm_agent (Some "1234")) (inject_Z 601) Sample.store
           eq_refl H).
Defined.

End CGMClaims.

(** ** Strings *)

Module PyStrFacts.
Import PyStr.

Lemma append_nil_r (s : string) : s ++ EmptyString = s.
Proof. induction s; cbn; congruence. Qed.

Lemma append_assoc (a b c : string) : (a ++ b) ++ c = a ++ (b ++ c).
Proof. induction a; cbn; congruence. Qed.

Lemma length_append (a b : string) :
  String.length (a ++ b) = String.length a + String.length b.
Proof. induction a; cbn; congruence. Qed.

Lemma lower_append (a b : string) : lower (a ++ b) = lower a ++ lower b.
Proof. induction a; cbn; congruence. Qed.

Lemma length_lower (s : string) : String.length (lower s) = String.length s.
Proof. induction s; cbn; congruence. Qed.

(** A check that holds of all 256 characters holds of each. *)
Definition all_bools : list bool := [true; false].

Definition for_all_ascii (f : ascii -> bool) : bool :=
  forallb (fun b0 => forallb (fun b1 => forallb (fun b2 => forallb (fun b3 =>
  forallb (fun b4 => forallb (fun b5 => forallb (fun b6 => forallb (fun b7 =>
    f (Ascii b0 b1 b2 b3 b4 b5 b6 b7))
  all_bools) all_bools) all_bools) all_bools) all_bools) all_bools) all_bools)
  all_bools.

Lemma for_all_ascii_spec (f : ascii -> bool) :
  for_all_ascii f = true -> forall c, f c = true.
Proof.
  intros H c. unfold for_all_ascii in H.
  destruct c as [b0 b1 b2 b3 b4 b5 b6 b7].
  assert (Hb : forall b, In b all_bools) by (intros []; cbn; auto).
  rewrite forallb_forall in H.
  specialize (H b0 (Hb b0)). rewrite forallb_forall in H.
  specialize (H b1 (Hb b1)). rewrite forallb_forall in H.
  specialize (H b2 (Hb b2)). rewrite forallb_forall in H.
  specialize (H b3 (Hb b3)). rewrite forallb_forall in H.
  specialize (H b4 (Hb b4)). rewrite forallb_forall in H.
  specialize (H b5 (Hb b5)). rewrite forallb_forall in H.
  specialize (H b6 (Hb b6)). rewrite forallb_forall in H.
  exact (H b7 (Hb b7)).
Qed.

(** Lower-casing never turns a character into a blank or out of one. *)
Lemma lower_char_space (c : ascii) : is_space (lower_char c) = is_space c.
Proof.
  apply Bool.eqb_prop.
  exact (for_all_ascii_spec
           (fun c => Bool.eqb (is_space (lower_char c)) (is_space c))
           eq_refl c).
Qed.

(** [lstrip] only removes characters in front of the first non-blank. *)
Lemma lstrip_keeps (pre : string) (c : ascii) (rest : string) :
  is_space c = false ->
  exists pre', lstrip (pre ++ String c rest) = pre' ++ String c rest.
Proof.
  intros Hc. induction pre as [|d pre IH]; cbn.
  - rewrite Hc. now exists EmptyString.
  - destruct (is_space d).
    + exact IH.
    + now exists (String d pre).
Qed.

(** [rstrip] only removes characters behind the last non-blank. *)
Lemma rstrip_keeps (pre : string) (c : ascii) (rest : string) :
  is_space c = false ->
  rstrip (pre ++ String c rest) = pre ++ String c (rstrip rest).
Proof.
  intros Hc. induction pre as [|d pre IH]; cbn.
  - rewrite Hc. now destruct (rstrip rest).
  - rewrite IH. now destruct pre.
Qed.

(** A stretch of text that starts and ends with non-blanks survives
    [strip]. *)
Lemma strip_keeps (pre m suf : string) (c : ascii) (m1 m2 : string) (d : ascii) :
  m = String c m1 -> m = m2 ++ String d EmptyString ->
  is_space c = false -> is_space d = false ->
  exists pre' suf', strip (pre ++ m ++ suf) = pre' ++ m ++ suf'.
Proof.
  intros E1 E2 Hc Hd. unfold strip.
  destruct (@lstrip_keeps pre c (m1 ++ suf) Hc) as [pre' E].
  exists pre', (rstrip suf).
  assert (Em : forall x, m ++ x = m2 ++ String d x).
  { intros x. rewrite E2, append_assoc. reflexivity. }
  assert (Ec : m ++ suf = String c (m1 ++ suf)).
  { rewrite E1. reflexivity. }
  rewrite Ec, E, <- Ec, !Em.
  rewrite <- (append_assoc pre' m2 (String d suf)).
  rewrite <- (append_assoc pre' m2 (String d (rstrip suf))).
  apply rstrip_keeps. exact Hd.
Qed.

End PyStrFacts.

(** ** Regular expressions: what a successful match means *)

Module ReFacts.
Import Re PyStrFacts.

Fixpoint all_in (p : ascii -> bool) (s : string) : bool :=
  match s with
  | EmptyString => true
  | String c s' => p c && all_in p s'
  end.

Definition within (hi : option nat) (n : nat) : Prop :=
  match hi with
  | None => True
  | Some h => n <= h
  end.

(** The texts a pattern without anchors matches. *)
Inductive matches : regex -> string -> Prop :=
| M_Eps : matches Eps EmptyString
| M_Cls p c : p c = true -> matches (Cls p) (String c EmptyString)
| M_Seq r1 r2 m1 m2 :
    matches r1 m1 -> matches r2 m2 -> matches (Seq r1 r2) (m1 ++ m2)
| M_AltL r1 r2 m : matches r1 m -> matches (Alt r1 r2) m
| M_AltR r1 r2 m : matches r2 m -> matches (Alt r1 r2) m
| M_OptSome r m : matches r m -> matches (Opt r) m
| M_OptNone r : matches (Opt r) EmptyString
| M_Rep p lo hi greedy m :
    all_in p m = true -> lo <= String.length m -> within hi (String.length m) ->
    matches (Rep p lo hi greedy) m
| M_Grp r m : matches r m -> matches (Grp r) m.

Fixpoint anchor_free (r : regex) : bool :=
  match r with
  | Eps | Cls _ | Rep _ _ _ _ => true
  | Seq r1 r2 | Alt r1 r2 => anchor_free r1 && anchor_free r2
  | Opt r1 | Grp r1 => anchor_free r1
  | Bol | Eol => false
  end.

Lemma or_else_some {A} (x y : option A) (a : A) :
  or_else x y = Some a -> x = Some a \/ y = Some a.
Proof. destruct x; cbn; intros H; auto. Qed.

Lemma or_else_left {A} (x y : option A) : x <> None -> or_else x y <> None.
Proof. destruct x; cbn; congruence. Qed.

Lemma or_else_right {A} (x y : option A) : y <> None -> or_else x y <> None.
Proof. destruct x; cbn; congruence. Qed.

Section Correctness.
Variable A : Type.

Lemma rep_sound (p : ascii -> bool) (greedy : bool) (s : string) :
  forall lo hi bol (k : bool -> string -> option A) a,
    rep p lo hi greedy bol s k = Some a ->
    exists m rest bol',
      s = m ++ rest /\ all_in p m = true /\ lo <= String.length m
      /\ within hi (String.length m) /\ k bol' rest = Some a.
Proof.
  induction s as [|c s IH]; intros lo hi bol k a H; cbn in H.
  - assert (E : match lo with O => k bol EmptyString | S _ => None end = Some a).
    { destruct greedy; cbn in H; [exact H |].
      destruct (or_else_some _ _ H) as [H'|H']; [exact H' | discriminate]. }
    destruct lo; [| discriminate].
    exists EmptyString, EmptyString, bol. repeat split; auto.
    destruct hi; cbn; lia.
  - assert (E : (if p c && match hi with Some O => false | _ => true end
                 then rep p (Nat.pred lo) (option_map Nat.pred hi) greedy false s k
                 else None) = Some a
                \/ match lo with O => k bol (String c s) | S _ => None end = Some a).
    { destruct greedy; apply or_else_some in H; tauto. }
    destruct E as [E|E].
    + destruct (p c) eqn:Hp; [| discriminate].
      destruct hi as [[|h]|]; cbn in E; try discriminate;
        apply IH in E; destruct E as [m [rest [bol' [-> [Hall [Hlo [Hhi Hk]]]]]]];
        exists (String c m), rest, bol'; cbn; rewrite Hp, Hall;
        repeat split; auto; cbn in *; lia.
    + destruct lo; [| discriminate].
      exists EmptyString, (String c s), bol. repeat split; auto.
      destruct hi; cbn; lia.
Qed.

Lemma rep_complete (p : ascii -> bool) (greedy : bool) (rest : string)
    (k : bool -> string -> option A) :
  (forall bol, k bol rest <> None) ->
  forall m lo hi bol,
    all_in p m = true -> lo <= String.length m -> within hi (String.length m) ->
    rep p lo hi greedy bol (m ++ rest) k <> None.
Proof.
  intros Hk. induction m as [|c m IH]; intros lo hi bol Hall Hlo Hhi.
  - cbn in Hlo. assert (lo = 0) by lia. subst lo.
    cbn [append]. destruct rest as [|d rest']; cbn;
      destruct greedy; auto using or_else_left, or_else_right.
  - cbn in Hall. apply andb_true_iff in Hall. destruct Hall as [Hp Hall].
    cbn [append rep]. rewrite Hp. cbn [andb].
    assert (Hmore : (if match hi with Some O => false | _ => true end
                     then rep p (Nat.pred lo) (option_map Nat.pred hi) greedy
                            false (m ++ rest) k
                     else None) <> None).
    { cbn in Hlo. destruct hi as [[|h]|]; cbn in Hhi |- *; try lia;
        apply IH; auto; cbn; try lia. }
    destruct greedy; auto using or_else_left, or_else_right.
Qed.

Lemma run_sound (r : regex) :
  anchor_free r = true ->
  forall bol s g (k : bool -> string -> option string -> option A) a,
    run r bol s g k = Some a ->
    exists m rest bol' g',
      s = m ++ rest /\ matches r m /\ k bol' rest g' = Some a.
Proof.
  induction r as [| p | r1 IH1 r2 IH2 | r1 IH1 r2 IH2 | r1 IH1
                  | p lo hi greedy | r1 IH1 | |];
    intros Hfree bol s g k a H; cbn in Hfree, H; try discriminate.
  - exists EmptyString, s, bol, g. repeat split; auto using matches.
  - destruct s as [|c s]; [discriminate |].
    destruct (p c) eqn:Hp; [| discriminate].
    exists (String c EmptyString), s, false, g. repeat split; auto using matches.
  - apply andb_true_iff in Hfree. destruct Hfree as [F1 F2].
    apply (IH1 F1) in H. destruct H as [m1 [rest1 [bol1 [g1 [-> [M1 H]]]]]].
    apply (IH2 F2) in H. destruct H as [m2 [rest2 [bol2 [g2 [-> [M2 H]]]]]].
    exists (m1 ++ m2), rest2, bol2, g2. rewrite append_assoc.
    repeat split; auto using matches.
  - apply andb_true_iff in Hfree. destruct Hfree as [F1 F2].
    apply or_else_some in H. destruct H as [H|H].
    + apply (IH1 F1) in H. destruct H as [m [rest [bol' [g' [-> [M H]]]]]].
      exists m, rest, bol', g'. repeat split; auto using matches.
    + apply (IH2 F2) in H. destruct H as [m [rest [bol' [g' [-> [M H]]]]]].
      exists m, rest, bol', g'. repeat split; auto using matches.
  - apply or_else_some in H. destruct H as [H|H].
    + apply (IH1 Hfree) in H. destruct H as [m [rest [bol' [g' [-> [M H]]]]]].
      exists m, rest, bol', g'. repeat split; auto using matches.
    + exists EmptyString, s, bol, g. repeat split; auto using matches.
  - apply rep_sound in H. destruct H as [m [rest [bol' [-> [Hall [Hlo [Hhi H]]]]]]].
    exists m, rest, bol', g. repeat split; auto using matches.
  - apply (IH1 Hfree) in H. destruct H as [m [rest [bol' [g' [-> [M H]]]]]].
    eexists m, rest, bol', _. repeat split; eauto using matches.
Qed.

Lemma run_complete :
  forall r m,
  matches r m ->
  forall bol rest g (k : bool -> string -> option string -> option A),
    (forall bol' g', k bol' rest g' <> None) ->
    run r bol (m ++ rest) g k <> None.
Proof.
  intros r0 m0 H.
  induction H as [| p c Hp | r1 r2 m1 m2 _ IH1 _ IH2 | r1 r2 m _ IH
                  | r1 r2 m _ IH | r m _ IH | r | p lo hi greedy m Hall Hlo Hhi
                  | r m _ IH];
    intros bol rest g k Hk; cbn [run append].
  - apply Hk.
  - rewrite Hp. apply Hk.
  - rewrite append_assoc. apply IH1. intros bol' g'. now apply IH2.
  - apply or_else_left. now apply IH.
  - apply or_else_right. now apply IH.
  - apply or_else_left. now apply IH.
  - apply or_else_right. apply Hk.
  - apply rep_complete; auto.
  - apply IH. intros bol' g'. apply Hk.
Qed.

End Correctness.

Lemma found_iff (m : option match_object) : found m = true <-> m <> None.
Proof. destruct m; cbn; split; congruence. Qed.

(** [re.search] finds a pattern exactly when some stretch of the subject
    matches it. *)
Lemma search_sound (r : regex) :
  anchor_free r = true ->
  forall s bol,
    found (search_from r bol s) = true ->
    exists pre m suf, s = pre ++ m ++ suf /\ matches r m.
Proof.
  intros Hfree. induction s as [|c s IH]; intros bol H.
  - cbn in H. destruct (match_at r bol EmptyString) as [mo|] eqn:E; [| discriminate].
    unfold match_at in E. apply run_sound in E; [| assumption].
    destruct E as [m [rest [_ [_ [E [M _]]]]]].
    exists EmptyString, m, rest. auto.
  - cbn in H. destruct (match_at r bol (String c s)) as [mo|] eqn:E.
    + unfold match_at in E. apply run_sound in E; [| assumption].
      destruct E as [m [rest [_ [_ [E [M _]]]]]].
      exists EmptyString, m, rest. auto.
    + cbn in H. apply IH in H. destruct H as [pre [m [suf [-> M]]]].
      exists (String c pre), m, suf. auto.
Qed.

Lemma search_complete (r : regex) (m : string) :
  matches r m ->
  forall pre suf bol, found (search_from r bol (pre ++ m ++ suf)) = true.
Proof.
  intros M. induction pre as [|c pre IH]; intros suf bol.
  - cbn [append]. apply found_iff.
    assert (H : match_at r bol (m ++ suf) <> None).
    { unfold match_at. apply run_complete; [assumption | discriminate]. }
    destruct (m ++ suf); cbn; now apply or_else_left.
  - cbn [append search_from]. apply found_iff. apply or_else_right.
    apply found_iff. apply IH.
Qed.

(** *** Lower-casing and trimming the subject *)

Definition closed_under_lower (p : ascii -> bool) : bool :=
  for_all_ascii (fun c => implb (p c) (p (PyStr.lower_char c))).

Definition non_blank (p : ascii -> bool) : bool :=
  for_all_ascii (fun c => implb (p c) (negb (PyStr.is_space c))).

(** Every class of the pattern is closed under lower-casing. *)
Fixpoint lower_closed (r : regex) : bool :=
  match r with
  | Cls p | Rep p _ _ _ => closed_under_lower p
  | Seq r1 r2 | Alt r1 r2 => lower_closed r1 && lower_closed r2
  | Opt r1 | Grp r1 => lower_closed r1
  | Eps | Bol | Eol => true
  end.

(** Every match is non-empty and starts with a non-blank. *)
Fixpoint starts_non_blank (r : regex) : bool :=
  match r with
  | Cls p => non_blank p
  | Rep p lo _ _ => Nat.leb 1 lo && non_blank p
  | Seq r1 _ => starts_non_blank r1
  | Alt r1 r2 => starts_non_blank r1 && starts_non_blank r2
  | Grp r1 => starts_non_blank r1
  | Opt _ | Eps | Bol | Eol => false
  end.

(** Every match is non-empty and ends with a non-blank. *)
Fixpoint ends_non_blank (r : regex) : bool :=
  match r with
  | Cls p => non_blank p
  | Rep p lo _ _ => Nat.leb 1 lo && non_blank p
  | Seq _ r2 => ends_non_blank r2
  | Alt r1 r2 => ends_non_blank r1 && ends_non_blank r2
  | Grp r1 => ends_non_blank r1
  | Opt _ | Eps | Bol | Eol => false
  end.

Lemma closed_under_lower_spec (p : ascii -> bool) (c : ascii) :
  closed_under_lower p = true -> p c = true -> p (PyStr.lower_char c) = true.
Proof.
  intros H Hp. pose proof (for_all_ascii_spec _ H c) as Hc. cbn in Hc.
  now rewrite Hp in Hc.
Qed.

Lemma non_blank_spec (p : ascii -> bool) (c : ascii) :
  non_blank p = true -> p c = true -> PyStr.is_space c = false.
Proof.
  intros H Hp. pose proof (for_all_ascii_spec _ H c) as Hc. cbn in Hc.
  rewrite Hp in Hc. now apply negb_true_iff.
Qed.

Lemma all_in_lower (p : ascii -> bool) (m : string) :
  closed_under_lower p = true -> all_in p m = true ->
  all_in p (PyStr.lower m) = true.
Proof.
  intros H. induction m as [|c m IH]; cbn; [reflexivity |].
  rewrite !andb_true_iff. intros [Hc Hm].
  split; [now apply closed_under_lower_spec | now apply IH].
Qed.

Lemma matches_lower :
  forall r m, matches r m -> lower_closed r = true -> matches r (PyStr.lower m).
Proof.
  intros r0 m0 H.
  induction H as [| p c Hp | r1 r2 m1 m2 _ IH1 _ IH2 | r1 r2 m _ IH
                  | r1 r2 m _ IH | r m _ IH | r | p lo hi greedy m Hall Hlo Hhi
                  | r m _ IH];
    cbn [lower_closed PyStr.lower]; intros Hc.
  - constructor.
  - constructor. now apply closed_under_lower_spec.
  - apply andb_true_iff in Hc. destruct Hc as [Hc1 Hc2].
    rewrite lower_append. constructor; auto.
  - apply andb_true_iff in Hc. destruct Hc as [Hc1 Hc2]. apply M_AltL; auto.
  - apply andb_true_iff in Hc. destruct Hc as [Hc1 Hc2]. apply M_AltR; auto.
  - apply M_OptSome; auto.
  - apply M_OptNone.
  - constructor; rewrite ?length_lower; auto using all_in_lower.
  - constructor; auto.
Qed.

Lemma matches_starts :
  forall r m, matches r m -> starts_non_blank r = true ->
  exists c m', m = String c m' /\ PyStr.is_space c = false.
Proof.
  intros r0 m0 H.
  induction H as [| p c Hp | r1 r2 m1 m2 _ IH1 _ IH2 | r1 r2 m _ IH
                  | r1 r2 m _ IH | r m _ IH | r | p lo hi greedy m Hall Hlo Hhi
                  | r m _ IH];
    cbn [starts_non_blank]; intros Hs; try discriminate.
  - exists c, EmptyString. split; [reflexivity | now apply (non_blank_spec p)].
  - destruct (IH1 Hs) as [c [m' [-> Hc]]]. exists c, (m' ++ m2). auto.
  - apply andb_true_iff in Hs. destruct Hs as [Hs1 Hs2]. auto.
  - apply andb_true_iff in Hs. destruct Hs as [Hs1 Hs2]. auto.
  - apply andb_true_iff in Hs. destruct Hs as [Hs1 Hs2].
    apply Nat.leb_le in Hs1. destruct m as [|c m]; cbn in Hlo; [lia |].
    cbn in Hall. apply andb_true_iff in Hall. destruct Hall as [Hp _].
    exists c, m. split; [reflexivity | now apply (non_blank_spec p)].
  - auto.
Qed.

Lemma all_in_last (p : ascii -> bool) (m : string) :
  all_in p m = true -> 1 <= String.length m ->
  exists m' d, m = m' ++ String d EmptyString /\ p d = true.
Proof.
  induction m as [|c m IH]; cbn; intros Hall Hlen; [lia |].
  apply andb_true_iff in Hall. destruct Hall as [Hc Hm].
  destruct m as [|c' m].
  - exists EmptyString, c. auto.
  - destruct (IH Hm) as [m' [d [E Hd]]]; [cbn; lia |].
    exists (String c m'), d. cbn [append]. rewrite <- E. auto.
Qed.

Lemma matches_ends :
  forall r m, matches r m -> ends_non_blank r = true ->
  exists m' d, m = m' ++ String d EmptyString /\ PyStr.is_space d = false.
Proof.
  intros r0 m0 H.
  induction H as [| p c Hp | r1 r2 m1 m2 _ IH1 _ IH2 | r1 r2 m _ IH
                  | r1 r2 m _ IH | r m _ IH | r | p lo hi greedy m Hall Hlo Hhi
                  | r m _ IH];
    cbn [ends_non_blank]; intros Hs; try discriminate.
  - exists EmptyString, c. split; [reflexivity | now apply (non_blank_spec p)].
  - destruct (IH2 Hs) as [m' [d [-> Hd]]]. exists (m1 ++ m'), d.
    rewrite append_assoc. auto.
  - apply andb_true_iff in Hs. destruct Hs as [Hs1 Hs2]. auto.
  - apply andb_true_iff in Hs. destruct Hs as [Hs1 Hs2]. auto.
  - apply andb_true_iff in Hs. destruct Hs as [Hs1 Hs2].
    apply Nat.leb_le in Hs1.
    destruct (@all_in_last p m Hall) as [m' [d [E Hd]]]; [lia |].
    exists m', d. split; [exact E | now apply (non_blank_spec p)].
  - auto.
Qed.

(** A pattern found in the raw text is found in the lower-cased, trimmed
    text as well. *)
Lemma search_survives_normalisation (r : regex) (s : string) :
  anchor_free r = true -> lower_closed r = true ->
  starts_non_blank r = true -> ends_non_blank r = true ->
  found (re_search r s) = true ->
  found (re_search r (PyStr.strip (PyStr.lower s))) = true.
Proof.
  intros Hfree Hlow Hstart Hend H.
  apply search_sound in H; [| assumption].
  destruct H as [pre [m [suf [-> M]]]].
  apply matches_lower in M; [| assumption].
  destruct (matches_starts M Hstart) as [c [m1 [E1 Hc]]].
  destruct (matches_ends M Hend) as [m2 [d [E2 Hd]]].
  rewrite !lower_append.
  destruct (@strip_keeps (PyStr.lower pre) (PyStr.lower m) (PyStr.lower suf)
              c m1 m2 d E1 E2 Hc Hd) as [pre' [suf' E]].
  rewrite E. now apply search_complete.
Qed.

End ReFacts.

(** ** Intent classifier *)

Module ClassifierFacts.
Import Re ReFacts PyStrFacts HealthAgentSystem.

(** [\d+\s*mg] *)
Definition mg_pattern : regex :=
  seqs [plus digit; star space; lit "mg"].

(** The numeric glucose patterns of the specification: those the code
    tries, and the one the specification singles out. *)
Definition numeric_glucose_patterns : list regex :=
  mg_pattern :: cgm_indicators_values.

Lemma well_shaped (pattern : regex) :
  In pattern numeric_glucose_patterns ->
  anchor_free pattern = true /\ lower_closed pattern = true
  /\ starts_non_blank pattern = true /\ ends_non_blank pattern = true.
Proof.
  intros H. cbn in H.
  repeat (destruct H as [<- | H]; [repeat split; vm_compute; reflexivity |]).
  contradiction.
Qed.

(** What [\d+\s*mg] matches, the first code pattern matches. *)
Lemma mg_is_a_unit (m : string) :
  matches mg_pattern m -> matches (nth 0 cgm_indicators_values Eps) m.
Proof.
  cbn. intros H.
  inversion H as [| | r1 r2 m1 m23 H1 H23 | | | | | |]; subst.
  inversion H23 as [| | r1 r2 m2 m3 H2 H3 | | | | | |]; subst.
  apply M_Seq; [assumption |]. apply M_Seq; [assumption |].
  apply M_AltL. assumption.
Qed.

Lemma short_circuit (input : string) :
  existsb (fun pattern =>
             found (re_search pattern (PyStr.strip (PyStr.lower input))))
          cgm_indicators_values = true ->
  _detect_primary_intent input = "cgm_monitoring".
Proof. intros H. unfold _detect_primary_intent. now rewrite H. Qed.

(** C2.  Whenever a numeric glucose pattern is found in the input, as typed
    or after the lower-casing and trimming the classifier applies, the
    intent is cgm_monitoring: the other scores are never consulted.  The
    patterns are the four the classifier tries and [\d+\s*mg]. *)
Theorem numeric_glucose_pattern_short_circuits (input : string) (pattern : regex) :
  In pattern numeric_glucose_patterns ->
  found (re_search pattern input) = true
  \/ found (re_search pattern (PyStr.strip (PyStr.lower input))) = true ->
  _detect_primary_intent input = "cgm_monitoring".
Proof.
  intros Hin H.
  destruct (well_shaped Hin) as [Hfree [Hlow [Hstart Hend]]].
  assert (Hn : found (re_search pattern (PyStr.strip (PyStr.lower input))) = true).
  { destruct H as [H|H]; [| exact H].
    now apply search_survives_normalisation. }
  clear H. apply short_circuit. apply existsb_exists.
  destruct Hin as [<- | Hin].
  - exists (nth 0 cgm_indicators_values Eps). split; [cbn; auto |].
    apply search_sound in Hn; [| reflexivity].
    destruct Hn as [pre [m [suf [-> M]]]].
    apply search_complete. now apply mg_is_a_unit.
  - exists pattern. auto.
Qed.

Lemma numeric_glucose_pattern_short_circuits_witness :
  In mg_pattern numeric_glucose_patterns
  /\ (found (re_search mg_pattern "I feel GREAT after lunch, 95 mg") = true
      \/ found (re_search mg_pattern
                  (PyStr.strip (PyStr.lower "I feel GREAT after lunch, 95 mg")))
         = true)
  /\ _detect_primary_intent "I feel GREAT after lunch, 95 mg" = "cgm_monitoring".
Proof.
  assert (Hin : In mg_pattern numeric_glucose_patterns) by (left; reflexivity).
  assert (H : found (re_search mg_pattern "I feel GREAT after lunch, 95 mg") = true
              \/ found (re_search mg_pattern
                          (PyStr.strip (PyStr.lower "I feel GREAT after lunch, 95 mg")))
                 = true) by (left; vm_compute; reflexivity).
  split; [exact Hin |]. split; [exact H |].
  exact (@numeric_glucose_pattern_short_circuits
           "I feel GREAT after lunch, 95 mg" mg_pattern Hin H).
Defined.


(** *** The choice among the five scores *)

Lemma max_value_ge (rest : list (string * Z)) :
  forall best,
    (best <= max_value best rest)%Z
    /\ forall e, In e rest -> (snd e <= max_value best rest)%Z.
Proof.
  induction rest as [|[k v] rest IH]; intros best; cbn [max_value].
  - split; [lia | contradiction].
  - destruct (IH (if (best <? v)%Z then v else best)) as [H1 H2].
    destruct (Z.ltb_spec best v); (split; [lia |]);
      intros e [<- | He]; cbn [snd]; auto; lia.
Qed.

Lemma max_value_attained (rest : list (string * Z)) :
  forall best,
    max_value best rest = best
    \/ exists e, In e rest /\ snd e = max_value best rest.
Proof.
  induction rest as [|[k v] rest IH]; intros best; cbn [max_value]; [auto |].
  destruct (IH (if (best <? v)%Z then v else best)) as [H | [e [He H]]].
  - destruct (Z.ltb_spec best v); [| auto].
    right. exists (k, v). cbn. auto.
  - right. exists e. cbn. auto.
Qed.

(** [max(d, key=d.get)] is the first key that holds the maximum. *)
Lemma max_key_first (rest : list (string * Z)) :
  forall best i k v,
    nth_error (best :: rest) i = Some (k, v) ->
    (forall e, In e (best :: rest) -> (snd e <= v)%Z) ->
    (forall j e, j < i -> nth_error (best :: rest) j = Some e -> (snd e < v)%Z) ->
    max_key best rest = k.
Proof.
  induction rest as [|[k1 v1] rest IH]; intros best i k v Hi Hmax Hfirst.
  - destruct i as [|[|i]]; cbn in Hi; try discriminate.
    injection Hi as ->. reflexivity.
  - cbn [max_key]. destruct (Z.ltb_spec (snd best) v1) as [Hlt | Hge].
    + destruct i as [|i].
      * cbn in Hi. injection Hi as ->. cbn [snd] in Hlt.
        specialize (Hmax (k1, v1)). cbn in Hmax.
        assert ((v1 <= v)%Z) by auto. lia.
      * apply (IH (k1, v1) i k v).
        -- exact Hi.
        -- intros e He. apply Hmax. right. exact He.
        -- intros j e Hj Hnth. apply (Hfirst (S j) e); [lia | exact Hnth].
    + destruct i as [|[|i]].
      * apply (IH best 0 k v).
        -- exact Hi.
        -- intros e [<- | He]; apply Hmax; cbn; auto.
        -- intros j e Hj. lia.
      * cbn in Hi. injection Hi as -> ->.
        specialize (Hfirst 0 best). cbn in Hfirst.
        assert ((snd best < v)%Z) by (apply Hfirst; [lia | reflexivity]). lia.
      * apply (IH best (S i) k v).
        -- exact Hi.
        -- intros e [<- | He]; apply Hmax; cbn; auto.
        -- intros [|j] e Hj Hnth.
           ++ apply (Hfirst 0 e); [lia | exact Hnth].
           ++ apply (Hfirst (S (S j)) e); [lia | exact Hnth].
Qed.

Lemma sum_in_nonneg (k : Z) (ws : list string) (s : string) :
  (0 <= k)%Z -> (0 <= PyStr.sum_in k ws s)%Z.
Proof.
  intros Hk. induction ws as [|w ws IH]; cbn; [lia |].
  destruct (PyStr.contains s w); lia.
Qed.

Lemma scores_nonneg (input_lower : string) :
  forall e, In e (scores input_lower) -> (0 <= snd e)%Z.
Proof.
  assert (S2 := fun ws => @sum_in_nonneg 2 ws input_lower ltac:(lia)).
  assert (S1 := fun ws => @sum_in_nonneg 1 ws input_lower ltac:(lia)).
  assert (S3 := fun ws => @sum_in_nonneg 3 ws input_lower ltac:(lia)).
  assert (S4 := fun ws => @sum_in_nonneg 4 ws input_lower ltac:(lia)).
  intros e He. cbn in He.
  destruct He as [<- | [<- | [<- | [<- | [<- | []]]]]]; cbn [snd].
  - unfold calculate_mood_score.
    pose proof (S2 mood_indicators_direct). pose proof (S2 mood_indicators_positive).
    pose proof (S2 mood_indicators_negative). pose proof (S3 mood_indicators_self_ref).
    repeat match goal with
           | |- context [if ?b then _ else _] => destruct b
           end; lia.
  - unfold calculate_cgm_score.
    pose proof (S2 cgm_indicators_direct). pose proof (S1 cgm_indicators_actions).
    lia.
  - unfold calculate_food_score.
    pose proof (S3 food_indicators_past_tense).
    pose proof (S2 food_indicators_present_tense).
    pose proof (S1 food_indicators_food_items).
    pose proof (S1 food_indicators_context).
    pose proof (S2 food_indicators_meals). pose proof (S1 food_indicators_meals).
    repeat match goal with
           | |- context [if ?b then _ else _] => destruct b
           end; lia.
  - unfold calculate_planning_score.
    pose proof (S4 planning_indicators_direct).
    pose proof (S2 planning_indicators_questions).
    pose proof (S1 planning_indicators_time_based).
    repeat match goal with
           | |- context [if ?b then _ else _] => destruct b
           end; lia.
  - unfold calculate_insights_score.
    pose proof (S2 insights_indicators_direct).
    pose proof (S2 insights_indicators_requests).
    repeat match goal with
           | |- context [if ?b then _ else _] => destruct b
           end; lia.
Qed.

(** The input as the classifier reads it. *)
Definition normalised (input : string) : string :=
  PyStr.strip (PyStr.lower input).

Definition no_numeric_glucose (input : string) : Prop :=
  existsb (fun pattern => found (re_search pattern (normalised input)))
          cgm_indicators_values = false.

(** C5, as the code has it.  When no numeric glucose pattern is found in
    the lower-cased, trimmed input, the five scores are non-negative and
    listed in the order mood, glucose, food, meal planning, insights; the
    classifier returns general_question when all five are zero, and
    otherwise the first category in that order that holds the maximum. *)
Theorem highest_score_wins_after_short_circuit (input : string) :
  no_numeric_glucose input ->
  map fst (scores (normalised input))
  = ["mood_tracking"; "cgm_monitoring"; "food_logging"; "meal_planning";
     "insights_request"]
  /\ (forall e, In e (scores (normalised input)) -> (0 <= snd e)%Z)
  /\ ((forall e, In e (scores (normalised input)) -> snd e = 0%Z) ->
      _detect_primary_intent input = "general_question")
  /\ (forall i k v,
        nth_error (scores (normalised input)) i = Some (k, v) ->
        (0 < v)%Z ->
        (forall e, In e (scores (normalised input)) -> (snd e <= v)%Z) ->
        (forall j e, j < i -> nth_error (scores (normalised input)) j = Some e ->
                     (snd e < v)%Z) ->
        _detect_primary_intent input = k).
Proof.
  intros Hno. unfold no_numeric_glucose, normalised in Hno.
  split; [reflexivity |]. split; [apply scores_nonneg |].
  unfold _detect_primary_intent. fold (normalised input) in Hno |- *.
  rewrite Hno.
  remember (scores (normalised input)) as sc eqn:Esc.
  assert (Hshape : exists first rest, sc = first :: rest).
  { rewrite Esc. unfold scores. eauto. }
  destruct Hshape as [first [rest ->]]. clear Esc.
  split.
  - intros Hzero.
    destruct (max_value_attained rest (snd first)) as [E | [e [He E]]].
    + rewrite E, (Hzero first) by (left; reflexivity). reflexivity.
    + rewrite <- E, (Hzero e) by (right; exact He). reflexivity.
  - intros i k v Hi Hpos Hmax Hfirst.
    assert (E : max_value (snd first) rest = v).
    { destruct (max_value_ge rest (snd first)) as [G1 G2].
      assert (Hv : (v <= max_value (snd first) rest)%Z).
      { apply nth_error_In in Hi. destruct Hi as [Hi | Hi].
        - subst first. exact G1.
        - apply (G2 _ Hi). }
      destruct (max_value_attained rest (snd first)) as [E | [e [He E]]].
      - specialize (Hmax first (or_introl eq_refl)). lia.
      - specialize (Hmax e (or_intror He)). lia. }
    rewrite E. apply Z.ltb_lt in Hpos. rewrite Hpos.
    now apply (@max_key_first rest first i k v).
Qed.

Lemma highest_score_wins_after_short_circuit_witness :
  no_numeric_glucose "show me what i ate for lunch"
  /\ map fst (scores (normalised "show me what i ate for lunch"))
     = ["mood_tracking"; "cgm_monitoring"; "food_logging"; "meal_planning";
        "insights_request"]
  /\ (forall e, In e (scores (normalised "show me what i ate for lunch")) ->
                (0 <= snd e)%Z)
  /\ ((forall e, In e (scores (normalised "show me what i ate for lunch")) ->
                 snd e = 0%Z) ->
      _detect_primary_intent "show me what i ate for lunch" = "general_question")
  /\ (forall i k v,
        nth_error (scores (normalised "show me what i ate for lunch")) i
        = Some (k, v) ->
        (0 < v)%Z ->
        (forall e, In e (scores (normalised "show me what i ate for lunch")) ->
                   (snd e <= v)%Z) ->
        (forall j e, j < i ->
           nth_error (scores (normalised "show me what i ate for lunch")) j
           = Some e -> (snd e < v)%Z) ->
        _detect_primary_intent "show me what i ate for lunch" = k).
Proof.
  assert (H : no_numeric_glucose "show me what i ate for lunch")
    by (vm_compute; reflexivity).
  split; [exact H |].
  exact (@highest_score_wins_after_short_circuit
           "show me what i ate for lunch" H).
Defined.

(** C5 as stated fails: with a numeric glucose pattern in the input the
    classifier answers cgm_monitoring although mood holds the strictly
    highest score, and although every score is zero. *)
Lemma short_circuit_overrides_scores :
  scores (normalised "i am happy 5 mg")
  = [ ("mood_tracking", 5%Z); ("cgm_monitoring", 0%Z); ("food_logging", 0%Z);
      ("meal_planning", 0%Z); ("insights_request", 0%Z) ]
  /\ _detect_primary_intent "i am happy 5 mg" = "cgm_monitoring"
  /\ _detect_primary_intent "i am happy 5 mg" <> "mood_tracking"
  /\ scores (normalised "5 mg")
     = [ ("mood_tracking", 0%Z); ("cgm_monitoring", 0%Z); ("food_logging", 0%Z);
         ("meal_planning", 0%Z); ("insights_request", 0%Z) ]
  /\ _detect_primary_intent "5 mg" = "cgm_monitoring"
  /\ _detect_primary_intent "5 mg" <> "general_question".
Proof.
  repeat split; try (vm_compute; reflexivity); vm_compute; discriminate.
Qed.

End ClassifierFacts.

(** ** Scenarios *)

Module Scenarios.
Import DatabaseManager HealthAgentSystem CGMAgentFacts.

(** C7.  For "I'm feeling really great today!": the classifier answers
    mood_tracking; the label extracted is "great", from the sentence as
    typed and from what [_extract_mood_from_input] hands to the mood
    agent; the score of "great" is 8; and in a logged-in session the turn
    stores the row (great, 8) and reports score 8. *)
Theorem feeling_great_is_mood_great_8 (env : environment) :
  _detect_primary_intent "I'm feeling really great today!" = "mood_tracking"
  /\ MoodTrackerAgent.extract_simple_mood_label "I'm feeling really great today!"
     = "great"
  /\ MoodTrackerAgent.extract_simple_mood_label
       (_extract_mood_from_input "I'm feeling really great today!") = "great"
  /\ dict_get (MoodTrackerAgent.convert_mood_to_score "great") "mood_score"
     = Some (VInt 8)
  /\ exists reply w',
       process_user_input env "I'm feeling really great today!"
         (mk_world Sample.logged_in Sample.store) = (Ok reply, w')
       /\ dict_get reply "agent_used" = Some (VStr "MoodTrackerAgent")
       /\ dict_get reply "mood_score" = Some (VInt 8)
       /\ mood_tracking (db_of w') = [mk_mood_row "1234" "great" 8].
Proof.
  split; [vm_compute; reflexivity |]. split; [vm_compute; reflexivity |].
  split; [vm_compute; reflexivity |]. split; [vm_compute; reflexivity |].
  do 2 eexists. split; [lazy; reflexivity |].
  repeat split.
Qed.

(** A user none of whose conditions is a diabetic one. *)
Definition no_diabetic_condition (u : user_data) : Prop :=
  ~ In "Type 1 Diabetes" (medical_conditions u)
  /\ ~ In "Type 2 Diabetes" (medical_conditions u)
  /\ ~ In "Pre-diabetes" (medical_conditions u).

Lemma range_without_diabetic_condition (u : user_data) (r : CGMAgent.cgm_range) :
  no_diabetic_condition u ->
  CGMAgent.ranges_get CGMAgent.cgm_ranges (range_key (Some u)) = Some r ->
  r = CGMAgent.mk_range 70 140 70 140 \/ r = CGMAgent.mk_range 70 180 80 140.
Proof.
  intros [H1 [H2 H3]]. apply mem_not_In in H1, H2, H3.
  unfold range_key. rewrite H1, H2, H3.
  destruct (_ || _); cbn; intros E; injection E as <-; auto.
Qed.

(** C3, as the code has it.  For "My glucose reading is 120": the
    classifier answers cgm_monitoring, the extractor returns 120.0, and for
    a logged-in user without a diabetic condition the reading is stored
    with severity normal; the target range answered is 70-140 mg/dL (the
    None entry) or 80-140 mg/dL (the default entry, whose overall bounds
    are 70 and 180); a whole turn of the sample logged-in session answers
    normal and stores the reading without an alert. *)
Theorem glucose_120_is_normal :
  _detect_primary_intent "My glucose reading is 120" = "cgm_monitoring"
  /\ _extract_glucose_reading "My glucose reading is 120"
     = Ok (Some (inject_Z 120))
  /\ CGMAgent.ranges_get CGMAgent.cgm_ranges "default"
     = Some (CGMAgent.mk_range 70 180 80 140)
  /\ (exists reply w',
        process_user_input Sample.env "My glucose reading is 120"
          (mk_world Sample.logged_in Sample.store) = (Ok reply, w')
        /\ dict_get reply "agent_used" = Some (VStr "CGMAgent")
        /\ dict_get reply "alert_type" = Some (VStr "normal")
        /\ cgm_readings (db_of w') = [mk_cgm_row "1234" (inject_Z 120)]
        /\ cgm_alerts (db_of w') = [])
  /\ forall (float_str : Q -> string)
            (get_cgm_trends : option string -> Z -> Database -> cgm_trends)
            (self : CGMAgent.t) (db : Database) (u : user_data),
       PyStr.truthy (CGMAgent.authenticated_user_id self) = true ->
       validate_user_id (CGMAgent.authenticated_user_id self) db = (Ok (Some u), db) ->
       no_diabetic_condition u ->
       exists result db',
         CGMAgent.process_glucose_reading float_str get_cgm_trends self
           (inject_Z 120) db = (Ok result, db')
         /\ dict_get result "status" = Some (VStr "success")
         /\ dict_get result "alert_type" = Some (VStr "normal")
         /\ (dict_get result "target_range" = Some (VStr "70-140 mg/dL")
             \/ dict_get result "target_range" = Some (VStr "80-140 mg/dL")).
Proof.
  split; [vm_compute; reflexivity |]. split; [vm_compute; reflexivity |].
  split; [reflexivity |].
  split.
  { do 2 eexists. split; [vm_compute; reflexivity |]. repeat split. }
  intros float_str get_cgm_trends self db u Hauth Hv Hno.
  destruct (@process_glucose_reading_accepted_found float_str get_cgm_trends self
              (inject_Z 120) db (Some u) Hauth Hv)
    as [r [result [db' [Hr [Hp [Hs [Ha Ht]]]]]]];
    try (vm_compute; discriminate).
  exists result, db'. split; [exact Hp |]. split; [exact Hs |].
  destruct (range_without_diabetic_condition Hno Hr) as [-> | ->].
  - split; [exact Ha |]. left. exact Ht.
  - split; [exact Ha |]. right. exact Ht.
Qed.

Lemma glucose_120_is_normal_witness :
  PyStr.truthy (CGMAgent.authenticated_user_id
                  (CGMAgent.create_cgm_agent (Some "1234"))) = true
  /\ validate_user_id (Some "1234") Sample.store = (Ok (Some Sample.jane), Sample.store)
  /\ no_diabetic_condition Sample.jane
  /\ exists result db',
       CGMAgent.process_glucose_reading Sample.float_str
         (fun _ _ _ => Sample.no_trends)
         (CGMAgent.create_cgm_agent (Some "1234")) (inject_Z 120) Sample.store
       = (Ok result, db')
       /\ dict_get result "status" = Some (VStr "success")
       /\ dict_get result "alert_type" = Some (VStr "normal")
       /\ (dict_get result "target_range" = Some (VStr "70-140 mg/dL")
           \/ dict_get result "target_range" = Some (VStr "80-140 mg/dL")).
Proof.
  assert (Hno : no_diabetic_condition Sample.jane).
  { unfold no_diabetic_condition. cbn.
    repeat split; intros [H | []]; discriminate. }
  split; [reflexivity |]. split; [reflexivity |]. split; [exact Hno |].
  exact (proj2 (proj2 (proj2 (proj2 glucose_120_is_normal))) Sample.float_str
           (fun _ _ _ => Sample.no_trends)
           (CGMAgent.create_cgm_agent (Some "1234")) Sample.store Sample.jane
           eq_refl eq_refl Hno).
Defined.

(** C3 as stated fails on its last part: for a user without a diabetic
    condition the target range is not 70-180 mg/dL.  For such a user 120
    is answered with the range 80-140 mg/dL, and 150, inside 70-180, is
    answered as high. *)
Lemma default_target_range_is_not_70_180 :
  no_diabetic_condition Sample.jane
  /\ (exists db',
        CGMAgent.process_glucose_reading Sample.float_str
          (fun _ _ _ => Sample.no_trends)
          (CGMAgent.create_cgm_agent (Some "1234")) (inject_Z 120) Sample.store
        = (Ok [ ("status", VStr "success");
                ("reading", VFloat (inject_Z 120));
                ("alert_type", VStr "normal");
                ("message", VStr "âœ… NORMAL: 120.0 mg/dL - Great job!");
                ("recommendations",
                 VList [ VStr "Keep up the good work!";
                         VStr "Continue current management plan" ]);
                ("target_range", VStr "80-140 mg/dL") ], db'))
  /\ "80-140 mg/dL" <> "70-180 mg/dL"
  /\ (exists result db',
        CGMAgent.process_glucose_reading Sample.float_str
          (fun _ _ _ => Sample.no_trends)
          (CGMAgent.create_cgm_agent (Some "1234")) (inject_Z 150) Sample.store
        = (Ok result, db')
        /\ dict_get result "alert_type" = Some (VStr "high")
        /\ dict_get result "target_range" = Some (VStr "80-140 mg/dL")).
Proof.
  split.
  { unfold no_diabetic_condition. cbn.
    repeat split; intros [H | []]; discriminate. }
  split; [eexists; vm_compute; reflexivity |].
  split; [discriminate |].
  do 2 eexists. split; [vm_compute; reflexivity |]. split; reflexivity.
Qed.

End Scenarios.

(** ** Authentication resolver *)

Module ResolverFacts.
Import Re ReFacts PyStrFacts HealthAgentSystem.

(** A text of exactly four decimal digits. *)
Definition four_digit_token (text : string) : Prop :=
  String.length text = 4 /\ all_in PyStr.is_digit text = true.

Lemma lower_digits (s : string) :
  all_in PyStr.is_digit s = true -> PyStr.lower s = s.
Proof.
  induction s as [|c s IH]; cbn; [reflexivity |].
  rewrite andb_true_iff. intros [Hc Hs]. rewrite (IH Hs). f_equal.
  pose proof (for_all_ascii_spec
                (fun c => implb (PyStr.is_digit c)
                                (Ascii.eqb (PyStr.lower_char c) c))
                eq_refl c) as H.
  cbn in H. rewrite Hc in H. now apply Ascii.eqb_eq.
Qed.

Lemma prefix_head (c : ascii) (w s : string) :
  String.prefix (String c w) s = true -> PyStr.has_char c s = true.
Proof.
  destruct s as [|d s]; cbn; [discriminate |].
  destruct (ascii_dec c d) as [<- | Hne]; [| discriminate].
  intros _. now rewrite Ascii.eqb_refl.
Qed.

(** A text that contains a phrase contains its first character. *)
Lemma contains_head (s : string) (c : ascii) (w : string) :
  PyStr.contains s (String c w) = true -> PyStr.has_char c s = true.
Proof.
  induction s as [|d s IH].
  - cbn. discriminate.
  - cbn [PyStr.contains]. rewrite orb_true_iff. intros [H | H].
    + now apply prefix_head in H.
    + cbn. rewrite (IH H). apply orb_true_r.
Qed.

Lemma has_char_all_in (p : ascii -> bool) (c : ascii) (s : string) :
  all_in p s = true -> PyStr.has_char c s = true -> p c = true.
Proof.
  induction s as [|d s IH]; cbn; [discriminate |].
  rewrite andb_true_iff, orb_true_iff. intros [Hd Hs] [H | H].
  - apply Ascii.eqb_eq in H. now subst.
  - now apply IH.
Qed.

Lemma digits_contain_no_phrase (s : string) (c : ascii) (w : string) :
  all_in PyStr.is_digit s = true -> PyStr.is_digit c = false ->
  PyStr.contains s (String c w) = false.
Proof.
  intros Hs Hc. apply not_true_is_false. intros H.
  apply contains_head in H. apply (@has_char_all_in PyStr.is_digit c s Hs) in H.
  congruence.
Qed.

Lemma four_digits_look_like_user_id (text : string) :
  four_digit_token text -> _looks_like_user_id text = true.
Proof.
  intros [Hlen Hall]. unfold _looks_like_user_id.
  apply orb_true_iff. left. apply orb_true_iff. left.
  apply found_iff. unfold re_match, match_at. cbn [seqs run].
  rewrite <- (append_nil_r text) at 1.
  apply rep_complete.
  - intros bol. cbn. discriminate.
  - exact Hall.
  - lia.
  - cbn. lia.
Qed.

Lemma four_digits_are_no_name_search (text : string) :
  four_digit_token text -> _looks_like_name_search text = false.
Proof.
  intros [_ Hall]. unfold _looks_like_name_search, PyStr.any_in.
  rewrite (@lower_digits text Hall). cbn [existsb].
  rewrite !digits_contain_no_phrase by (assumption || reflexivity).
  reflexivity.
Qed.

(** C8.  An input whose trimmed content is exactly four decimal digits
    passes the ID-shape check and fails the name-search check; the
    resolver takes the user-ID branch, also at the turn boundary of an
    unauthenticated session. *)
Theorem four_digit_input_is_a_user_id (env : environment) (input : string) :
  four_digit_token (PyStr.strip input) ->
  _looks_like_user_id (PyStr.strip input) = true
  /\ _looks_like_name_search (PyStr.strip input) = false
  /\ _handle_authentication env (PyStr.strip input)
     = authenticate_by_id (PyStr.strip input)
  /\ forall w,
       system_state (self_of w) = Unauthenticated ->
       process_user_input env input w
       = authenticate_by_id (PyStr.strip input) w.
Proof.
  intros H.
  pose proof (four_digits_look_like_user_id H) as Hid.
  split; [exact Hid |].
  split; [now apply four_digits_are_no_name_search |].
  assert (E : _handle_authentication env (PyStr.strip input)
              = authenticate_by_id (PyStr.strip input)).
  { unfold _handle_authentication. now rewrite Hid. }
  split; [exact E |].
  intros w Hw. unfold process_user_input, bind, get_self.
  destruct H as [Hlen _].
  destruct (PyStr.strip input) as [|c s] eqn:Es; [discriminate |].
  cbn [String.eqb]. rewrite Hw. now rewrite E.
Qed.

Lemma four_digit_input_is_a_user_id_witness :
  four_digit_token (PyStr.strip "  5678 ")
  /\ _looks_like_user_id (PyStr.strip "  5678 ") = true
  /\ _looks_like_name_search (PyStr.strip "  5678 ") = false
  /\ _handle_authentication Sample.env (PyStr.strip "  5678 ")
     = authenticate_by_id (PyStr.strip "  5678 ")
  /\ forall w,
       system_state (self_of w) = Unauthenticated ->
       process_user_input Sample.env "  5678 " w
       = authenticate_by_id (PyStr.strip "  5678 ") w.
Proof.
  assert (H : four_digit_token (PyStr.strip "  5678 ")) by (split; reflexivity).
  split; [exact H |].
  exact (@four_digit_input_is_a_user_id Sample.env "  5678 " H).
Defined.

End ResolverFacts.

(** ** Mood scores and lexical extractors *)

Module ExtractorFacts.
Import Re ReFacts PyStrFacts HealthAgentSystem.

(** *** The mood score *)

Lemma scores_get_in (d : list (string * Z)) (key : string) (v : Z) :
  MoodTrackerAgent.scores_get d key = Some v -> In (key, v) d.
Proof.
  induction d as [|[k w] d IH]; cbn; [discriminate |].
  destruct (String.eqb_spec k key) as [-> | _].
  - intros E. injection E as ->. now left.
  - intros E. right. now apply IH.
Qed.

Lemma table_scores_in_range :
  Forall (fun e => (1 <= snd e <= 10)%Z) MoodTrackerAgent.mood_scores.
Proof. repeat constructor; cbn; lia. Qed.

(** The keywords of the fallback tiers of [convert_mood_to_score]. *)
Definition tier_keywords : list string :=
  [ "terrible"; "awful"; "horrible"; "worst";
    "very sad"; "depressed"; "miserable"; "devastated";
    "sad"; "down"; "low"; "blue"; "upset";
    "tired"; "sluggish"; "drained"; "exhausted"; "weary";
    "good"; "decent"; "alright"; "better";
    "happy"; "positive"; "cheerful"; "content";
    "great"; "wonderful"; "fantastic"; "awesome";
    "excited"; "amazing"; "thrilled"; "energetic";
    "ecstatic"; "overjoyed"; "blissful"; "euphoric" ].

Lemma any_in_false (ws : list string) (s : string) :
  (forall w, In w ws -> PyStr.contains s w = false) -> PyStr.any_in ws s = false.
Proof.
  intros H. unfold PyStr.any_in. apply not_true_is_false. intros E.
  apply existsb_exists in E. destruct E as [w [Hw E]].
  rewrite (H w Hw) in E. discriminate.
Qed.

Lemma mood_score_total (mood_label : string) :
  exists n,
    dict_get (MoodTrackerAgent.convert_mood_to_score mood_label) "mood_score"
    = Some (VInt n)
    /\ (1 <= n <= 10)%Z
    /\ (MoodTrackerAgent.scores_get MoodTrackerAgent.mood_scores
          (PyStr.strip (PyStr.lower mood_label)) = None ->
        (forall w, In w tier_keywords ->
                   PyStr.contains (PyStr.strip (PyStr.lower mood_label)) w = false) ->
        n = 5%Z).
Proof.
  eexists. split; [reflexivity |].
  set (l := PyStr.strip (PyStr.lower mood_label)).
  split.
  - destruct (MoodTrackerAgent.scores_get MoodTrackerAgent.mood_scores l)
      as [v|] eqn:E.
    + apply scores_get_in in E.
      pose proof table_scores_in_range as F. rewrite Forall_forall in F.
      exact (F _ E).
    + repeat match goal with
             | |- context [if ?b then _ else _] => destruct b
             end; lia.
  - intros E Hnone. rewrite E.
    rewrite !any_in_false; [reflexivity | ..];
      intros w Hw; apply Hnone; cbn in Hw |- *; tauto.
Qed.

(** *** Group 1 of a successful match *)

(** Every successful path through the pattern passes its group. *)
Fixpoint sets_group (r : regex) : bool :=
  match r with
  | Grp _ => true
  | Seq r1 r2 => sets_group r1 || sets_group r2
  | Alt r1 r2 => sets_group r1 && sets_group r2
  | Eps | Cls _ | Opt _ | Rep _ _ _ _ | Bol | Eol => false
  end.

Lemma run_keeps_group (A : Type) (r : regex) :
  forall bol s g (k : bool -> string -> option string -> option A) a,
    run r bol s g k = Some a ->
    exists bol' s' g',
      k bol' s' g' = Some a
      /\ (sets_group r = true \/ g <> None -> g' <> None).
Proof.
  induction r as [| p | r1 IH1 r2 IH2 | r1 IH1 r2 IH2 | r1 IH1
                  | p lo hi greedy | r1 IH1 | |];
    intros bol s g k a H; cbn [run] in H; cbn [sets_group].
  - exists bol, s, g. split; [exact H |]. intros [E | E]; [discriminate | exact E].
  - destruct s as [|c s]; [discriminate |].
    destruct (p c); [| discriminate].
    exists false, s, g. split; [exact H |]. intros [E | E]; [discriminate | exact E].
  - apply IH1 in H. destruct H as [bol1 [s1 [g1 [H G1]]]].
    apply IH2 in H. destruct H as [bol2 [s2 [g2 [H G2]]]].
    exists bol2, s2, g2. split; [exact H |].
    rewrite orb_true_iff. intros [[E | E] | E]; auto.
  - apply or_else_some in H. destruct H as [H | H]; [apply IH1 in H | apply IH2 in H];
      destruct H as [bol' [s' [g' [H G]]]]; exists bol', s', g';
      (split; [exact H |]); rewrite andb_true_iff; intros [[E1 E2] | E]; auto.
  - apply or_else_some in H. destruct H as [H | H].
    + apply IH1 in H. destruct H as [bol' [s' [g' [H G]]]].
      exists bol', s', g'. split; [exact H |].
      intros [E | E]; [discriminate | auto].
    + exists bol, s, g. split; [exact H |].
      intros [E | E]; [discriminate | exact E].
  - apply rep_sound in H. destruct H as [m [rest [bol' [_ [_ [_ [_ H]]]]]]].
    exists bol', rest, g. split; [exact H |].
    intros [E | E]; [discriminate | exact E].
  - apply IH1 in H. destruct H as [bol' [s' [g' [H _]]]].
    eexists bol', s', _. split; [exact H |]. discriminate.
  - destruct bol; [| discriminate].
    exists true, s, g. split; [exact H |]. intros [E | E]; [discriminate | exact E].
  - assert (E : k bol s g = Some a).
    { destruct s as [|c [|d s]]; try discriminate; [exact H |].
      destruct (Ascii.eqb c "010"); [exact H | discriminate]. }
    exists bol, s, g. split; [exact E |].
    intros [E' | E']; [discriminate | exact E'].
Qed.

Lemma search_sets_group (r : regex) (s : string) (bol : bool) (m : match_object) :
  sets_group r = true -> search_from r bol s = Some m ->
  exists g, group1 m = Some g.
Proof.
  intros Hg. revert bol. induction s as [|c s IH]; intros bol H; cbn in H.
  - destruct (match_at r bol EmptyString) as [mo|] eqn:E; [| discriminate].
    cbn in H. injection H as ->. unfold match_at in E.
    apply run_keeps_group in E. destruct E as [_ [_ [g' [E G]]]].
    injection E as <-. cbn. destruct g'; [eauto |]. exfalso. apply G; auto.
  - destruct (match_at r bol (String c s)) as [mo|] eqn:E.
    + cbn in H. injection H as ->. unfold match_at in E.
      apply run_keeps_group in E. destruct E as [_ [_ [g' [E G]]]].
      injection E as <-. cbn. destruct g'; [eauto |]. exfalso. apply G; auto.
    + cbn in H. eapply IH. exact H.
Qed.

Lemma float_raises_only_value_error (s : string) :
  (exists v, PyNum.float s = Ok v) \/ (exists msg, PyNum.float s = Raise (ValueError msg)).
Proof.
  unfold PyNum.float.
  repeat match goal with
         | |- context [match ?x with _ => _ end] => destruct x
         end; eauto.
Qed.

Lemma first_reading_total (patterns : list regex) (text_lower : string) :
  Forall (fun r => sets_group r = true) patterns ->
  exists v, first_reading patterns text_lower = Ok v.
Proof.
  induction 1 as [|r rs Hr _ IH]; cbn [first_reading]; [eauto |].
  destruct (re_search r text_lower) as [m|] eqn:E; [| exact IH].
  destruct (@search_sets_group r text_lower true m Hr E) as [g ->].
  destruct (float_raises_only_value_error g) as [[v ->] | [msg ->]]; eauto.
Qed.

Lemma first_name_total (patterns : list regex) (text_lower fallback : string) :
  Forall (fun r => sets_group r = true) patterns ->
  exists v, first_name patterns text_lower fallback = Ok v.
Proof.
  induction 1 as [|r rs Hr _ IH]; cbn [first_name]; [eauto |].
  destruct (re_search r text_lower) as [m|] eqn:E; [| exact IH].
  destruct (@search_sets_group r text_lower true m Hr E) as [g ->]. eauto.
Qed.

Lemma extract_glucose_reading_total (text : string) :
  exists v, _extract_glucose_reading text = Ok v.
Proof.
  apply first_reading_total. repeat constructor.
Qed.

Lemma extract_name_total (text : string) :
  exists v, _extract_name_from_input text = Ok v.
Proof.
  apply first_name_total. repeat constructor.
Qed.

(** *** Absence *)

Definition subclass (q p : ascii -> bool) : bool :=
  for_all_ascii (fun c => implb (q c) (p c)).

(** Every match contains a character of class [p]. *)
Fixpoint needs (p : ascii -> bool) (r : regex) : bool :=
  match r with
  | Cls q => subclass q p
  | Rep q lo _ _ => Nat.leb 1 lo && subclass q p
  | Seq r1 r2 => needs p r1 || needs p r2
  | Alt r1 r2 => needs p r1 && needs p r2
  | Grp r1 => needs p r1
  | Eps | Opt _ | Bol | Eol => false
  end.

Fixpoint has (p : ascii -> bool) (s : string) : bool :=
  match s with
  | EmptyString => false
  | String c s' => p c || has p s'
  end.

Lemma has_append (p : ascii -> bool) (a b : string) :
  has p (a ++ b) = has p a || has p b.
Proof. induction a; cbn; [reflexivity |]. now rewrite IHa, orb_assoc. Qed.

Lemma subclass_spec (q p : ascii -> bool) (c : ascii) :
  subclass q p = true -> q c = true -> p c = true.
Proof.
  intros H Hq. pose proof (for_all_ascii_spec _ H c) as Hc. cbn in Hc.
  now rewrite Hq in Hc.
Qed.

Lemma matches_needs (p : ascii -> bool) :
  forall r m, matches r m -> needs p r = true -> has p m = true.
Proof.
  intros r0 m0 H.
  induction H as [| q c Hq | r1 r2 m1 m2 _ IH1 _ IH2 | r1 r2 m _ IH
                  | r1 r2 m _ IH | r m _ IH | r | q lo hi greedy m Hall Hlo Hhi
                  | r m _ IH];
    cbn [needs]; intros Hn; try discriminate.
  - cbn. rewrite (subclass_spec _ _ _ Hn Hq). reflexivity.
  - rewrite has_append. apply orb_true_iff in Hn. apply orb_true_iff.
    destruct Hn; [left | right]; auto.
  - apply andb_true_iff in Hn. destruct Hn. auto.
  - apply andb_true_iff in Hn. destruct Hn. auto.
  - apply andb_true_iff in Hn. destruct Hn as [Hlo' Hsub].
    apply Nat.leb_le in Hlo'. destruct m as [|c m]; cbn in Hlo; [lia |].
    cbn in Hall |- *. apply andb_true_iff in Hall. destruct Hall as [Hc _].
    rewrite (subclass_spec _ _ _ Hsub Hc). reflexivity.
  - auto.
Qed.

(** A pattern that needs a character of a class is not found in a text
    without one. *)
Lemma search_needs (p : ascii -> bool) (r : regex) (s : string) :
  anchor_free r = true -> needs p r = true -> has p s = false ->
  re_search r s = None.
Proof.
  intros Hfree Hn Hs. destruct (re_search r s) as [m|] eqn:E; [| reflexivity].
  assert (F : found (re_search r s) = true) by now rewrite E.
  apply search_sound in F; [| assumption].
  destruct F as [pre [m' [suf [-> M]]]].
  apply (matches_needs p) in M; [| assumption].
  rewrite !has_append, M, orb_true_r in Hs. discriminate.
Qed.

Lemma has_digit_lower (s : string) :
  has PyStr.is_digit (PyStr.lower s) = has PyStr.is_digit s.
Proof.
  induction s as [|c s IH]; cbn; [reflexivity |]. rewrite IH. f_equal.
  apply Bool.eqb_prop.
  exact (for_all_ascii_spec
           (fun c => Bool.eqb (PyStr.is_digit (PyStr.lower_char c))
                              (PyStr.is_digit c))
           eq_refl c).
Qed.

Lemma first_reading_none (patterns : list regex) (text_lower : string) :
  Forall (fun r => re_search r text_lower = None) patterns ->
  first_reading patterns text_lower = Ok None.
Proof.
  induction 1 as [|r rs Hr _ IH]; cbn [first_reading]; [reflexivity |].
  now rewrite Hr.
Qed.

Lemma first_date_none (patterns : list regex) (text : string) :
  Forall (fun r => re_search r text = None) patterns ->
  first_date patterns text = None.
Proof.
  induction 1 as [|r rs Hr _ IH]; cbn [first_date]; [reflexivity |].
  now rewrite Hr.
Qed.

Lemma no_digit_no_reading (text : string) :
  has PyStr.is_digit text = false -> _extract_glucose_reading text = Ok None.
Proof.
  intros H. unfold _extract_glucose_reading. apply first_reading_none.
  rewrite <- has_digit_lower in H.
  repeat constructor; apply (search_needs PyStr.is_digit);
    solve [vm_compute; reflexivity | exact H].
Qed.

Lemma no_digit_no_date (today tomorrow yesterday text : string) :
  has PyStr.is_digit text = false ->
  PyStr.any_in ["today"; "tomorrow"; "yesterday"] (PyStr.lower text) = false ->
  _extract_date_from_input today tomorrow yesterday text = None.
Proof.
  intros H Hrel. unfold _extract_date_from_input.
  cbn in Hrel. apply orb_false_iff in Hrel. destruct Hrel as [-> Hrel].
  apply orb_false_iff in Hrel. destruct Hrel as [-> Hrel].
  apply orb_false_iff in Hrel. destruct Hrel as [-> _].
  apply first_date_none.
  repeat constructor; apply (search_needs PyStr.is_digit);
    solve [vm_compute; reflexivity | exact H].
Qed.

Lemma strip_prefix_none (prefixes : list string) (text : string) :
  Forall (fun prefix => PyStr.startswith (PyStr.lower text) prefix = false) prefixes ->
  strip_prefix prefixes text = PyStr.strip text.
Proof.
  induction 1 as [|p ps Hp _ IH]; cbn [strip_prefix]; [reflexivity |].
  now rewrite Hp.
Qed.

Lemma first_name_none (patterns : list regex) (text_lower fallback : string) :
  Forall (fun r => re_search r text_lower = None) patterns ->
  first_name patterns text_lower fallback = Ok fallback.
Proof.
  induction 1 as [|r rs Hr _ IH]; cbn [first_name]; [reflexivity |].
  now rewrite Hr.
Qed.

(** C6.  Converting a mood label yields an integer score between 1 and 10,
    5 when the label is not in the table and none of the tier keywords
    occurs in it.  The glucose and name extractors, the two in which a
    step could raise, return a value for every input (the mood, meal and
    date extractors have no such step: the date extractor swallows what
    its body raises).  Absence is the original text trimmed (mood, meal
    and name without a known prefix or phrase) or null (no digit: no
    reading and, without a relative day word, no date). *)
Theorem extractors_are_total (text today tomorrow yesterday : string) :
  (exists n,
     dict_get (MoodTrackerAgent.convert_mood_to_score text) "mood_score"
     = Some (VInt n)
     /\ (1 <= n <= 10)%Z
     /\ (MoodTrackerAgent.scores_get MoodTrackerAgent.mood_scores
           (PyStr.strip (PyStr.lower text)) = None ->
         (forall w, In w tier_keywords ->
                    PyStr.contains (PyStr.strip (PyStr.lower text)) w = false) ->
         n = 5%Z))
  /\ (exists reading, _extract_glucose_reading text = Ok reading)
  /\ (exists who, _extract_name_from_input text = Ok who)
  /\ (has PyStr.is_digit text = false -> _extract_glucose_reading text = Ok None)
  /\ (has PyStr.is_digit text = false ->
      PyStr.any_in ["today"; "tomorrow"; "yesterday"] (PyStr.lower text) = false ->
      _extract_date_from_input today tomorrow yesterday text = None)
  /\ (Forall (fun r => re_search r (PyStr.lower text) = None) name_patterns ->
      _extract_name_from_input text = Ok (PyStr.strip text))
  /\ (Forall (fun prefix => PyStr.startswith (PyStr.lower text) prefix = false)
             ["i feel"; "i'm feeling"; "feeling"; "i am"; "mood:"; "my mood is"] ->
      _extract_mood_from_input text = PyStr.strip text)
  /\ (Forall (fun prefix => PyStr.startswith (PyStr.lower text) prefix = false)
             [ "i ate"; "i had"; "just ate"; "just had"; "meal:"; "food:";
               "consumed"; "eaten"; "my meal was"; "for lunch i had";
               "for dinner i had"; "for breakfast i had" ] ->
      _extract_meal_description text = PyStr.strip text).
Proof.
  split; [apply mood_score_total |].
  split; [apply extract_glucose_reading_total |].
  split; [apply extract_name_total |].
  split; [apply no_digit_no_reading |].
  split; [apply no_digit_no_date |].
  split; [apply first_name_none |].
  split; apply strip_prefix_none.
Qed.

Lemma extractors_are_total_witness :
  has PyStr.is_digit "feeling fine" = false
  /\ PyStr.any_in ["today"; "tomorrow"; "yesterday"] (PyStr.lower "feeling fine")
     = false
  /\ _extract_glucose_reading "feeling fine" = Ok None
  /\ _extract_date_from_input "2026-01-15" "2026-01-16" "2026-01-14" "feeling fine"
     = None.
Proof.
  pose proof (@extractors_are_total "feeling fine"
                "2026-01-15" "2026-01-16" "2026-01-14")
    as [_ [_ [_ [Hreading [Hdate _]]]]].
  split; [reflexivity |]. split; [reflexivity |].
  split; [exact (Hreading eq_refl) | exact (Hdate eq_refl eq_refl)].
Defined.

End ExtractorFacts.

(** ** The turn boundary *)

Module TurnFacts.
Import DatabaseManager HealthAgentSystem.

(** A computation that leaves a part [f] of the state as it found it,
    whether it returns or raises. *)
Definition preserves {S X A : Type} (f : S -> X) (c : M S A) : Prop :=
  forall s r s', c s = (r, s') -> f s' = f s.

Section Preservation.
Context {S X : Type} (f : S -> X).

Lemma preserves_ret {A} (a : A) : preserves f (ret a).
Proof. intros s r s' E. injection E as _ <-. reflexivity. Qed.

Lemma preserves_raise {A} (e : exn) : preserves f (@raise S A e).
Proof. intros s r s' E. injection E as _ <-. reflexivity. Qed.

Lemma preserves_lift_result {A} (x : result A) : preserves f (lift_result x).
Proof. intros s r s' E. injection E as _ <-. reflexivity. Qed.

Lemma preserves_bind {A B} (c : M S A) (k : A -> M S B) :
  preserves f c -> (forall a, preserves f (k a)) -> preserves f (bind c k).
Proof.
  intros Hc Hk s r s' E. unfold bind in E.
  destruct (c s) as [[a | e] s1] eqn:Ec.
  - rewrite (Hk a _ _ _ E). exact (Hc _ _ _ Ec).
  - injection E as _ <-. exact (Hc _ _ _ Ec).
Qed.

Lemma preserves_try_except {A} (c : M S A) (h : exn -> M S A) :
  preserves f c -> (forall e, preserves f (h e)) -> preserves f (try_except c h).
Proof.
  intros Hc Hh s r s' E. unfold try_except in E.
  destruct (c s) as [[a | e] s1] eqn:Ec.
  - injection E as _ <-. exact (Hc _ _ _ Ec).
  - rewrite (Hh e _ _ _ E). exact (Hc _ _ _ Ec).
Qed.

End Preservation.

Lemma lift_db_keeps_self {A} (c : DB A) : preserves self_of (lift_db c).
Proof.
  intros w r w' E. unfold lift_db in E.
  destruct (c (db_of w)) as [r0 db']. injection E as _ <-. reflexivity.
Qed.

Lemma lift_db_keeps_db {A} (c : DB A) :
  preserves (fun db : Database => db) c -> preserves db_of (lift_db c).
Proof.
  intros Hc w r w' E. unfold lift_db in E.
  destruct (c (db_of w)) as [r0 db'] eqn:Ec. injection E as _ <-.
  exact (Hc _ _ _ Ec).
Qed.

Lemma get_self_keeps {X} (f : World -> X) : preserves f get_self.
Proof. intros w r w' E. injection E as _ <-. reflexivity. Qed.

Lemma update_self_keeps_db (g : t -> t) : preserves db_of (update_self g).
Proof. intros w r w' E. injection E as _ <-. reflexivity. Qed.

Lemma call_keeps_self {Agent A} (agent : option Agent) (method : string)
    (g : Agent -> DB A) :
  preserves self_of (call agent method g).
Proof.
  destruct agent; [apply lift_db_keeps_self | apply preserves_raise].
Qed.

Lemma item_keeps {X} (f : World -> X) (d : dict) (key : string) :
  preserves f (item d key).
Proof. apply preserves_lift_result. Qed.

Lemma item_opt_keeps {X} (f : World -> X) (d : option dict) (key : string) :
  preserves f (item_opt d key).
Proof. destruct d; [apply item_keeps | apply preserves_raise]. Qed.

Lemma get_opt_keeps {X} (f : World -> X) (d : option dict) (key : string) :
  preserves f (get_opt d key).
Proof. destruct d; [apply preserves_ret | apply preserves_raise]. Qed.

Ltac keeps_self :=
  repeat first
    [ apply preserves_ret
    | apply preserves_raise
    | apply preserves_lift_result
    | apply get_self_keeps
    | apply lift_db_keeps_self
    | apply call_keeps_self
    | apply item_keeps
    | apply item_opt_keeps
    | apply get_opt_keeps
    | apply preserves_bind; [| intros ?]
    | match goal with
      | |- preserves _ (if ?b then _ else _) => destruct b
      | |- preserves _ (match ?x with _ => _ end) => destruct x
      | |- preserves _ (let '(_, _) := ?x in _) => destruct x
      end ].

(** No handler changes the session: the identity, the state and the
    handler references are as the dispatcher found them. *)
Lemma dispatch_keeps_self (env : environment) (intent user_input : string) :
  preserves self_of (dispatch env intent user_input).
Proof.
  unfold dispatch, _handle_mood_tracking, _handle_cgm_monitoring,
    _handle_food_logging, _handle_meal_planning, _handle_insights_request,
    _handle_general_question.
  keeps_self.
Qed.

(** The commands [_route_authenticated_request] answers itself. *)
Definition is_system_command (user_input : string) : bool :=
  PyStr.mem (PyStr.lower user_input) ["help"; "features"; "what can you do"; "options"]
  || PyStr.mem (PyStr.lower user_input) ["logout"; "sign out"; "exit"].

(** The reply of the [except] clause. *)
Definition sorry_reply (e : exn) : dict :=
  [ ("response",
     VStr ("❌ Sorry, I encountered an error: " ++ exn_str e
           ++ String "010" (String "010" "Please try again or ask for help.")));
    ("agent_used", VStr "SystemError");
    ("system_state", VStr "authenticated") ].

Lemma route_returns (env : environment) (user_input : string) (w : World) :
  exists reply w', _route_authenticated_request env user_input w = (Ok reply, w').
Proof.
  unfold _route_authenticated_request.
  destruct (PyStr.mem (PyStr.lower user_input) _).
  { do 2 eexists. reflexivity. }
  destruct (PyStr.mem (PyStr.lower user_input) _).
  { do 2 eexists. unfold _handle_logout, bind, get_self, update_self, ret.
    reflexivity. }
  unfold try_except.
  destruct (dispatch env (_detect_primary_intent user_input) user_input w)
    as [[reply | e] w1].
  - eauto.
  - do 2 eexists. reflexivity.
Qed.

(** What the [try] of [_route_authenticated_request] achieves: in the
    Authenticated state every turn ends in a reply, nothing propagates out
    of [process_user_input].  When the handler of the detected intent
    raises, the reply is the generic "Sorry, I encountered an error"
    dictionary, the session is as it was and the store is as the handler
    left it. *)
Theorem authenticated_turn_never_raises (env : environment) (input : string)
    (w : World) :
  system_state (self_of w) = Authenticated ->
  (exists reply w', process_user_input env input w = (Ok reply, w'))
  /\ (forall e w1,
        PyStr.strip input <> EmptyString ->
        is_system_command (PyStr.strip input) = false ->
        dispatch env (_detect_primary_intent (PyStr.strip input))
                 (PyStr.strip input) w = (Raise e, w1) ->
        process_user_input env input w = (Ok (sorry_reply e), w1)
        /\ self_of w1 = self_of w).
Proof.
  intros Hw. split.
  - unfold process_user_input, bind, get_self.
    destruct (String.eqb (PyStr.strip input) EmptyString).
    + do 2 eexists. reflexivity.
    + rewrite Hw. apply route_returns.
  - intros e w1 Hne Hcmd Hd.
    pose proof (@dispatch_keeps_self env _ _ _ _ _ Hd) as Hself.
    split; [| exact Hself].
    unfold process_user_input, bind, get_self.
    destruct (String.eqb_spec (PyStr.strip input) EmptyString) as [E | _];
      [contradiction |].
    rewrite Hw. unfold _route_authenticated_request.
    unfold is_system_command in Hcmd. apply orb_false_iff in Hcmd.
    destruct Hcmd as [-> ->].
    unfold try_except. rewrite Hd.
    unfold error_reply, bind, get_self, ret, sorry_reply.
    rewrite Hself, Hw. reflexivity.
Qed.

Lemma authenticated_turn_never_raises_witness :
  system_state (self_of (mk_world Sample.logged_in Sample.store)) = Authenticated
  /\ dispatch Sample.env (_detect_primary_intent (PyStr.strip "show my mood trends"))
       (PyStr.strip "show my mood trends") (mk_world Sample.logged_in Sample.store)
     = (Raise (KeyError "min_mood"),
        mk_world Sample.logged_in
          (mk_db (users_table Sample.store) [] [] [] [] []
             [mk_interaction_row "1234" "MoodTrackerAgent" "User" "trend_analysis"
                "Analyzed 2 mood entries over 30 days"]))
  /\ process_user_input Sample.env "show my mood trends"
       (mk_world Sample.logged_in Sample.store)
     = (Ok (sorry_reply (KeyError "min_mood")),
        mk_world Sample.logged_in
          (mk_db (users_table Sample.store) [] [] [] [] []
             [mk_interaction_row "1234" "MoodTrackerAgent" "User" "trend_analysis"
                "Analyzed 2 mood entries over 30 days"])).
Proof.
  assert (Hd : dispatch Sample.env
                 (_detect_primary_intent (PyStr.strip "show my mood trends"))
                 (PyStr.strip "show my mood trends")
                 (mk_world Sample.logged_in Sample.store)
               = (Raise (KeyError "min_mood"),
                  mk_world Sample.logged_in
                    (mk_db (users_table Sample.store) [] [] [] [] []
                       [mk_interaction_row "1234" "MoodTrackerAgent" "User"
                          "trend_analysis" "Analyzed 2 mood entries over 30 days"])))
    by (vm_compute; reflexivity).
  split; [reflexivity |]. split; [exact Hd |].
  refine (proj1 (proj2 (@authenticated_turn_never_raises Sample.env
                          "show my mood trends"
                          (mk_world Sample.logged_in Sample.store) eq_refl)
                   _ _ _ _ Hd)).
  - discriminate.
  - reflexivity.
Defined.

(** C9.  No exception from processing a turn is to reach the delivery
    layer, in either session state.  The Authenticated path catches what
    its handlers raise (above); the Unauthenticated path has no such
    clause: with a store that has no [users] table, which
    [init_agent_tables] never creates, the input "1234" makes
    [process_user_input] raise instead of returning a reply. *)
Theorem unauthenticated_turn_raises :
  system_state (self_of (mk_world init Sample.store_without_users)) = Unauthenticated
  /\ process_user_input Sample.env "1234" (mk_world init Sample.store_without_users)
     = (Raise (OperationalError "no such table: users"),
        mk_world init Sample.store_without_users).
Proof. split; vm_compute; reflexivity. Qed.


(** *** Sessions without a login *)

Lemma validate_user_id_reads (uid : option string) :
  preserves (fun db : Database => db) (validate_user_id uid).
Proof.
  intros db r db' E. unfold validate_user_id in E.
  destruct (users_table db);
    [destruct uid; [destruct (find _ _); [destruct (load_user _) |] |] |];
    injection E as _ <-; reflexivity.
Qed.

Lemma get_user_by_name_reads (like : string -> string -> bool) (who : string) :
  preserves (fun db : Database => db) (get_user_by_name like who).
Proof.
  intros db r db' E. unfold get_user_by_name in E.
  destruct (users_table db); injection E as _ <-; reflexivity.
Qed.

Ltac keeps_db :=
  repeat first
    [ apply preserves_ret
    | apply preserves_raise
    | apply preserves_lift_result
    | apply get_self_keeps
    | apply update_self_keeps_db
    | apply validate_user_id_reads
    | apply get_user_by_name_reads
    | apply lift_db_keeps_db
    | apply preserves_bind; [| intros ?]
    | match goal with
      | |- preserves _ (if ?b then _ else _) => destruct b
      | |- preserves _ (match ?x with _ => _ end) => destruct x
      | |- preserves _ (let '(_, _) := ?x in _) => destruct x
      end ].

(** Resolving authentication only reads the store. *)
Lemma handle_authentication_reads (env : environment) (user_input : string) :
  preserves db_of (_handle_authentication env user_input).
Proof.
  unfold _handle_authentication, authenticate_by_id, search_by_name, help_prompt,
    _initialize_authenticated_agents, GreetingAgent.validate_user_id,
    GreetingAgent.search_users_by_name.
  keeps_db.
Qed.

(** The "please log in" result of a handler. *)
Definition please_log_in (message : string) : dict :=
  [ ("status", VStr "error"); ("message", VStr message) ].

(** The session [_handle_logout] leaves behind. *)
Definition logged_out (s : t) : t :=
  mk_system None None (current_user_location s) (greeting_agent s)
            (interrupt_agent s) None None None None Unauthenticated.

Lemma logout_command_is_no_help (text : string) :
  PyStr.mem text ["logout"; "sign out"; "exit"] = true ->
  PyStr.mem text ["help"; "features"; "what can you do"; "options"] = false
  /\ text <> EmptyString.
Proof.
  unfold PyStr.mem. cbn [existsb]. rewrite !orb_true_iff.
  intros [H | [H | [H | H]]]; try discriminate;
    apply String.eqb_eq in H; subst text; split; (reflexivity || discriminate).
Qed.

Lemma lower_empty (s : string) : PyStr.lower s = EmptyString -> s = EmptyString.
Proof. destruct s; [reflexivity | discriminate]. Qed.

End TurnFacts.


(** ** Glucose agent: validation, alerts and what is stored *)

Module ReadingFacts.
Import DatabaseManager CGMAgent PyNumFacts CGMAgentFacts.

(** Linear arithmetic over readings and integer thresholds. *)
Ltac thresholds := unfold PyNum.of_int, inject_Z in *; lra.

Lemma valid_flag (reading : Q) :
  dict_get (validate_reading_range reading) "valid"
  = Some (VBool (negb (PyNum.ltb reading (PyNum.of_int 20)
                       || PyNum.gtb reading (PyNum.of_int 600)))).
Proof.
  unfold validate_reading_range.
  destruct (PyNum.ltb reading (PyNum.of_int 20)); [reflexivity |].
  destruct (PyNum.gtb reading (PyNum.of_int 600)); [reflexivity |].
  destruct (PyNum.ltb reading (PyNum.of_int 80) || PyNum.gtb reading (PyNum.of_int 300));
    reflexivity.
Qed.

Lemma in_meter_range (reading : Q) :
  PyNum.ltb reading (PyNum.of_int 20) || PyNum.gtb reading (PyNum.of_int 600) = false
  <-> (inject_Z 20 <= reading)%Q /\ (reading <= inject_Z 600)%Q.
Proof.
  rewrite orb_false_iff. unfold PyNum.of_int. now rewrite ltb_ge, gtb_le.
Qed.

(** X1.  [validate_reading_range] calls a reading valid exactly when it lies
    in 20..600, bounds included, and [process_glucose_reading] draws the
    same line: for a logged-in user whose store has a users table that
    loads, a valid reading is answered with status "success" and an invalid
    one with status "error". *)
Theorem validation_agrees_with_processing
    (float_str : Q -> string)
    (get_cgm_trends : option string -> Z -> Database -> cgm_trends)
    (self : t) (reading : Q) (db : Database) (rows : list user_data) :
  PyStr.truthy (authenticated_user_id self) = true ->
  users db = Some rows ->
  (dict_get (validate_reading_range reading) "valid" = Some (VBool true)
   <-> (inject_Z 20 <= reading)%Q /\ (reading <= inject_Z 600)%Q)
  /\ (dict_get (validate_reading_range reading) "valid" = Some (VBool false)
      <-> (reading < inject_Z 20)%Q \/ (inject_Z 600 < reading)%Q)
  /\ forall valid,
       dict_get (validate_reading_range reading) "valid" = Some (VBool valid) ->
       exists result db',
         process_glucose_reading float_str get_cgm_trends self reading db
         = (Ok result, db')
         /\ dict_get result "status"
            = Some (VStr (if valid then "success" else "error")).
Proof.
  intros Hauth Hrows. rewrite valid_flag.
  destruct (PyNum.ltb reading (PyNum.of_int 20)
            || PyNum.gtb reading (PyNum.of_int 600)) eqn:E; cbn [negb].
  - assert (Hout : (reading < inject_Z 20)%Q \/ (inject_Z 600 < reading)%Q).
    { apply orb_true_iff in E. unfold PyNum.of_int in E.
      destruct E as [E | E]; [left; now apply ltb_lt | right; now apply gtb_gt]. }
    split; [split; [discriminate | intros [H1 H2]; exfalso; destruct Hout; lra] |].
    split; [split; [now intros _ | reflexivity] |].
    intros valid Hv. injection Hv as <-.
    do 2 eexists. split.
    + now apply process_glucose_reading_refused.
    + reflexivity.
  - apply in_meter_range in E. destruct E as [Hlo Hhi].
    split; [split; [now intros _ | reflexivity] |].
    split; [split; [discriminate | intros [H | H]; exfalso; thresholds] |].
    intros valid Hv. injection Hv as <-.
    destruct (process_glucose_reading_accepted float_str get_cgm_trends
                self db Hauth Hrows Hlo Hhi)
      as [user [r [result [db' [_ [_ [Hp [Hs _]]]]]]]].
    exists result, db'. split; assumption.
Qed.

Lemma validation_agrees_with_processing_witness :
  PyStr.truthy (authenticated_user_id (create_cgm_agent (Some "1234"))) = true
  /\ users Sample.store = Some [Sample.jane; Sample.sam]
  /\ (dict_get (validate_reading_range (inject_Z 601)) "valid" = Some (VBool false)
      <-> (inject_Z 601 < inject_Z 20)%Q \/ (inject_Z 600 < inject_Z 601)%Q).
Proof.
  split; [reflexivity |]. split; [reflexivity |].
  exact (proj1 (proj2 (@validation_agrees_with_processing Sample.float_str
                         (fun _ _ _ => Sample.no_trends)
                         (create_cgm_agent (Some "1234")) (inject_Z 601)
                         Sample.store [Sample.jane; Sample.sam] eq_refl eq_refl))).
Defined.

(** X2.  The warning of [validate_reading_range] marks the valid readings
    below 80 or above 300, and this band is not the alert band: a reading
    above 250 and up to 300 carries no warning, although [determine_alert]
    grades it critical_high for every range of the table. *)
Theorem warning_band_is_not_the_alert_band (float_str : Q -> string) (reading : Q) :
  (dict_get (validate_reading_range reading) "warning" = Some (VBool true)
   <-> ((inject_Z 20 <= reading)%Q /\ (reading < inject_Z 80)%Q)
       \/ ((inject_Z 300 < reading)%Q /\ (reading <= inject_Z 600)%Q))
  /\ ((inject_Z 250 < reading)%Q -> (reading <= inject_Z 300)%Q ->
      dict_get (validate_reading_range reading) "valid" = Some (VBool true)
      /\ dict_get (validate_reading_range reading) "warning" = None
      /\ forall key r,
           ranges_get cgm_ranges key = Some r ->
           fst (fst (determine_alert float_str reading r)) = "critical_high").
Proof.
  split.
  - unfold validate_reading_range, PyNum.of_int.
    destruct (PyNum.ltb reading (inject_Z 20)) eqn:E1;
      [apply ltb_lt in E1 | apply ltb_ge in E1].
    { cbn. split; [discriminate | intros [[H _] | [H1 H2]]; exfalso; thresholds]. }
    destruct (PyNum.gtb reading (inject_Z 600)) eqn:E2;
      [apply gtb_gt in E2 | apply gtb_le in E2].
    { cbn. split; [discriminate | intros [[H1 H2] | [_ H]]; exfalso; thresholds]. }
    destruct (PyNum.ltb reading (inject_Z 80)) eqn:E3;
      [apply ltb_lt in E3 | apply ltb_ge in E3]; cbn [orb].
    { cbn. split; [intros _; left; auto | reflexivity]. }
    destruct (PyNum.gtb reading (inject_Z 300)) eqn:E4;
      [apply gtb_gt in E4 | apply gtb_le in E4]; cbn.
    + split; [intros _; right; auto | reflexivity].
    + split; [discriminate | intros [[_ H] | [H _]]; exfalso; thresholds].
  - intros Hlo Hhi.
    assert (H20 : PyNum.ltb reading (PyNum.of_int 20) = false)
      by (apply ltb_ge; thresholds).
    assert (H600 : PyNum.gtb reading (PyNum.of_int 600) = false)
      by (apply gtb_le; thresholds).
    assert (H80 : PyNum.ltb reading (PyNum.of_int 80) = false)
      by (apply ltb_ge; thresholds).
    assert (H300 : PyNum.gtb reading (PyNum.of_int 300) = false)
      by (apply gtb_le; thresholds).
    unfold validate_reading_range. rewrite H20, H600, H80, H300. cbn [orb].
    split; [reflexivity |]. split; [reflexivity |].
    intros key r Hr.
    assert (Hb : (70 <= target_min r <= target_max r)%Z /\ (target_max r <= 250)%Z).
    { cbn in Hr.
      repeat match type of Hr with
             | (if ?b then _ else _) = _ => destruct b
             end; try discriminate; injection Hr as <-; cbn; lia. }
    destruct Hb as [Hmin Hmax].
    destruct (determine_alert_bands float_str reading r Hmin Hmax)
      as [_ [_ [_ [_ Hcrit]]]].
    now apply Hcrit.
Qed.

Lemma warning_band_is_not_the_alert_band_witness :
  dict_get (validate_reading_range (inject_Z 280)) "valid" = Some (VBool true)
  /\ dict_get (validate_reading_range (inject_Z 280)) "warning" = None
  /\ forall key r,
       ranges_get cgm_ranges key = Some r ->
       fst (fst (determine_alert Sample.float_str (inject_Z 280) r)) = "critical_high".
Proof.
  apply (proj2 (@warning_band_is_not_the_alert_band Sample.float_str (inject_Z 280)));
    vm_compute; congruence.
Defined.

(** The rows an accepted reading adds to the store. *)
Definition after_reading (db : Database) (u : string) (reading : Q)
    (alert message summary : string) : Database :=
  mk_db (users_table db) (mood_tracking db)
        (cgm_readings db ++ [mk_cgm_row u reading])
        (cgm_alerts db
         ++ (if String.eqb alert "normal" then []
             else [mk_alert_row u reading alert message]))
        (food_intake db) (meal_plans db)
        (agent_interactions db
         ++ [mk_interaction_row u "CGMAgent" "Database" "glucose_logging" summary]).

(** The reply to an accepted reading. *)
Definition accepted_reply (reading : Q) (alert message : string)
    (recommendations : list string) (target_range : string) : dict :=
  [ ("status", VStr "success");
    ("reading", VFloat reading);
    ("alert_type", VStr alert);
    ("message", VStr message);
    ("recommendations", VList (map VStr recommendations));
    ("target_range", VStr target_range) ].

Lemma process_glucose_reading_run
    (float_str : Q -> string)
    (get_cgm_trends : option string -> Z -> Database -> cgm_trends)
    (self : t) (reading : Q) (db : Database) (rows : list user_data) :
  PyStr.truthy (authenticated_user_id self) = true ->
  users db = Some rows ->
  (inject_Z 20 <= reading)%Q -> (reading <= inject_Z 600)%Q ->
  exists u alert message recommendations target_range,
    authenticated_user_id self = Some u
    /\ process_glucose_reading float_str get_cgm_trends self reading db
       = (Ok (accepted_reply reading alert message recommendations target_range),
          after_reading db u reading alert message
            ("Reading: " ++ float_str reading ++ " mg/dL, Alert: " ++ alert)).
Proof.
  intros Hauth Hrows Hlo Hhi.
  destruct (truthy_some _ Hauth) as [u Hu]. exists u.
  destruct (get_user_cgm_range_ok self (authenticated_user_id self) db Hrows)
    as [user [r [Hv [Hr Hg]]]].
  exists (fst (fst (determine_alert float_str reading r))),
         (snd (fst (determine_alert float_str reading r))).
  unfold process_glucose_reading. rewrite Hauth. cbn [negb].
  apply ltb_ge in Hlo. apply gtb_le in Hhi.
  unfold PyNum.of_int. rewrite Hlo, Hhi. cbn [orb].
  unfold bind at 1. rewrite Hg.
  destruct (determine_alert float_str reading r) as [[alert message] recs].
  cbn [fst snd]. rewrite Hu.
  unfold bind, store_cgm_reading, log_agent_interaction, store_cgm_alert,
    not_null, ret, after_reading, accepted_reply.
  cbn.
  destruct (String.eqb alert "normal"); cbn;
  match goal with
  | |- context [_get_glucose_based_recommendations ?g ?s ?x ?y ?d] =>
      destruct (recommendations_ok g s x y d) as [l Hl]
  end; do 2 eexists; rewrite Hl, ?app_nil_r; (split; [reflexivity |]);
  reflexivity.
Qed.

(** X3.  An accepted reading of a logged-in user is written once: one row
    in [cgm_readings], one [glucose_logging] row in [agent_interactions],
    and one row in [cgm_alerts] exactly when the alert is not "normal",
    holding the alert type and the message of the reply.  The users table,
    whose rows are taken to load, and the mood, food and meal-plan tables
    are as they were. *)
Theorem accepted_reading_is_stored_once
    (float_str : Q -> string)
    (get_cgm_trends : option string -> Z -> Database -> cgm_trends)
    (self : t) (reading : Q) (db : Database) (rows : list user_data) :
  PyStr.truthy (authenticated_user_id self) = true ->
  users db = Some rows ->
  (inject_Z 20 <= reading)%Q -> (reading <= inject_Z 600)%Q ->
  exists u alert message result,
    authenticated_user_id self = Some u
    /\ process_glucose_reading float_str get_cgm_trends self reading db
       = (Ok result,
          after_reading db u reading alert message
            ("Reading: " ++ float_str reading ++ " mg/dL, Alert: " ++ alert))
    /\ dict_get result "alert_type" = Some (VStr alert)
    /\ dict_get result "message" = Some (VStr message).
Proof.
  intros Hauth Hrows Hlo Hhi.
  destruct (process_glucose_reading_run float_str get_cgm_trends self db
              Hauth Hrows Hlo Hhi)
    as [u [alert [message [recs [target [Hu E]]]]]].
  exists u, alert, message. eexists.
  split; [exact Hu |]. split; [exact E |]. split; reflexivity.
Qed.

Lemma accepted_reading_is_stored_once_witness :
  exists u alert message result,
    authenticated_user_id (create_cgm_agent (Some "5678")) = Some u
    /\ process_glucose_reading Sample.float_str (fun _ _ _ => Sample.no_trends)
         (create_cgm_agent (Some "5678")) (inject_Z 200) Sample.store
       = (Ok result,
          after_reading Sample.store u (inject_Z 200) alert message
            ("Reading: " ++ Sample.float_str (inject_Z 200) ++ " mg/dL, Alert: "
             ++ alert))
    /\ dict_get result "alert_type" = Some (VStr alert)
    /\ dict_get result "message" = Some (VStr message).
Proof.
  apply (@accepted_reading_is_stored_once Sample.float_str
           (fun _ _ _ => Sample.no_trends)
           (create_cgm_agent (Some "5678")) (inject_Z 200) Sample.store
           [Sample.jane; Sample.sam]);
    solve [reflexivity | vm_compute; discriminate].
Defined.

End ReadingFacts.


(** ** Mood agent: labels, what is stored, and the insights that never
       arrive *)

Module MoodFacts.
Import DatabaseManager MoodTrackerAgent.

(** The labels [extract_simple_mood_label] can return. *)
Definition simple_labels : list string :=
  [ "terrible"; "depressed"; "sad"; "tired"; "bad"; "ecstatic"; "excited";
    "great"; "happy"; "good"; "okay"; "down"; "neutral" ].

Lemma label_is_simple (mood_input : string) :
  In (extract_simple_mood_label mood_input) simple_labels.
Proof.
  unfold extract_simple_mood_label.
  repeat match goal with
         | |- context [if ?b then _ else _] => destruct b
         end; cbn; tauto.
Qed.

(** What [convert_mood_to_score] makes of such a label: the score is the
    entry of the table. *)
Lemma simple_label_score (label : string) :
  In label simple_labels ->
  exists score interpretation,
    scores_get mood_scores label = Some score
    /\ (1 <= score <= 10)%Z
    /\ convert_mood_to_score label
       = [ ("mood_label", VStr label); ("mood_score", VInt score);
           ("interpretation", VStr interpretation) ].
Proof.
  intros H. cbn in H.
  repeat (destruct H as [<- | H];
          [do 2 eexists; split; [reflexivity |]; split; [lia |];
           vm_compute; reflexivity |]).
  contradiction.
Qed.

(** X4.  The label [extract_simple_mood_label] gives any input is one of
    thirteen words, each a key of the score table; [convert_mood_to_score]
    therefore answers it with the table's score, between 1 and 10, and its
    keyword fallback is never used on the way from [log_mood]. *)
Theorem extracted_label_has_a_table_score (mood_input : string) :
  In (extract_simple_mood_label mood_input) simple_labels
  /\ exists score,
       scores_get mood_scores (extract_simple_mood_label mood_input) = Some score
       /\ (1 <= score <= 10)%Z
       /\ dict_get (convert_mood_to_score (extract_simple_mood_label mood_input))
                   "mood_score"
          = Some (VInt score).
Proof.
  split; [apply label_is_simple |].
  destruct (simple_label_score (label_is_simple mood_input))
    as [score [interpretation [Hs [Hr Hc]]]].
  exists score. split; [exact Hs |]. split; [exact Hr |].
  rewrite Hc. reflexivity.
Qed.

(** The rows a logged mood adds to the store. *)
Definition after_mood (db : Database) (u label : string) (score : Z) : Database :=
  mk_db (users_table db) (mood_tracking db ++ [mk_mood_row u label score])
        (cgm_readings db) (cgm_alerts db) (food_intake db) (meal_plans db)
        (agent_interactions db
         ++ [mk_interaction_row u "MoodTrackerAgent" "Database" "mood_logging"
               ("Mood: " ++ label ++ " (Score: " ++ PyStr.str_of_int score ++ "/10)")]).

Lemma log_mood_run
    (float_str : Q -> string)
    (get_mood_rolling_average : option string -> Z -> Database -> Q)
    (self : t) (mood_input : string) (db : Database) :
  PyStr.truthy (authenticated_user_id self) = true ->
  exists u score message rest,
    authenticated_user_id self = Some u
    /\ scores_get mood_scores (extract_simple_mood_label mood_input) = Some score
    /\ log_mood float_str get_mood_rolling_average self mood_input db
       = (Ok (("status", VStr "success") :: ("message", VStr message)
              :: ("mood_score", VInt score) :: rest),
          after_mood db u (extract_simple_mood_label mood_input) score).
Proof.
  intros Hauth.
  destruct (authenticated_user_id self) as [u |] eqn:Hu; [| discriminate].
  destruct (simple_label_score (label_is_simple mood_input))
    as [score [interpretation [Hs [_ Hc]]]].
  exists u, score. do 2 eexists.
  split; [reflexivity |]. split; [exact Hs |].
  unfold log_mood. rewrite Hu, Hauth. cbn [negb]. rewrite Hc.
  unfold bind, lift_result, store_mood, log_agent_interaction, not_null, ret,
    after_mood.
  cbn. reflexivity.
Qed.

(** X5.  For a logged-in user [log_mood] succeeds on every input and every
    store, with or without a users table: it writes one [mood_tracking] row
    holding the extracted label and its table score, one [mood_logging] row
    in [agent_interactions], nothing else, and reports that score. *)
Theorem mood_is_logged_once
    (float_str : Q -> string)
    (get_mood_rolling_average : option string -> Z -> Database -> Q)
    (self : t) (mood_input : string) (db : Database) :
  PyStr.truthy (authenticated_user_id self) = true ->
  exists u score result,
    authenticated_user_id self = Some u
    /\ scores_get mood_scores (extract_simple_mood_label mood_input) = Some score
    /\ log_mood float_str get_mood_rolling_average self mood_input db
       = (Ok result, after_mood db u (extract_simple_mood_label mood_input) score)
    /\ dict_get result "status" = Some (VStr "success")
    /\ dict_get result "mood_score" = Some (VInt score).
Proof.
  intros Hauth.
  destruct (log_mood_run float_str get_mood_rolling_average self mood_input db Hauth)
    as [u [score [message [rest [Hu [Hs E]]]]]].
  exists u, score. eexists.
  split; [exact Hu |]. split; [exact Hs |]. split; [exact E |].
  split; reflexivity.
Qed.

Lemma mood_is_logged_once_witness :
  exists u score result,
    authenticated_user_id (create_mood_tracker_agent (Some "1234")) = Some u
    /\ scores_get mood_scores (extract_simple_mood_label "so happy today")
       = Some score
    /\ log_mood Sample.float_str (fun _ _ _ => inject_Z 0)
         (create_mood_tracker_agent (Some "1234")) "so happy today"
         Sample.store_without_users
       = (Ok result,
          after_mood Sample.store_without_users u
            (extract_simple_mood_label "so happy today") score)
    /\ dict_get result "status" = Some (VStr "success")
    /\ dict_get result "mood_score" = Some (VInt score).
Proof.
  apply (@mood_is_logged_once Sample.float_str (fun _ _ _ => inject_Z 0)
           (create_mood_tracker_agent (Some "1234")) "so happy today"
           Sample.store_without_users).
  reflexivity.
Defined.

(** The store after a trend analysis over [days] days has been logged. *)
Definition after_trend_analysis (db : Database) (u : string) (entries days : Z)
  : Database :=
  mk_db (users_table db) (mood_tracking db) (cgm_readings db) (cgm_alerts db)
        (food_intake db) (meal_plans db)
        (agent_interactions db
         ++ [mk_interaction_row u "MoodTrackerAgent" "User" "trend_analysis"
               ("Analyzed " ++ PyStr.str_of_int entries ++ " mood entries over "
                ++ PyStr.str_of_int days ++ " days")]).

Section Insights.
Variable get_recent_mood_data : option string -> Z -> Database -> mood_data.

(** X6.  [get_mood_insights] never delivers insights.  With no mood entry
    in the past 30 days it answers "Not enough mood data" and writes
    nothing; with entries it logs the trend analysis and then raises
    [KeyError] on ['max_mood'], a key [get_mood_trends] does not return.
    No result it returns has an "insights" or an "overall_assessment"
    entry. *)
Theorem mood_insights_never_arrive (self : t) (db : Database) :
  (forall result db',
     get_mood_insights get_recent_mood_data self db = (Ok result, db') ->
     dict_get result "insights" = None
     /\ dict_get result "overall_assessment" = None
     /\ db' = db)
  /\ (PyStr.truthy (authenticated_user_id self) = true ->
      let entries :=
        entries_count (get_recent_mood_data (authenticated_user_id self) 30 db) in
      (entries = 0%Z ->
       get_mood_insights get_recent_mood_data self db
       = (Ok [ ("status", VStr "success");
               ("message",
                VStr "Not enough mood data for insights. Keep logging your mood daily!") ],
          db))
      /\ (entries <> 0%Z ->
          exists u,
            authenticated_user_id self = Some u
            /\ get_mood_insights get_recent_mood_data self db
               = (Raise (KeyError "max_mood"),
                  after_trend_analysis db u entries 30))).
Proof.
  assert (Hempty :
    PyStr.truthy (authenticated_user_id self) = true ->
    entries_count (get_recent_mood_data (authenticated_user_id self) 30 db) = 0%Z ->
    get_mood_insights get_recent_mood_data self db
    = (Ok [ ("status", VStr "success");
            ("message",
             VStr "Not enough mood data for insights. Keep logging your mood daily!") ],
       db)).
  { intros Hauth H0. unfold get_mood_insights, get_mood_trends.
    rewrite Hauth. cbn [negb]. unfold bind at 1. rewrite H0. reflexivity. }
  assert (Hraise :
    PyStr.truthy (authenticated_user_id self) = true ->
    entries_count (get_recent_mood_data (authenticated_user_id self) 30 db) <> 0%Z ->
    exists u,
      authenticated_user_id self = Some u
      /\ get_mood_insights get_recent_mood_data self db
         = (Raise (KeyError "max_mood"),
            after_trend_analysis db u
              (entries_count (get_recent_mood_data (authenticated_user_id self) 30 db))
              30)).
  { intros Hauth Hn.
    destruct (authenticated_user_id self) as [u |] eqn:Hu; [| discriminate].
    exists u. split; [reflexivity |].
    unfold get_mood_insights, get_mood_trends. rewrite Hu, Hauth. cbn [negb].
    apply Z.eqb_neq in Hn. unfold bind at 1. rewrite Hn.
    unfold bind, lift_result, log_agent_interaction, not_null, ret,
      after_trend_analysis.
    cbn. rewrite Hn.
    repeat match goal with
           | |- context [if ?b then _ else _] => destruct b
           end; reflexivity. }
  split.
  - intros result db' H.
    destruct (PyStr.truthy (authenticated_user_id self)) eqn:Hauth.
    + destruct (Z.eq_dec
                  (entries_count
                     (get_recent_mood_data (authenticated_user_id self) 30 db)) 0)
        as [H0 | Hn].
      * rewrite (Hempty eq_refl H0) in H. injection H as <- <-. auto.
      * destruct (Hraise eq_refl Hn) as [u [_ E]]. rewrite E in H. discriminate.
    + unfold get_mood_insights in H. rewrite Hauth in H.
      injection H as <- <-. auto.
  - intros Hauth. split; [now apply Hempty | now apply Hraise].
Qed.

End Insights.

Lemma mood_insights_never_arrive_witness :
  exists u,
    authenticated_user_id (create_mood_tracker_agent (Some "1234")) = Some u
    /\ get_mood_insights (fun _ _ _ => Sample.two_moods)
         (create_mood_tracker_agent (Some "1234")) Sample.store
       = (Raise (KeyError "max_mood"),
          after_trend_analysis Sample.store u 2 30).
Proof.
  refine (proj2 (proj2 (@mood_insights_never_arrive (fun _ _ _ => Sample.two_moods)
                          (create_mood_tracker_agent (Some "1234")) Sample.store)
                   eq_refl) _).
  discriminate.
Defined.

End MoodFacts.


(** ** Trend displays *)

Module DisplayFacts.
Import DatabaseManager Insights.

Section Display.
Variable value_str : value -> string.

(** With entries in the window [get_mood_trends] returns a result the
    formatter cannot read. *)
Lemma mood_trends_display_fails_on_entries_run
    (get_recent_mood_data : option string -> Z -> Database -> mood_data)
    (self : MoodTrackerAgent.t) (days : Z) (db : Database) :
  PyStr.truthy (MoodTrackerAgent.authenticated_user_id self) = true ->
  entries_count
    (get_recent_mood_data (MoodTrackerAgent.authenticated_user_id self) days db)
  <> 0%Z ->
  exists trends,
    MoodTrackerAgent.get_mood_trends get_recent_mood_data self days db
    = (Ok trends,
       match MoodTrackerAgent.authenticated_user_id self with
       | Some u =>
           mk_db (users_table db) (mood_tracking db) (cgm_readings db) (cgm_alerts db)
             (food_intake db) (meal_plans db)
             (agent_interactions db
              ++ [mk_interaction_row u "MoodTrackerAgent" "User" "trend_analysis"
                    ("Analyzed "
                     ++ PyStr.str_of_int
                          (entries_count
                             (get_recent_mood_data
                                (MoodTrackerAgent.authenticated_user_id self) days db))
                     ++ " mood entries over " ++ PyStr.str_of_int days ++ " days")])
       | None => db
       end)
    /\ _format_mood_trends value_str trends = Raise (KeyError "min_mood").
Proof.
  intros Hauth Hn. unfold MoodTrackerAgent.get_mood_trends. rewrite Hauth.
  cbn [negb].
  destruct (MoodTrackerAgent.authenticated_user_id self) as [u |]; [| discriminate].
  apply Z.eqb_neq in Hn. rewrite Hn.
  unfold bind, log_agent_interaction, not_null, ret. cbn.
  eexists. split; [reflexivity |].
  unfold _format_mood_trends. cbn. rewrite Hn. reflexivity.
Qed.

(** X7.  The mood trends display cannot show trends.  Whatever
    [get_mood_trends] returns, [_format_mood_trends] either answers "No
    mood entries found" (an empty window) or raises [KeyError]: on
    ['min_mood'] when there are entries, since [get_mood_trends] returns no
    such key, and on ['entries_count'] for the "please log in" result. *)
Theorem mood_trends_display_fails_on_entries
    (get_recent_mood_data : option string -> Z -> Database -> mood_data)
    (self : MoodTrackerAgent.t) (days : Z) (db db' : Database) (trends : dict) :
  MoodTrackerAgent.get_mood_trends get_recent_mood_data self days db
  = (Ok trends, db') ->
  let entries :=
    entries_count
      (get_recent_mood_data (MoodTrackerAgent.authenticated_user_id self) days db) in
  (PyStr.truthy (MoodTrackerAgent.authenticated_user_id self) = true ->
   entries = 0%Z ->
   _format_mood_trends value_str trends
   = Ok "No mood entries found. Start logging your mood daily to see trends!")
  /\ (PyStr.truthy (MoodTrackerAgent.authenticated_user_id self) = true ->
      entries <> 0%Z ->
      _format_mood_trends value_str trends = Raise (KeyError "min_mood"))
  /\ (PyStr.truthy (MoodTrackerAgent.authenticated_user_id self) = false ->
      _format_mood_trends value_str trends = Raise (KeyError "entries_count"))
  /\ (forall text,
        _format_mood_trends value_str trends = Ok text ->
        text = "No mood entries found. Start logging your mood daily to see trends!").
Proof.
  intros H entries. subst entries.
  unfold MoodTrackerAgent.get_mood_trends in H.
  destruct (PyStr.truthy (MoodTrackerAgent.authenticated_user_id self)) eqn:Hauth;
    cbn [negb] in H.
  - destruct (MoodTrackerAgent.authenticated_user_id self) as [u |] eqn:Hu;
      [| discriminate].
    destruct (entries_count (get_recent_mood_data (Some u) days db) =? 0)%Z eqn:E.
    + injection H as <- <-. apply Z.eqb_eq in E.
      split; [reflexivity |]. split; [intros _ Hn; contradiction |].
      split; [discriminate |]. intros text Ht. now injection Ht as <-.
    + unfold bind, log_agent_interaction, not_null, ret in H. cbn in H.
      injection H as <- <-. apply Z.eqb_neq in E.
      assert (F : _format_mood_trends value_str
                    [ ("status", VStr "success");
                      ("entries_count",
                       VInt (entries_count (get_recent_mood_data (Some u) days db)));
                      ("average_mood",
                       VFloat (average_mood (get_recent_mood_data (Some u) days db)));
                      ("trend",
                       VStr (mood_trend (get_recent_mood_data (Some u) days db)));
                      ("recent_entries",
                       recent_entries (get_recent_mood_data (Some u) days db)) ]
                  = Raise (KeyError "min_mood")).
      { unfold _format_mood_trends. cbn.
        apply Z.eqb_neq in E. rewrite E. reflexivity. }
      split; [intros _ H0; contradiction |]. split; [intros _ _; exact F |].
      split; [discriminate |]. intros text Ht. rewrite F in Ht. discriminate.
  - injection H as <- <-.
    split; [discriminate |]. split; [discriminate |].
    split; [reflexivity |]. intros text Ht. discriminate.
Qed.

(** X8.  The glucose trends display cannot show trends either.  Whatever
    [get_glucose_trends] returns, [_format_glucose_trends] answers "No
    glucose readings found" for an empty window, and raises [KeyError] on
    ['min_glucose'] when there are readings and on ['readings_count'] for
    the "please log in" result. *)
Theorem glucose_trends_display_fails_on_readings
    (get_cgm_trends : option string -> Z -> Database -> cgm_trends)
    (get_recent_cgm_readings : option string -> Z -> Database -> list Q)
    (round1 : Q -> Q)
    (self : CGMAgent.t) (days : Z) (db db' : Database) (trends : dict) :
  CGMAgent.get_glucose_trends get_cgm_trends get_recent_cgm_readings round1
    self days db
  = (Ok trends, db') ->
  let readings :=
    readings_count
      (get_cgm_trends (CGMAgent.authenticated_user_id self) days db) in
  (PyStr.truthy (CGMAgent.authenticated_user_id self) = true ->
   readings = 0%Z ->
   _format_glucose_trends value_str trends
   = Ok "No glucose readings found. Start logging readings to see trends!")
  /\ (PyStr.truthy (CGMAgent.authenticated_user_id self) = true ->
      readings <> 0%Z ->
      _format_glucose_trends value_str trends = Raise (KeyError "min_glucose"))
  /\ (PyStr.truthy (CGMAgent.authenticated_user_id self) = false ->
      _format_glucose_trends value_str trends = Raise (KeyError "readings_count"))
  /\ (forall text,
        _format_glucose_trends value_str trends = Ok text ->
        text = "No glucose readings found. Start logging readings to see trends!").
Proof.
  intros H readings. subst readings.
  unfold CGMAgent.get_glucose_trends in H.
  destruct (PyStr.truthy (CGMAgent.authenticated_user_id self)) eqn:Hauth;
    cbn [negb] in H.
  - destruct (CGMAgent.authenticated_user_id self) as [u |] eqn:Hu;
      [| discriminate].
    destruct (readings_count (get_cgm_trends (Some u) days db) =? 0)%Z eqn:E.
    + injection H as <- <-. apply Z.eqb_eq in E.
      split; [reflexivity |]. split; [intros _ Hn; contradiction |].
      split; [discriminate |]. intros text Ht. now injection Ht as <-.
    + unfold bind, log_agent_interaction, not_null, ret in H. cbn in H.
      match type of H with
      | context [CGMAgent.get_user_cgm_range ?s ?i ?d] =>
          destruct (CGMAgent.get_user_cgm_range s i d) as [[r | e] db1]
      end; [| discriminate].
      injection H as <- <-. apply Z.eqb_neq in E.
      match goal with
      | |- context [_format_glucose_trends value_str ?d] =>
          assert (F : _format_glucose_trends value_str d
                      = Raise (KeyError "min_glucose"))
      end.
      { unfold _format_glucose_trends. cbn.
        apply Z.eqb_neq in E. rewrite E. reflexivity. }
      split; [intros _ H0; contradiction |]. split; [intros _ _; exact F |].
      split; [discriminate |]. intros text Ht. rewrite F in Ht. discriminate.
  - injection H as <- <-.
    split; [discriminate |]. split; [discriminate |].
    split; [reflexivity |]. intros text Ht. discriminate.
Qed.

End Display.

Lemma mood_trends_display_fails_on_entries_witness :
  Insights._format_mood_trends (fun _ => "?")
    [ ("status", VStr "success"); ("entries_count", VInt 2);
      ("average_mood", VFloat (inject_Z 7)); ("trend", VStr "stable");
      ("recent_entries", VList []) ]
  = Raise (KeyError "min_mood").
Proof.
  refine (proj1 (proj2 (@mood_trends_display_fails_on_entries (fun _ => "?")
                          (fun _ _ _ => Sample.two_moods)
                          (MoodTrackerAgent.create_mood_tracker_agent (Some "1234"))
                          30 Sample.store _ _ eq_refl))
            eq_refl _).
  discriminate.
Defined.

Lemma glucose_trends_display_fails_on_readings_witness :
  match CGMAgent.get_glucose_trends
          (fun _ _ _ => mk_cgm_trends 3 (inject_Z 120) "stable" (VList []))
          (fun _ _ _ => [inject_Z 110; inject_Z 120; inject_Z 130]) (fun q => q)
          (CGMAgent.create_cgm_agent (Some "1234")) 7 Sample.store
  with
  | (Ok trends, _) =>
      Insights._format_glucose_trends (fun _ => "?") trends
      = Raise (KeyError "min_glucose")
  | (Raise _, _) => False
  end.
Proof.
  destruct (CGMAgent.get_glucose_trends
              (fun _ _ _ => mk_cgm_trends 3 (inject_Z 120) "stable" (VList []))
              (fun _ _ _ => [inject_Z 110; inject_Z 120; inject_Z 130]) (fun q => q)
              (CGMAgent.create_cgm_agent (Some "1234")) 7 Sample.store)
    as [[trends | e] db'] eqn:H.
  - refine (proj1 (proj2 (@glucose_trends_display_fails_on_readings (fun _ => "?")
                            _ _ _ _ _ _ _ _ H))
              eq_refl _).
    discriminate.
  - vm_compute in H. discriminate.
Defined.

End DisplayFacts.


(** ** Trimming and lower-casing *)

Module NormaliseFacts.
Import PyStr PyStrFacts.

Lemma lower_char_idempotent (c : ascii) : lower_char (lower_char c) = lower_char c.
Proof.
  apply Ascii.eqb_eq.
  exact (for_all_ascii_spec
           (fun c => Ascii.eqb (lower_char (lower_char c)) (lower_char c))
           eq_refl c).
Qed.

Lemma lower_idempotent (s : string) : lower (lower s) = lower s.
Proof.
  induction s as [|c s IH]; cbn; [reflexivity |].
  now rewrite lower_char_idempotent, IH.
Qed.

Lemma lstrip_lower (s : string) : lstrip (lower s) = lower (lstrip s).
Proof.
  induction s as [|c s IH]; cbn; [reflexivity |].
  rewrite lower_char_space. destruct (is_space c); [exact IH | reflexivity].
Qed.

Lemma rstrip_lower (s : string) : rstrip (lower s) = lower (rstrip s).
Proof.
  induction s as [|c s IH]; cbn; [reflexivity |].
  rewrite IH, lower_char_space.
  destruct (rstrip s); cbn; [destruct (is_space c) |]; reflexivity.
Qed.

(** [s.lower().strip()] and [s.strip().lower()] agree. *)
Lemma strip_lower (s : string) : strip (lower s) = lower (strip s).
Proof. unfold strip. now rewrite lstrip_lower, rstrip_lower. Qed.

Lemma rstrip_idempotent (s : string) : rstrip (rstrip s) = rstrip s.
Proof.
  induction s as [|c s IH]; cbn; [reflexivity |].
  destruct (rstrip s) as [|d r] eqn:E.
  - destruct (is_space c) eqn:Ec; cbn; [reflexivity | now rewrite Ec].
  - change (rstrip (String c (String d r)))
      with (match rstrip (String d r) with
            | EmptyString => if is_space c then EmptyString else String c EmptyString
            | String a b => String c (String a b)
            end).
    now rewrite IH.
Qed.

(** A trimmed text is empty or starts with a non-blank. *)
Lemma lstrip_head (s : string) :
  lstrip s = EmptyString
  \/ exists c r, lstrip s = String c r /\ is_space c = false.
Proof.
  induction s as [|c s IH]; cbn; [now left |].
  destruct (is_space c) eqn:Ec; [exact IH | right; eauto].
Qed.

Lemma rstrip_head (c : ascii) (r : string) :
  is_space c = false -> exists r', rstrip (String c r) = String c r'.
Proof.
  intros Hc. cbn. destruct (rstrip r); [rewrite Hc |]; eauto.
Qed.

Lemma lstrip_strip (s : string) : lstrip (strip s) = strip s.
Proof.
  unfold strip. destruct (lstrip_head s) as [-> | [c [r [-> Hc]]]]; [reflexivity |].
  destruct (@rstrip_head c r Hc) as [r' ->]. cbn. now rewrite Hc.
Qed.

Lemma strip_idempotent (s : string) : strip (strip s) = strip s.
Proof.
  unfold strip at 1. rewrite lstrip_strip. unfold strip. apply rstrip_idempotent.
Qed.

End NormaliseFacts.


(** ** Sessions: logging in, staying consistent, logging out *)

Module SessionFacts.
Import DatabaseManager HealthAgentSystem TurnFacts NormaliseFacts.

(** The session [_handle_authentication] leaves after the store confirmed
    [uid] as the id of user [u]. *)
Definition logged_in_as (uid : string) (u : user_data) : t :=
  mk_system (Some uid) (Some (name u)) (Some (city u))
    (GreetingAgent.mk_agent (Some u))
    (InterruptAgent.mk_agent (Some uid) (Some (name u)))
    (Some (CGMAgent.create_cgm_agent (Some uid)))
    (Some (MoodTrackerAgent.create_mood_tracker_agent (Some uid)))
    (Some (FoodIntakeAgent.create_food_intake_agent (Some uid)))
    (Some (MealPlannerAgent.create_meal_planner_agent (Some uid)))
    Authenticated.

Definition welcome_reply (u : user_data) : dict :=
  [ ("response", VStr (welcome_message (name u) (city u)));
    ("agent_used", VStr "GreetingAgent");
    ("system_state", VStr "authenticated");
    ("user_authenticated", VBool true) ].

Definition invalid_id_reply (st : state) : dict :=
  [ ("response",
     VStr ("Invalid user ID. Please check your ID or tell me your name so I can help you find it."
           ++ String "010" (String "010"
           ("💡 **Can't find your ID?** Tell me your name and I'll help you find it!"
            ++ String "010" "Example: 'My name is John Smith'"))));
    ("agent_used", VStr "GreetingAgent");
    ("system_state", VStr (state_str st)) ].

(** The lookup of the store behind a login. *)
Definition user_with_id (uid : string) (rows : list user_data) : option user_data :=
  find (fun r => String.eqb (user_id r) uid) rows.

Lemma id_shape_is_not_empty (text : string) :
  _looks_like_user_id text = true -> text <> EmptyString.
Proof. intros H ->. vm_compute in H. discriminate. Qed.

Lemma same_session (s : t) :
  mk_system (authenticated_user_id s) (current_user_name s)
    (current_user_location s) (greeting_agent s) (interrupt_agent s)
    (cgm_agent s) (mood_tracker_agent s) (food_intake_agent s)
    (meal_planner_agent s) (system_state s) = s.
Proof. now destruct s. Qed.

(** The ways [authenticate_by_id] ends for a trimmed, non-empty id. *)
Lemma authenticate_by_id_run (uid : string) (s : t) (db : Database) :
  PyStr.strip uid = uid -> uid <> EmptyString ->
  authenticate_by_id uid (mk_world s db)
  = match users_table db with
    | None => (Raise (OperationalError "no such table: users"), mk_world s db)
    | Some table =>
        match find (fun r => String.eqb (row_user_id r) uid) table with
        | Some row =>
            match load_user row with
            | Ok u => (Ok (welcome_reply u), mk_world (logged_in_as uid u) db)
            | Raise e => (Raise e, mk_world s db)
            end
        | None => (Ok (invalid_id_reply (system_state s)), mk_world s db)
        end
    end.
Proof.
  intros Hstrip Hne.
  assert (Hnb : String.eqb uid EmptyString = false).
  { destruct (String.eqb_spec uid EmptyString); [contradiction | reflexivity]. }
  unfold authenticate_by_id, bind, get_self, lift_db,
    GreetingAgent.validate_user_id, validate_user_id.
  cbn [self_of db_of]. unfold bind. rewrite Hstrip.
  destruct (users_table db) as [table |] eqn:Htable; [| reflexivity].
  destruct (find (fun r => String.eqb (row_user_id r) uid) table) as [row |]
    eqn:Hfind.
  - destruct (load_user row) as [u | e] eqn:Hload; [| reflexivity].
    cbn. unfold _initialize_authenticated_agents, bind, get_self, update_self,
      lift_db, validate_user_id, ret.
    cbn [self_of db_of authenticated_user_id PyStr.truthy]. rewrite Hnb.
    cbn [negb self_of db_of]. rewrite Htable, Hfind, Hload. reflexivity.
  - cbn. rewrite same_session. reflexivity.
Qed.

(** The same with every row of the table loading. *)
Lemma authenticate_by_id_loaded (uid : string) (s : t) (db : Database)
    (rows : list user_data) :
  PyStr.strip uid = uid -> uid <> EmptyString ->
  users db = Some rows ->
  authenticate_by_id uid (mk_world s db)
  = match user_with_id uid rows with
    | Some u => (Ok (welcome_reply u), mk_world (logged_in_as uid u) db)
    | None => (Ok (invalid_id_reply (system_state s)), mk_world s db)
    end.
Proof.
  intros Hstrip Hne Hrows.
  rewrite (@authenticate_by_id_run uid s db Hstrip Hne).
  destruct (StoreFacts.users_table_present _ Hrows) as [table [-> Hl]].
  pose proof (StoreFacts.find_loaded uid _ Hl) as F. unfold user_with_id.
  destruct (find (fun r => String.eqb (row_user_id r) uid) table) as [row |].
  - destruct F as [u [-> ->]]. reflexivity.
  - now rewrite F.
Qed.

(** An unauthenticated turn with an ID-shaped input is
    [authenticate_by_id] on the trimmed input. *)
Lemma id_turn (env : environment) (input : string) (w : World) :
  system_state (self_of w) = Unauthenticated ->
  _looks_like_user_id (PyStr.strip input) = true ->
  process_user_input env input w = authenticate_by_id (PyStr.strip input) w.
Proof.
  intros Hs Hid. unfold process_user_input, bind, get_self.
  destruct (String.eqb_spec (PyStr.strip input) EmptyString) as [E | _].
  { exfalso. exact (id_shape_is_not_empty Hid E). }
  rewrite Hs. unfold _handle_authentication. now rewrite Hid.
Qed.

(** X9.  Logging in by id.  In an unauthenticated session an ID-shaped input
    is looked up in the users table (whose rows load) after trimming.
    When a user has that id, the session becomes Authenticated under the
    typed id with the
    user's name and city, the four domain agents are created for that id,
    the greeting and interrupt agents remember the user, and the reply is
    the welcome text.  When no user has it, the reply is "Invalid user ID"
    and the session is as before.  Neither outcome writes to the store. *)
Theorem login_by_id (env : environment) (input : string) (s : t) (db : Database)
    (rows : list user_data) :
  system_state s = Unauthenticated ->
  _looks_like_user_id (PyStr.strip input) = true ->
  users db = Some rows ->
  (forall u,
     user_with_id (PyStr.strip input) rows = Some u ->
     process_user_input env input (mk_world s db)
     = (Ok (welcome_reply u), mk_world (logged_in_as (PyStr.strip input) u) db)
     /\ user_id u = PyStr.strip input)
  /\ (user_with_id (PyStr.strip input) rows = None ->
      process_user_input env input (mk_world s db)
      = (Ok (invalid_id_reply Unauthenticated), mk_world s db)).
Proof.
  intros Hs Hid Hrows.
  pose proof (@id_turn env input (mk_world s db) Hs Hid) as E.
  rewrite (@authenticate_by_id_loaded (PyStr.strip input) s db rows
             (strip_idempotent input) (id_shape_is_not_empty Hid) Hrows) in E.
  split.
  - intros u Hu. rewrite Hu in E. split; [exact E |].
    unfold user_with_id in Hu. apply find_some in Hu.
    now apply String.eqb_eq.
  - intros Hnone. rewrite Hnone, Hs in E. exact E.
Qed.

Lemma login_by_id_witness :
  process_user_input Sample.env " 5678 " (mk_world init Sample.store)
  = (Ok (welcome_reply Sample.sam), mk_world (logged_in_as "5678" Sample.sam) Sample.store)
  /\ process_user_input Sample.env "0000" (mk_world init Sample.store)
     = (Ok (invalid_id_reply Unauthenticated), mk_world init Sample.store).
Proof.
  split.
  - exact (proj1 (proj1 (@login_by_id Sample.env " 5678 " init Sample.store
                           [Sample.jane; Sample.sam] eq_refl eq_refl eq_refl)
                    Sample.sam eq_refl)).
  - exact (proj2 (@login_by_id Sample.env "0000" init Sample.store
                    [Sample.jane; Sample.sam] eq_refl eq_refl eq_refl)
             eq_refl).
Defined.

(** *** Inputs that are no id *)

Lemma search_by_name_keeps_self (env : environment) (user_input : string) :
  preserves self_of (search_by_name env user_input).
Proof.
  unfold search_by_name, GreetingAgent.search_users_by_name. keeps_self.
Qed.

Lemma same_world (w w' : World) :
  self_of w' = self_of w -> db_of w' = db_of w -> w' = w.
Proof. destruct w, w'; cbn; intros -> ->; reflexivity. Qed.

(** A turn whose input is no id leaves the session as it was. *)
Lemma non_id_turn_keeps_self (env : environment) (input : string) (w w' : World)
    (r : result dict) :
  system_state (self_of w) = Unauthenticated ->
  _looks_like_user_id (PyStr.strip input) = false ->
  process_user_input env input w = (r, w') ->
  self_of w' = self_of w.
Proof.
  intros Hs Hid E.
  unfold process_user_input, bind, get_self in E.
  destruct (String.eqb (PyStr.strip input) EmptyString).
  - injection E as _ <-. reflexivity.
  - rewrite Hs in E. unfold _handle_authentication in E. rewrite Hid in E.
    destruct (_looks_like_name_search (PyStr.strip input)).
    + exact (@search_by_name_keeps_self env _ _ _ _ E).
    + injection E as _ <-. reflexivity.
Qed.

(** X10.  Only an ID-shaped input can log in.  Any other input to an
    unauthenticated session, a name search or anything else, leaves the
    session and the store exactly as they were, whether the turn returns a
    reply or raises. *)
Theorem only_an_id_logs_in (env : environment) (input : string) (w w' : World)
    (r : result dict) :
  system_state (self_of w) = Unauthenticated ->
  _looks_like_user_id (PyStr.strip input) = false ->
  process_user_input env input w = (r, w') ->
  w' = w.
Proof.
  intros Hs Hid E.
  apply same_world.
  - exact (@non_id_turn_keeps_self env input w w' r Hs Hid E).
  - unfold process_user_input, bind, get_self in E.
    destruct (String.eqb (PyStr.strip input) EmptyString).
    + injection E as _ <-. reflexivity.
    + rewrite Hs in E.
      exact (@handle_authentication_reads env _ _ _ _ E).
Qed.

Lemma only_an_id_logs_in_witness :
  snd (process_user_input Sample.env "my name is sam" (mk_world init Sample.store))
  = mk_world init Sample.store.
Proof.
  destruct (process_user_input Sample.env "my name is sam"
              (mk_world init Sample.store)) as [r w'] eqn:E.
  exact (@only_an_id_logs_in Sample.env "my name is sam"
           (mk_world init Sample.store) w' r eq_refl eq_refl E).
Defined.

(** *** The session invariant *)

(** A session is Authenticated exactly when it holds a user id and the four
    domain agents, all created for that id; an Unauthenticated session
    holds neither. *)
Definition consistent (s : t) : Prop :=
  match system_state s with
  | Authenticated =>
      PyStr.truthy (authenticated_user_id s) = true
      /\ cgm_agent s = Some (CGMAgent.create_cgm_agent (authenticated_user_id s))
      /\ mood_tracker_agent s
         = Some (MoodTrackerAgent.create_mood_tracker_agent (authenticated_user_id s))
      /\ food_intake_agent s
         = Some (FoodIntakeAgent.create_food_intake_agent (authenticated_user_id s))
      /\ meal_planner_agent s
         = Some (MealPlannerAgent.create_meal_planner_agent (authenticated_user_id s))
      /\ InterruptAgent.authenticated_user_id (interrupt_agent s)
         = authenticated_user_id s
      /\ GreetingAgent.get_authenticated_user_id (greeting_agent s)
         = authenticated_user_id s
  | Unauthenticated =>
      authenticated_user_id s = None
      /\ current_user_name s = None
      /\ cgm_agent s = None
      /\ mood_tracker_agent s = None
      /\ food_intake_agent s = None
      /\ meal_planner_agent s = None
  end.

Lemma logged_in_as_consistent (uid : string) (u : user_data) :
  uid <> EmptyString -> user_id u = uid -> consistent (logged_in_as uid u).
Proof.
  intros Hne Hu. cbn.
  destruct (String.eqb_spec uid EmptyString); [contradiction |].
  rewrite Hu. repeat split.
Qed.

Lemma route_keeps_consistent (env : environment) (user_input : string)
    (w w' : World) (r : result dict) :
  consistent (self_of w) ->
  _route_authenticated_request env user_input w = (r, w') ->
  consistent (self_of w').
Proof.
  intros Hc E. unfold _route_authenticated_request in E.
  destruct (PyStr.mem (PyStr.lower user_input) _).
  { injection E as _ <-. exact Hc. }
  destruct (PyStr.mem (PyStr.lower user_input) _).
  { unfold _handle_logout, bind, get_self, update_self, ret in E.
    injection E as _ <-. cbn. repeat split. }
  assert (K : preserves self_of
                (try_except (dispatch env (_detect_primary_intent user_input) user_input)
                            error_reply)).
  { apply preserves_try_except; [apply dispatch_keeps_self |].
    intros e. unfold error_reply. keeps_self. }
  now rewrite (K _ _ _ E).
Qed.

(** The sessions a conversation can reach from a fresh system. *)
Inductive reachable (env : environment) : World -> Prop :=
| reach_init db : reachable env (mk_world init db)
| reach_turn w input r w' :
    reachable env w -> process_user_input env input w = (r, w') ->
    reachable env w'.

(** X11.  Session invariant.  After any sequence of turns from a fresh
    system, over any store and whatever the handlers do to it, the session
    is Authenticated exactly when it holds a non-empty user id, the four
    domain agents exist and were created for that id, and the greeting and
    interrupt agents remember the same id; an Unauthenticated session holds
    no user id, no user name and no domain agent. *)
Theorem reachable_sessions_are_consistent (env : environment) (w : World) :
  reachable env w -> consistent (self_of w).
Proof.
  induction 1 as [db | w input r w' _ IH E].
  - cbn. repeat split.
  - destruct (system_state (self_of w)) eqn:Hs.
    + destruct (_looks_like_user_id (PyStr.strip input)) eqn:Hid.
      * rewrite (@id_turn env input w Hs Hid) in E.
        destruct w as [s db]. cbn [self_of] in *.
        rewrite (@authenticate_by_id_run (PyStr.strip input) s db
                   (strip_idempotent input) (id_shape_is_not_empty Hid)) in E.
        destruct (users_table db) as [table |]; [| injection E as _ <-; exact IH].
        destruct (find _ table) as [row |] eqn:Hrow;
          [| injection E as _ <-; exact IH].
        destruct (load_user row) as [u | e] eqn:Hload;
          injection E as _ <-; [| exact IH].
        cbn [self_of]. apply logged_in_as_consistent.
        -- exact (id_shape_is_not_empty Hid).
        -- destruct (StoreFacts.load_user_fields _ Hload) as [-> _].
           apply find_some in Hrow. now apply String.eqb_eq.
      * now rewrite (@non_id_turn_keeps_self env input w w' r Hs Hid E).
    + unfold process_user_input, bind, get_self in E.
      destruct (String.eqb (PyStr.strip input) EmptyString).
      * injection E as _ <-. exact IH.
      * rewrite Hs in E. exact (@route_keeps_consistent env _ w w' r IH E).
Qed.

Lemma reachable_sessions_are_consistent_witness :
  reachable Sample.env (mk_world (logged_in_as "5678" Sample.sam) Sample.store)
  /\ consistent (logged_in_as "5678" Sample.sam).
Proof.
  assert (R : reachable Sample.env
                (mk_world (logged_in_as "5678" Sample.sam) Sample.store)).
  { apply (@reach_turn Sample.env (mk_world init Sample.store) " 5678 "
             (Ok (welcome_reply Sample.sam))).
    - apply reach_init.
    - vm_compute. reflexivity. }
  split; [exact R |].
  exact (@reachable_sessions_are_consistent Sample.env _ R).
Defined.

(** *** Ending a session *)

Definition is_logout (user_input : string) : bool :=
  PyStr.mem (PyStr.lower user_input) ["logout"; "sign out"; "exit"].

Lemma logout_turn (env : environment) (command : string) (w : World) :
  system_state (self_of w) = Authenticated ->
  is_logout (PyStr.strip command) = true ->
  process_user_input env command w = _handle_logout w.
Proof.
  intros Hs Hcmd. unfold is_logout in Hcmd.
  destruct (logout_command_is_no_help _ Hcmd) as [Hhelp Hne].
  unfold process_user_input, bind, get_self.
  destruct (String.eqb_spec (PyStr.strip command) EmptyString) as [E | _].
  { rewrite E in Hne. contradiction. }
  rewrite Hs. unfold _route_authenticated_request. now rewrite Hhelp, Hcmd.
Qed.

(** X12.  Only a logout command ends a session.  In an Authenticated
    session every other input, whatever intent it is given and whether its
    handler succeeds or raises, leaves the session as it was: the user id,
    the name, the state and the agents.  Typing another user's id does not
    switch users. *)
Theorem only_logout_ends_a_session (env : environment) (input : string)
    (w w' : World) (r : result dict) :
  system_state (self_of w) = Authenticated ->
  is_logout (PyStr.strip input) = false ->
  process_user_input env input w = (r, w') ->
  self_of w' = self_of w.
Proof.
  intros Hs Hcmd E. unfold process_user_input, bind, get_self in E.
  destruct (String.eqb (PyStr.strip input) EmptyString).
  { injection E as _ <-. reflexivity. }
  rewrite Hs in E. unfold _route_authenticated_request in E.
  destruct (PyStr.mem (PyStr.lower (PyStr.strip input))
              ["help"; "features"; "what can you do"; "options"]).
  { injection E as _ <-. reflexivity. }
  unfold is_logout in Hcmd. rewrite Hcmd in E.
  assert (K : preserves self_of
                (try_except (dispatch env (_detect_primary_intent (PyStr.strip input))
                               (PyStr.strip input))
                            error_reply)).
  { apply preserves_try_except; [apply dispatch_keeps_self |].
    intros e. unfold error_reply. keeps_self. }
  exact (K _ _ _ E).
Qed.

Lemma only_logout_ends_a_session_witness :
  self_of (snd (process_user_input Sample.env "5678"
                  (mk_world Sample.logged_in Sample.store)))
  = Sample.logged_in.
Proof.
  destruct (process_user_input Sample.env "5678"
              (mk_world Sample.logged_in Sample.store)) as [r w'] eqn:E.
  exact (@only_logout_ends_a_session Sample.env "5678"
           (mk_world Sample.logged_in Sample.store) w' r eq_refl eq_refl E).
Defined.

(** X13.  Logging out clears the orchestrator's user id, name, state and
    domain agents, and nothing else: after a login (from a users table
    whose rows load) followed by a logout
    command the greeting agent still holds the user and reports a user as
    authenticated, the interrupt agent still holds the user's id and name,
    and the orchestrator still holds the user's city. *)
Theorem logout_leaves_the_user_cached (env : environment) (input command : string)
    (s : t) (db : Database) (rows : list user_data) (u : user_data) :
  system_state s = Unauthenticated ->
  _looks_like_user_id (PyStr.strip input) = true ->
  users db = Some rows ->
  user_with_id (PyStr.strip input) rows = Some u ->
  is_logout (PyStr.strip command) = true ->
  exists reply1 reply2 w1 s2,
    process_user_input env input (mk_world s db) = (Ok reply1, w1)
    /\ process_user_input env command w1 = (Ok reply2, mk_world s2 db)
    /\ system_state s2 = Unauthenticated
    /\ authenticated_user_id s2 = None
    /\ current_user_name s2 = None
    /\ current_user_location s2 = Some (city u)
    /\ GreetingAgent.is_user_authenticated (greeting_agent s2) = true
    /\ GreetingAgent.get_authenticated_user_id (greeting_agent s2)
       = Some (PyStr.strip input)
    /\ InterruptAgent.is_user_authenticated (interrupt_agent s2) = true
    /\ InterruptAgent.get_authenticated_user_id (interrupt_agent s2)
       = Some (PyStr.strip input)
    /\ InterruptAgent.current_user_name (interrupt_agent s2) = Some (name u).
Proof.
  intros Hs Hid Hrows Hu Hcmd.
  pose proof (@id_turn env input (mk_world s db) Hs Hid) as E.
  rewrite (@authenticate_by_id_loaded (PyStr.strip input) s db rows
             (strip_idempotent input) (id_shape_is_not_empty Hid) Hrows) in E.
  rewrite Hu in E.
  assert (Hid_u : user_id u = PyStr.strip input).
  { unfold user_with_id in Hu. apply find_some in Hu. now apply String.eqb_eq. }
  do 4 eexists. split; [exact E |]. split.
  - rewrite logout_turn; [| reflexivity | exact Hcmd].
    unfold _handle_logout, bind, get_self, update_self, ret. cbn [self_of db_of].
    reflexivity.
  - cbn. rewrite Hid_u. repeat split.
Qed.

Lemma logout_leaves_the_user_cached_witness :
  exists reply1 reply2 w1 s2,
    process_user_input Sample.env "1234" (mk_world init Sample.store)
    = (Ok reply1, w1)
    /\ process_user_input Sample.env "Logout" w1
       = (Ok reply2, mk_world s2 Sample.store)
    /\ system_state s2 = Unauthenticated
    /\ authenticated_user_id s2 = None
    /\ current_user_name s2 = None
    /\ current_user_location s2 = Some (city Sample.jane)
    /\ GreetingAgent.is_user_authenticated (greeting_agent s2) = true
    /\ GreetingAgent.get_authenticated_user_id (greeting_agent s2)
       = Some (PyStr.strip "1234")
    /\ InterruptAgent.is_user_authenticated (interrupt_agent s2) = true
    /\ InterruptAgent.get_authenticated_user_id (interrupt_agent s2)
       = Some (PyStr.strip "1234")
    /\ InterruptAgent.current_user_name (interrupt_agent s2)
       = Some (name Sample.jane).
Proof.
  exact (@logout_leaves_the_user_cached Sample.env "1234" "Logout" init
           Sample.store [Sample.jane; Sample.sam] Sample.jane
           eq_refl eq_refl eq_refl eq_refl eq_refl).
Defined.

End SessionFacts.

(** ** Handlers without a user, sessions without a login *)

Module GatingFacts.
Import DatabaseManager HealthAgentSystem TurnFacts NormaliseFacts SessionFacts.

(** A turn keeps the session consistent. *)
Lemma turn_keeps_consistent (env : environment) (input : string) (w w' : World)
    (r : result dict) :
  consistent (self_of w) ->
  process_user_input env input w = (r, w') ->
  consistent (self_of w').
Proof.
  intros IH E.
  destruct (system_state (self_of w)) eqn:Hs.
  - destruct (_looks_like_user_id (PyStr.strip input)) eqn:Hid.
    + rewrite (@id_turn env input w Hs Hid) in E.
      destruct w as [s db]. cbn [self_of] in *.
      rewrite (@authenticate_by_id_run (PyStr.strip input) s db
                 (strip_idempotent input) (id_shape_is_not_empty Hid)) in E.
      destruct (users_table db) as [table |]; [| injection E as _ <-; exact IH].
      destruct (find _ table) as [row |] eqn:Hrow;
        [| injection E as _ <-; exact IH].
      destruct (load_user row) as [u | e] eqn:Hload;
        injection E as _ <-; [| exact IH].
      cbn [self_of]. apply logged_in_as_consistent.
      * exact (id_shape_is_not_empty Hid).
      * destruct (StoreFacts.load_user_fields _ Hload) as [-> _].
        apply find_some in Hrow. now apply String.eqb_eq.
    + now rewrite (@non_id_turn_keeps_self env input w w' r Hs Hid E).
  - unfold process_user_input, bind, get_self in E.
    destruct (String.eqb (PyStr.strip input) EmptyString).
    + injection E as _ <-. exact IH.
    + rewrite Hs in E. exact (@route_keeps_consistent env _ w w' r IH E).
Qed.

(** A turn of an Unauthenticated session only reads the store. *)
Lemma unauthenticated_turn_reads (env : environment) (input : string)
    (w w' : World) (r : result dict) :
  system_state (self_of w) = Unauthenticated ->
  process_user_input env input w = (r, w') ->
  db_of w' = db_of w.
Proof.
  intros Hs E.
  unfold process_user_input, bind, get_self in E.
  destruct (String.eqb (PyStr.strip input) EmptyString).
  - injection E as _ <-. reflexivity.
  - rewrite Hs in E. exact (@handle_authentication_reads env _ _ _ _ E).
Qed.

(** C4, as the code has it.  The guard of a domain handler tests the user
    id the handler was created with, not the session: a handler that holds
    no user id (none, which is the default of every factory, or the empty
    string) answers every input with its "please log in" error result and
    leaves the store untouched: glucose processing and trends, mood logging
    and trends, meal logging and nutrition insights, meal-plan generation.
    Logout moves the session to Unauthenticated, clears the session's user
    id and name and drops its four handlers, and writes nothing.  A logout
    command in an Authenticated session reaches [_handle_logout].  In
    every Unauthenticated session a conversation can reach, after a logout
    as well as before the first login, the session holds no user id and no
    domain handler, and no turn writes to the store; the handlers of an
    Authenticated session were created for its user id, which is not
    empty. *)
Theorem handlers_refuse_without_user_id (env : environment) (uid : option string)
    (db : Database) :
  PyStr.truthy uid = false ->
  (forall reading,
     CGMAgent.process_glucose_reading (float_str env) (get_cgm_trends env)
       (CGMAgent.create_cgm_agent uid) reading db
     = (Ok (please_log_in "Please log in first before recording glucose readings."),
        db))
  /\ (forall days,
        CGMAgent.get_glucose_trends (get_cgm_trends env)
          (get_recent_cgm_readings env) (round1 env)
          (CGMAgent.create_cgm_agent uid) days db
        = (Ok (please_log_in "Please log in first to view glucose trends."), db))
  /\ (forall mood_input,
        MoodTrackerAgent.log_mood (float_str env) (get_mood_rolling_average env)
          (MoodTrackerAgent.create_mood_tracker_agent uid) mood_input db
        = (Ok (please_log_in "Please log in first before logging your mood."), db))
  /\ (forall days,
        MoodTrackerAgent.get_mood_trends (get_recent_mood_data env)
          (MoodTrackerAgent.create_mood_tracker_agent uid) days db
        = (Ok (please_log_in "Please log in first to view mood trends."), db))
  /\ (forall meal_description,
        FoodIntakeAgent.log_meal (log_meal_authenticated env)
          (FoodIntakeAgent.create_food_intake_agent uid) meal_description db
        = (Ok (please_log_in "Please log in first before logging meals."), db))
  /\ (forall days,
        FoodIntakeAgent.get_nutrition_insights
          (get_nutrition_insights_authenticated env)
          (FoodIntakeAgent.create_food_intake_agent uid) days db
        = (Ok (please_log_in "Please log in first to view nutrition insights."), db))
  /\ (forall plan_date,
        MealPlannerAgent.generate_meal_plan (generate_meal_plan_authenticated env)
          (MealPlannerAgent.create_meal_planner_agent uid) plan_date db
        = (Ok (please_log_in "Please log in first to generate a meal plan."), db))
  /\ (forall s,
        exists reply,
          _handle_logout (mk_world s db) = (Ok reply, mk_world (logged_out s) db)
          /\ dict_get reply "system_state" = Some (VStr "unauthenticated")
          /\ dict_get reply "user_logged_out" = Some (VBool true))
  /\ (forall s,
        system_state (logged_out s) = Unauthenticated
        /\ authenticated_user_id (logged_out s) = None
        /\ current_user_name (logged_out s) = None
        /\ cgm_agent (logged_out s) = None
        /\ mood_tracker_agent (logged_out s) = None
        /\ food_intake_agent (logged_out s) = None
        /\ meal_planner_agent (logged_out s) = None
        /\ PyStr.truthy (authenticated_user_id (logged_out s)) = false)
  /\ (forall s input,
        system_state s = Authenticated ->
        PyStr.mem (PyStr.lower (PyStr.strip input)) ["logout"; "sign out"; "exit"]
        = true ->
        process_user_input env input (mk_world s db) = _handle_logout (mk_world s db))
  /\ (forall s input r w',
        system_state s = Unauthenticated ->
        process_user_input env input (mk_world s db) = (r, w') ->
        db_of w' = db)
  /\ (forall w,
        reachable env w ->
        system_state (self_of w) = Unauthenticated ->
        authenticated_user_id (self_of w) = None
        /\ cgm_agent (self_of w) = None
        /\ mood_tracker_agent (self_of w) = None
        /\ food_intake_agent (self_of w) = None
        /\ meal_planner_agent (self_of w) = None
        /\ forall input r w',
             process_user_input env input w = (r, w') -> db_of w' = db_of w)
  /\ (forall w,
        reachable env w ->
        system_state (self_of w) = Authenticated ->
        PyStr.truthy (authenticated_user_id (self_of w)) = true
        /\ cgm_agent (self_of w)
           = Some (CGMAgent.create_cgm_agent (authenticated_user_id (self_of w)))
        /\ mood_tracker_agent (self_of w)
           = Some (MoodTrackerAgent.create_mood_tracker_agent
                     (authenticated_user_id (self_of w)))
        /\ food_intake_agent (self_of w)
           = Some (FoodIntakeAgent.create_food_intake_agent
                     (authenticated_user_id (self_of w)))
        /\ meal_planner_agent (self_of w)
           = Some (MealPlannerAgent.create_meal_planner_agent
                     (authenticated_user_id (self_of w)))).
Proof.
  intros Huid.
  split. { intros reading. unfold CGMAgent.process_glucose_reading. cbn.
           rewrite Huid. reflexivity. }
  split. { intros days. unfold CGMAgent.get_glucose_trends. cbn.
           rewrite Huid. reflexivity. }
  split. { intros mood_input. unfold MoodTrackerAgent.log_mood. cbn.
           rewrite Huid. reflexivity. }
  split. { intros days. unfold MoodTrackerAgent.get_mood_trends. cbn.
           rewrite Huid. reflexivity. }
  split. { intros meal. unfold FoodIntakeAgent.log_meal. cbn.
           rewrite Huid. reflexivity. }
  split. { intros days. unfold FoodIntakeAgent.get_nutrition_insights. cbn.
           rewrite Huid. reflexivity. }
  split. { intros plan_date. unfold MealPlannerAgent.generate_meal_plan. cbn.
           rewrite Huid. reflexivity. }
  split. { intros s. eexists.
           unfold _handle_logout, bind, get_self, update_self, ret, logged_out.
           cbn [self_of db_of]. split; [reflexivity |]. split; reflexivity. }
  split. { intros s. repeat split. }
  split.
  { intros s input Hs Hcmd.
    destruct (logout_command_is_no_help _ Hcmd) as [Hhelp Hne].
    unfold process_user_input, bind, get_self. cbn [self_of].
    destruct (String.eqb_spec (PyStr.strip input) EmptyString) as [E | _].
    { rewrite E in Hne. contradiction. }
    rewrite Hs. unfold _route_authenticated_request. now rewrite Hhelp, Hcmd. }
  split.
  { intros s input r w' Hs E.
    exact (@unauthenticated_turn_reads env input (mk_world s db) w' r Hs E). }
  assert (Hc : forall w, reachable env w -> consistent (self_of w)).
  { induction 1 as [db0 | w0 input r w1 _ IH E].
    - cbn. repeat split.
    - exact (@turn_keeps_consistent env input w0 w1 r IH E). }
  split.
  - intros w Hreach Hs. specialize (Hc w Hreach).
    unfold consistent in Hc. rewrite Hs in Hc.
    destruct Hc as [Hid [_ [Hcgm [Hmood [Hfood Hplan]]]]].
    repeat (split; [assumption |]).
    intros input r w' E.
    exact (@unauthenticated_turn_reads env input w w' r Hs E).
  - intros w Hreach Hs. specialize (Hc w Hreach).
    unfold consistent in Hc. rewrite Hs in Hc.
    destruct Hc as [Hid [Hcgm [Hmood [Hfood [Hplan _]]]]].
    repeat (split; [assumption |]). assumption.
Qed.

Lemma handlers_refuse_without_user_id_witness :
  PyStr.truthy None = false
  /\ CGMAgent.process_glucose_reading (float_str Sample.env)
       (get_cgm_trends Sample.env) (CGMAgent.create_cgm_agent None)
       (inject_Z 120) Sample.store
     = (Ok (please_log_in "Please log in first before recording glucose readings."),
        Sample.store)
  /\ MoodTrackerAgent.log_mood (float_str Sample.env)
       (get_mood_rolling_average Sample.env)
       (MoodTrackerAgent.create_mood_tracker_agent None) "great" Sample.store
     = (Ok (please_log_in "Please log in first before logging your mood."),
        Sample.store).
Proof.
  pose proof (@handlers_refuse_without_user_id Sample.env None Sample.store eq_refl)
    as [Hcgm [_ [Hmood _]]].
  split; [reflexivity |].
  split; [exact (Hcgm (inject_Z 120)) | exact (Hmood "great")].
Defined.

(** The glucose handler of the session of user 1234. *)
Definition handler_of_1234 : CGMAgent.t := CGMAgent.create_cgm_agent (Some "1234").

(** C4 as the specification states it fails.  After user 1234 logged in and
    out again the session is Unauthenticated and holds no user id, yet the
    glucose handler that the login created still accepts the reading 120
    and writes it to the store: its guard looks at the id it was created
    with.  Nor does logout clear every per-user state: the greeting agent
    still reports a user as authenticated, and the interrupt agent still
    holds the id and the name. *)
Lemma handler_kept_from_login_accepts_after_logout :
  exists reply1 w1 reply2 s2 result,
    process_user_input Sample.env "1234" (mk_world init Sample.store)
    = (Ok reply1, w1)
    /\ cgm_agent (self_of w1) = Some handler_of_1234
    /\ process_user_input Sample.env "logout" w1
       = (Ok reply2, mk_world s2 Sample.store)
    /\ system_state s2 = Unauthenticated
    /\ authenticated_user_id s2 = None
    /\ CGMAgent.process_glucose_reading (float_str Sample.env)
         (get_cgm_trends Sample.env) handler_of_1234 (inject_Z 120) Sample.store
       = (Ok result,
          mk_db (users_table Sample.store) []
            [mk_cgm_row "1234" (inject_Z 120)] [] [] []
            [mk_interaction_row "1234" "CGMAgent" "Database" "glucose_logging"
               "Reading: 120.0 mg/dL, Alert: normal"])
    /\ dict_get result "status" = Some (VStr "success")
    /\ result <> please_log_in "Please log in first before recording glucose readings."
    /\ GreetingAgent.is_user_authenticated (greeting_agent s2) = true
    /\ InterruptAgent.get_authenticated_user_id (interrupt_agent s2) = Some "1234"
    /\ InterruptAgent.current_user_name (interrupt_agent s2) = Some "Jane Doe".
Proof.
  do 5 eexists.
  split; [vm_compute; reflexivity |].
  split; [reflexivity |].
  split; [vm_compute; reflexivity |].
  split; [reflexivity |].
  split; [reflexivity |].
  split; [vm_compute; reflexivity |].
  split; [reflexivity |].
  split; [discriminate |].
  repeat split.
Qed.

End GatingFacts.



(** ** The classifier's labels and normalisation *)

Module IntentFacts.
Import HealthAgentSystem NormaliseFacts.

(** The labels [_detect_primary_intent] can return. *)
Definition intents : list string :=
  [ "mood_tracking"; "cgm_monitoring"; "food_logging"; "meal_planning";
    "insights_request"; "general_question" ].

Lemma max_key_is_a_key (d : list (string * Z)) :
  forall best, In (max_key best d) (fst best :: map fst d).
Proof.
  induction d as [|[k v] d IH]; intros best; cbn [max_key map fst].
  - now left.
  - destruct (IH (if (snd best <? v)%Z then (k, v) else best)) as [H | H].
    + destruct (snd best <? v)%Z; cbn [fst] in H; rewrite <- H; cbn; auto.
    + right. now right.
Qed.

(** X14.  The classifier answers every input with one of six labels: the
    five intents that have a handler of their own in the dispatcher, or
    general_question. *)
Theorem intent_is_one_of_six (user_input : string) :
  In (_detect_primary_intent user_input) intents.
Proof.
  unfold _detect_primary_intent.
  destruct (existsb _ cgm_indicators_values); [cbn; tauto |].
  cbn [scores].
  match goal with
  | |- context [if ?b then _ else _] => destruct b
  end; [| cbn; tauto].
  match goal with
  | |- In (max_key ?b ?d) _ => pose proof (max_key_is_a_key d b) as K
  end.
  cbn [fst map] in K. unfold intents. cbn [In] in K |- *. tauto.
Qed.

(** X15.  The classifier looks at its input lower-cased and trimmed only:
    changing the case of letters or adding blanks around the input never
    changes the intent. *)
Theorem intent_ignores_case_and_blanks (user_input : string) :
  _detect_primary_intent (PyStr.lower user_input) = _detect_primary_intent user_input
  /\ _detect_primary_intent (PyStr.strip user_input)
     = _detect_primary_intent user_input
  /\ forall other,
       PyStr.lower other = PyStr.lower user_input ->
       _detect_primary_intent other = _detect_primary_intent user_input.
Proof.
  unfold _detect_primary_intent. split; [| split].
  - now rewrite lower_idempotent.
  - now rewrite <- strip_lower, strip_idempotent, strip_lower.
  - intros other H. now rewrite H.
Qed.

Lemma intent_ignores_case_and_blanks_witness :
  _detect_primary_intent "MY GLUCOSE IS HIGH"
  = _detect_primary_intent "my glucose is high".
Proof.
  exact (proj2 (proj2 (@intent_ignores_case_and_blanks "my glucose is high"))
           "MY GLUCOSE IS HIGH" eq_refl).
Defined.

End IntentFacts.


(** ** The shape of a user id *)

Module IdShapeFacts.
Import Re ReFacts PyStr PyStrFacts HealthAgentSystem ResolverFacts.

Definition newline : string := String "010" EmptyString.

(** What [$] accepts: the end of the text, or a last line break. *)
Definition at_end (tail : string) : Prop := tail = EmptyString \/ tail = newline.

(** The texts [_looks_like_user_id] accepts: four digits, or at least eight
    characters that lower-case to [a-f], digits and dashes; in both cases a
    final line break may follow. *)
Definition id_shaped (text : string) : Prop :=
  exists body tail,
    text = body ++ tail /\ at_end tail
    /\ ((String.length body = 4 /\ all_in is_digit body = true)
        \/ (8 <= String.length body /\ all_in hex_dash (lower body) = true)).

Definition eol_then_match (bol : bool) (s : string) : option match_object :=
  run Eol bol s None (fun _ _ g => Some (mk_match g)).

Lemma eol_at_end (bol : bool) (tail : string) :
  eol_then_match bol tail <> None <-> at_end tail.
Proof.
  unfold eol_then_match, at_end, newline. cbn [run].
  destruct tail as [|c [|d tail]].
  - split; [now left | discriminate].
  - destruct (Ascii.eqb_spec c "010"%char) as [-> | Hne].
    + split; [now right | discriminate].
    + split; [congruence | intros [H | H]; [discriminate | congruence]].
  - split; [congruence | intros [H | H]; discriminate].
Qed.

(** [^p{lo,hi}$] at the start of a text. *)
Lemma anchored_rep (p : ascii -> bool) (lo : nat) (hi : option nat) (text : string) :
  found (re_match (seqs [Bol; Rep p lo hi true; Eol]) text) = true
  <-> exists body tail,
        text = body ++ tail /\ at_end tail /\ all_in p body = true
        /\ lo <= String.length body /\ within hi (String.length body).
Proof.
  rewrite found_iff. unfold re_match, match_at. cbn [seqs run].
  split.
  - intros H.
    destruct (rep p lo hi true true text
                (fun bol' s' => run Eol bol' s' None (fun _ _ g => Some (mk_match g))))
      as [a |] eqn:E; [| contradiction].
    apply rep_sound in E.
    destruct E as [body [tail [bol' [-> [Hall [Hlo [Hhi Hk]]]]]]].
    exists body, tail. repeat split; auto.
    apply (eol_at_end bol'). unfold eol_then_match. congruence.
  - intros [body [tail [-> [Hend [Hall [Hlo Hhi]]]]]].
    apply rep_complete; auto.
    intros bol. now apply (eol_at_end bol).
Qed.

Lemma lower_at_end (tail : string) : at_end tail -> lower tail = tail.
Proof. intros [-> | ->]; reflexivity. Qed.

Lemma all_in_append (p : ascii -> bool) (a b : string) :
  all_in p (a ++ b) = all_in p a && all_in p b.
Proof. induction a; cbn; [reflexivity |]. now rewrite IHa, andb_assoc. Qed.

(** A text whose lower-cased form ends in [tail] ends in [tail] itself. *)
Lemma lower_body (text body tail : string) :
  lower text = body ++ tail -> at_end tail ->
  exists body', text = body' ++ tail /\ lower body' = body.
Proof.
  intros E Hend. revert text E.
  induction body as [|c body IH]; intros text E; cbn [append] in E.
  - exists EmptyString. split; [| reflexivity]. cbn [append].
    destruct Hend as [-> | ->].
    + destruct text; [reflexivity | discriminate].
    + destruct text as [|d [|e text]]; try discriminate.
      cbn in E. injection E as E.
      assert (d = "010"%char).
      { revert E. unfold lower_char.
        destruct (is_upper d) eqn:Hu; [| congruence].
        intros E. exfalso.
        pose proof (for_all_ascii_spec
                      (fun d => implb (is_upper d)
                                  (negb (Ascii.eqb (ascii_of_nat (code d + 32))
                                                   "010"%char)))
                      eq_refl d) as K.
        cbn in K. rewrite Hu, E in K. discriminate. }
      now subst.
  - destruct text as [|d text]; [discriminate |].
    cbn in E. injection E as Ed E.
    destruct (IH text E) as [body' [-> Hb]].
    exists (String d body'). split; [reflexivity |]. cbn. now rewrite Ed, Hb.
Qed.

Lemma hex_is_hex_dash (m : string) :
  all_in hex m = true -> all_in hex_dash m = true.
Proof.
  induction m as [|c m IH]; cbn; [reflexivity |].
  rewrite !andb_true_iff. intros [Hc Hm]. split; [| now apply IH].
  unfold hex_dash. now rewrite Hc.
Qed.

Lemma digits_are_hex_dash (m : string) :
  all_in is_digit m = true -> all_in hex_dash m = true.
Proof.
  induction m as [|c m IH]; cbn; [reflexivity |].
  rewrite !andb_true_iff. intros [Hc Hm]. split; [| now apply IH].
  unfold hex_dash, hex. rewrite Hc. now rewrite orb_true_r.
Qed.

Definition long_hex : regex := seqs [Bol; Rep hex_dash 8 None true; Eol].

Definition uuid : regex :=
  seqs [Bol; times hex 8; dash; times hex 4; dash; times hex 4; dash;
        times hex 4; dash; times hex 12; Eol].

(** One block of hexadecimal digits of the uuid pattern. *)
Ltac block H :=
  apply rep_sound in H;
  let m := fresh "m" in
  let rest := fresh "rest" in
  let b := fresh "b" in
  let Hall := fresh "Hall" in
  let Hlo := fresh "Hlo" in
  destruct H as [m [rest [b [-> [Hall [Hlo [_ H]]]]]]];
  apply hex_is_hex_dash in Hall; cbn beta in H.

(** One dash of the uuid pattern. *)
Ltac hyphen H :=
  match type of H with
  | match ?r with _ => _ end = _ =>
      let c := fresh "c" in
      let Hc := fresh "Hc" in
      destruct r as [| c r]; [discriminate |];
      destruct (chr "-" c) eqn:Hc; [| discriminate];
      apply Ascii.eqb_eq in Hc; subst c
  end.

(** The uuid pattern accepts nothing the long pattern before it does not
    accept already. *)
Lemma uuid_is_long_hex (text : string) :
  found (re_match uuid text) = true -> found (re_match long_hex text) = true.
Proof.
  intros H. apply found_iff in H.
  destruct (re_match uuid text) as [a |] eqn:E; [clear H | contradiction].
  unfold re_match, match_at, uuid, times, dash in E. cbn [seqs run lit] in E.
  block E. hyphen E. block E. hyphen E. block E. hyphen E. block E. hyphen E.
  block E.
  assert (Hend : at_end rest).
  { apply (eol_at_end b3). unfold eol_then_match. cbn [run]. congruence. }
  unfold long_hex. apply anchored_rep.
  exists (m ++ String "-" (m0 ++ String "-" (m1 ++ String "-" (m2 ++ String "-" m3)))),
         rest.
  split; [repeat (rewrite append_assoc; cbn [append]); reflexivity |].
  split; [exact Hend |]. split.
  - rewrite !all_in_append. cbn [all_in]. rewrite !all_in_append. cbn [all_in].
    rewrite !all_in_append. cbn [all_in]. rewrite !all_in_append. cbn [all_in].
    rewrite Hall, Hall0, Hall1, Hall2, Hall3. reflexivity.
  - split; [rewrite length_append; lia | exact I].
Qed.

Lemma looks_like_user_id_alternatives (text : string) :
  _looks_like_user_id text
  = found (re_match (seqs [Bol; times digit 4; Eol]) text)
    || found (re_match long_hex (lower text)).
Proof.
  unfold _looks_like_user_id. fold long_hex. fold uuid.
  destruct (found (re_match (seqs [Bol; times digit 4; Eol]) text)); [reflexivity |].
  cbn [orb].
  destruct (found (re_match long_hex (lower text))) eqn:E; [reflexivity |].
  cbn [orb].
  destruct (found (re_match uuid (lower text))) eqn:U; [| reflexivity].
  apply uuid_is_long_hex in U. congruence.
Qed.

(** X16.  The shape of a user id.  [_looks_like_user_id] accepts exactly
    the texts that are four decimal digits, or at least eight characters
    each of which is a digit, a dash or a letter a-f in either case; a single
    final line break is tolerated.  The uuid pattern, tried last, never
    decides: every text it accepts is accepted by the pattern before it. *)
Theorem looks_like_user_id_iff (text : string) :
  (_looks_like_user_id text = true <-> id_shaped text)
  /\ (found (re_match uuid (lower text)) = true ->
      found (re_match long_hex (lower text)) = true).
Proof.
  split; [| apply uuid_is_long_hex].
  rewrite looks_like_user_id_alternatives, orb_true_iff.
  unfold long_hex, times, digit. rewrite !anchored_rep. unfold id_shaped. split.
  - intros [[body [tail [-> [Hend [Hall [Hlo Hhi]]]]]]
           | [body [tail [E [Hend [Hall [Hlo _]]]]]]].
    + exists body, tail. split; [reflexivity |]. split; [exact Hend |].
      left. cbn in Hhi. split; [lia | exact Hall].
    + destruct (@lower_body text body tail E Hend) as [body' [-> Hb]].
      exists body', tail. split; [reflexivity |]. split; [exact Hend |].
      right. rewrite Hb. split; [| exact Hall].
      rewrite <- Hb in Hlo. now rewrite length_lower in Hlo.
  - intros [body [tail [-> [Hend [[Hlen Hall] | [Hlen Hall]]]]]].
    + left. exists body, tail. repeat split; auto; cbn; lia.
    + right. exists (lower body), tail.
      rewrite lower_append, (@lower_at_end tail Hend), length_lower.
      repeat split; auto.
Qed.

Lemma looks_like_user_id_iff_witness :
  id_shaped "Dead-Beef-42"
  /\ (found (re_match uuid "123e4567-e89b-12d3-a456-426614174000") = true ->
      found (re_match long_hex "123e4567-e89b-12d3-a456-426614174000") = true).
Proof.
  split.
  - exact (proj1 (proj1 (@looks_like_user_id_iff "Dead-Beef-42")) eq_refl).
  - exact (proj2 (@looks_like_user_id_iff "123e4567-e89b-12d3-a456-426614174000")).
Defined.

Lemma prefix_split (w s : string) :
  String.prefix w s = true -> exists suf, s = w ++ suf.
Proof.
  revert s. induction w as [|c w IH]; intros s H.
  - exists s. reflexivity.
  - destruct s as [|d s]; cbn in H; [discriminate |].
    destruct (ascii_dec c d) as [<- | _]; [| discriminate].
    destruct (IH s H) as [suf ->]. exists suf. reflexivity.
Qed.

Lemma contains_split (s w : string) :
  contains s w = true -> exists pre suf, s = pre ++ w ++ suf.
Proof.
  induction s as [|d s IH]; cbn [contains]; rewrite orb_true_iff.
  - intros [H | H]; [| discriminate].
    apply prefix_split in H. destruct H as [suf ->]. exists EmptyString, suf.
    reflexivity.
  - intros [H | H].
    + apply prefix_split in H. destruct H as [suf ->]. exists EmptyString, suf.
      reflexivity.
    + destruct (IH H) as [pre [suf ->]]. exists (String d pre), suf. reflexivity.
Qed.

Lemma has_char_append (c : ascii) (a b : string) :
  has_char c (a ++ b) = has_char c a || has_char c b.
Proof. induction a; cbn; [reflexivity |]. now rewrite IHa, orb_assoc. Qed.

(** A text that contains a phrase contains each of its characters. *)
Lemma contains_has_char (s w : string) (c : ascii) :
  contains s w = true -> has_char c w = true -> has_char c s = true.
Proof.
  intros H Hc. destruct (@contains_split s w H) as [pre [suf ->]].
  rewrite !has_char_append, Hc. now rewrite orb_true_r.
Qed.

(** X17.  The two branches of the authentication resolver exclude each
    other: an ID-shaped input contains none of the phrases of a name
    search ("my name is", "i am", "name:", "called", "i'm"), so no input
    is taken for an id although it asks for a name search. *)
Theorem an_id_is_no_name_search (text : string) :
  _looks_like_user_id text = true -> _looks_like_name_search text = false.
Proof.
  intros H. apply looks_like_user_id_iff in H.
  destruct H as [body [tail [-> [Hend Hshape]]]].
  set (p := fun c => hex_dash c || Ascii.eqb c "010"%char).
  assert (Hall : all_in p (lower (body ++ tail)) = true).
  { rewrite lower_append, (@lower_at_end tail Hend), all_in_append.
    apply andb_true_iff. split.
    - assert (Hb : all_in hex_dash (lower body) = true).
      { destruct Hshape as [[_ Hd] | [_ Hh]]; [| exact Hh].
        rewrite (@lower_digits body Hd). now apply digits_are_hex_dash. }
      clear - Hb. induction (lower body) as [|c m IH]; cbn in *; [reflexivity |].
      apply andb_true_iff in Hb. destruct Hb as [Hc Hm].
      unfold p at 1. rewrite Hc. cbn. now apply IH.
    - destruct Hend as [-> | ->]; reflexivity. }
  unfold _looks_like_name_search, any_in. cbn [existsb].
  assert (K : forall w c, has_char c w = true -> p c = false ->
                          contains (lower (body ++ tail)) w = false).
  { intros w c Hw Hp. apply not_true_is_false. intros Hc.
    pose proof (@contains_has_char _ w c Hc Hw) as Hs.
    apply (@has_char_all_in p c _ Hall) in Hs. congruence. }
  rewrite (K "my name is" "m"%char), (K "i am" "i"%char), (K "name:" "n"%char),
    (K "called" "l"%char), (K "i'm" "i"%char) by reflexivity.
  reflexivity.
Qed.

Lemma an_id_is_no_name_search_witness :
  _looks_like_name_search "DEAD-BEEF-0042" = false.
Proof. exact (@an_id_is_no_name_search "DEAD-BEEF-0042" eq_refl). Defined.

End IdShapeFacts.


(** ** What a turn writes *)

Module TurnAccounting.
Import DatabaseManager HealthAgentSystem TurnFacts NormaliseFacts SessionFacts.

Lemma mem_lower_cases (x : string) (commands : list string) :
  PyStr.mem (PyStr.lower x) commands = true -> In (PyStr.lower x) commands.
Proof.
  unfold PyStr.mem. rewrite existsb_exists. intros [y [Hy E]].
  apply String.eqb_eq in E. now subst.
Qed.

(** The classifier has no intent for the commands the router answers
    itself. *)
Lemma command_intent (user_input : string) :
  is_system_command user_input = true ->
  _detect_primary_intent user_input = "general_question".
Proof.
  intros H.
  assert (E : _detect_primary_intent user_input
              = _detect_primary_intent (PyStr.lower user_input)).
  { unfold _detect_primary_intent. now rewrite lower_idempotent. }
  rewrite E. unfold is_system_command in H. apply orb_true_iff in H.
  destruct H as [H | H]; apply mem_lower_cases in H; cbn in H;
    repeat (destruct H as [<- | H]; [vm_compute; reflexivity |]); contradiction.
Qed.

(** A turn of an Authenticated session whose input has an intent of its own
    is the dispatcher under the [try]. *)
Lemma turn_dispatches (env : environment) (input : string) (w : World) :
  system_state (self_of w) = Authenticated ->
  _detect_primary_intent (PyStr.strip input) <> "general_question" ->
  process_user_input env input w
  = try_except (dispatch env (_detect_primary_intent (PyStr.strip input))
                  (PyStr.strip input))
               error_reply w.
Proof.
  intros Hs Hi. unfold process_user_input, bind, get_self.
  destruct (String.eqb_spec (PyStr.strip input) EmptyString) as [E | _].
  { exfalso. apply Hi. rewrite E. vm_compute. reflexivity. }
  rewrite Hs. unfold _route_authenticated_request.
  destruct (is_system_command (PyStr.strip input)) eqn:Hc.
  { exfalso. apply Hi. now apply command_intent. }
  unfold is_system_command in Hc. apply orb_false_iff in Hc.
  destruct Hc as [-> ->]. reflexivity.
Qed.

(** The row the orchestrator writes before it calls an agent. *)
Definition with_request (db : Database) (u target data_type summary : string)
  : Database :=
  mk_db (users_table db) (mood_tracking db) (cgm_readings db) (cgm_alerts db)
        (food_intake db) (meal_plans db)
        (agent_interactions db
         ++ [mk_interaction_row u "MainSystem" target data_type summary]).

Lemma consistent_authenticated (s : t) :
  consistent s -> system_state s = Authenticated ->
  exists u,
    authenticated_user_id s = Some u /\ u <> EmptyString
    /\ cgm_agent s = Some (CGMAgent.create_cgm_agent (Some u))
    /\ mood_tracker_agent s
       = Some (MoodTrackerAgent.create_mood_tracker_agent (Some u)).
Proof.
  unfold consistent. intros Hc Hs. rewrite Hs in Hc.
  destruct Hc as [Ht [Hcgm [Hmood _]]].
  destruct (authenticated_user_id s) as [u |]; [| discriminate].
  exists u. repeat split; auto.
  intros ->. discriminate.
Qed.

(** X18.  A mood turn cannot fail.  In a consistent Authenticated session
    an input classified as mood_tracking is answered by the mood agent,
    whatever the store holds: the orchestrator logs the request, the agent
    stores one mood row with the label extracted from the input and its
    table score and logs it, and the reply reports that score.  The session
    is unchanged. *)
Theorem mood_turn_is_stored (env : environment) (input : string) (s : t)
    (db : Database) :
  consistent s -> system_state s = Authenticated ->
  _detect_primary_intent (PyStr.strip input) = "mood_tracking" ->
  let mood_label := _extract_mood_from_input (PyStr.strip input) in
  let label := MoodTrackerAgent.extract_simple_mood_label mood_label in
  exists u score reply,
    authenticated_user_id s = Some u
    /\ MoodTrackerAgent.scores_get MoodTrackerAgent.mood_scores label = Some score
    /\ process_user_input env input (mk_world s db)
       = (Ok reply,
          mk_world s
            (MoodFacts.after_mood
               (with_request db u "MoodTrackerAgent" "mood_logging_request"
                  ("Logging mood: " ++ mood_label))
               u label score))
    /\ dict_get reply "agent_used" = Some (VStr "MoodTrackerAgent")
    /\ dict_get reply "data_logged" = Some (VStr "mood")
    /\ dict_get reply "mood_score" = Some (VInt score).
Proof.
  intros Hc Hs Hi mood_label label.
  destruct (@consistent_authenticated s Hc Hs) as [u [Hu [Hne [_ Hagent]]]].
  rewrite turn_dispatches; [| exact Hs | rewrite Hi; discriminate].
  rewrite Hi. unfold dispatch. cbn [String.eqb Ascii.eqb Bool.eqb].
  unfold try_except, _handle_mood_tracking, bind at 1, get_self.
  cbn [self_of]. rewrite Hu, Hagent.
  unfold bind at 1, lift_db, log_agent_interaction, bind at 1, not_null, ret.
  cbn [db_of self_of].
  fold mood_label.
  set (db1 := mk_db _ _ _ _ _ _ _).
  destruct (@MoodFacts.log_mood_run (float_str env) (get_mood_rolling_average env)
              (MoodTrackerAgent.create_mood_tracker_agent (Some u)) mood_label db1)
    as [u' [score [message [rest [Hu' [Hscore E]]]]]].
  { cbn. destruct (String.eqb_spec u EmptyString); [contradiction | reflexivity]. }
  cbn in Hu'. injection Hu' as <-.
  exists u, score. eexists. split; [reflexivity |]. split; [exact Hscore |].
  unfold bind, call, lift_db. cbn [db_of self_of]. rewrite E.
  unfold item, lift_result, ret. cbn.
  split; [reflexivity |]. repeat split.
Qed.

Lemma mood_turn_is_stored_witness :
  exists u score reply,
    authenticated_user_id Sample.logged_in = Some u
    /\ MoodTrackerAgent.scores_get MoodTrackerAgent.mood_scores
         (MoodTrackerAgent.extract_simple_mood_label
            (_extract_mood_from_input (PyStr.strip "I feel wonderful")))
       = Some score
    /\ process_user_input Sample.env "I feel wonderful"
         (mk_world Sample.logged_in Sample.store_without_users)
       = (Ok reply,
          mk_world Sample.logged_in
            (MoodFacts.after_mood
               (with_request Sample.store_without_users u "MoodTrackerAgent"
                  "mood_logging_request"
                  ("Logging mood: "
                   ++ _extract_mood_from_input (PyStr.strip "I feel wonderful")))
               u
               (MoodTrackerAgent.extract_simple_mood_label
                  (_extract_mood_from_input (PyStr.strip "I feel wonderful")))
               score))
    /\ dict_get reply "agent_used" = Some (VStr "MoodTrackerAgent")
    /\ dict_get reply "data_logged" = Some (VStr "mood")
    /\ dict_get reply "mood_score" = Some (VInt score).
Proof.
  apply (@mood_turn_is_stored Sample.env "I feel wonderful" Sample.logged_in
           Sample.store_without_users).
  - cbn. repeat split.
  - reflexivity.
  - vm_compute. reflexivity.
Defined.

(** The reply of the glucose handler around the agent's message. *)
Definition glucose_reply (message : string) (alert recommendations : value) : dict :=
  [ ("response", VStr message);
    ("agent_used", VStr "CGMAgent");
    ("system_state", VStr "authenticated");
    ("data_logged", VStr "glucose");
    ("alert_type", alert);
    ("recommendations", recommendations) ].

Lemma glucose_turn (env : environment) (input : string) (s : t) (db : Database)
    (u : string) (reading : PyNum.float_value) :
  system_state s = Authenticated ->
  authenticated_user_id s = Some u ->
  cgm_agent s = Some (CGMAgent.create_cgm_agent (Some u)) ->
  _detect_primary_intent (PyStr.strip input) = "cgm_monitoring" ->
  _extract_glucose_reading (PyStr.strip input) = Ok (Some reading) ->
  process_user_input env input (mk_world s db)
  = try_except
      (result <- lift_db (CGMAgent.process_glucose_reading_value (float_str env)
                            (get_cgm_trends env)
                            (CGMAgent.create_cgm_agent (Some u)) reading) ;;
       response <- item result "message" ;;
       ret [ ("response", response);
             ("agent_used", VStr "CGMAgent");
             ("system_state", VStr (state_str (system_state s)));
             ("data_logged", VStr "glucose");
             ("alert_type", dict_get_default result "alert_type");
             ("recommendations", dict_get_default result "recommendations") ])
      error_reply
      (mk_world s
         (with_request db u "CGMAgent" "glucose_logging_request"
            ("Logging glucose reading: " ++ PyNum.format (float_str env) reading
             ++ " mg/dL"))).
Proof.
  intros Hs Hu Hagent Hi Hr.
  rewrite turn_dispatches; [| exact Hs | rewrite Hi; discriminate].
  rewrite Hi. unfold dispatch. cbn [String.eqb Ascii.eqb Bool.eqb].
  unfold try_except, _handle_cgm_monitoring, bind at 1, get_self.
  cbn [self_of]. rewrite Hr. unfold bind at 1, lift_result.
  rewrite Hu, Hagent.
  unfold bind at 1, lift_db at 1, log_agent_interaction, bind at 1, not_null, ret.
  cbn [db_of self_of]. unfold call. reflexivity.
Qed.

(** X19.  A glucose turn with an acceptable reading.  In a consistent
    Authenticated session whose store has a users table that loads, an input
    classified as cgm_monitoring from which a reading within 20..600 is
    extracted is answered by the glucose agent: the orchestrator logs the
    request, the agent stores the reading, logs it and stores an alert
    exactly when the alert is not "normal"; the reply carries the agent's
    message and alert.  The session is unchanged. *)
Theorem glucose_turn_is_stored (env : environment) (input : string) (s : t)
    (db : Database) (rows : list user_data) (reading : Q) :
  consistent s -> system_state s = Authenticated ->
  _detect_primary_intent (PyStr.strip input) = "cgm_monitoring" ->
  _extract_glucose_reading (PyStr.strip input) = Ok (Some reading) ->
  users db = Some rows ->
  (inject_Z 20 <= reading)%Q -> (reading <= inject_Z 600)%Q ->
  exists u alert message recommendations,
    authenticated_user_id s = Some u
    /\ process_user_input env input (mk_world s db)
       = (Ok (glucose_reply message (VStr alert) recommendations),
          mk_world s
            (ReadingFacts.after_reading
               (with_request db u "CGMAgent" "glucose_logging_request"
                  ("Logging glucose reading: " ++ float_str env reading ++ " mg/dL"))
               u reading alert message
               ("Reading: " ++ float_str env reading ++ " mg/dL, Alert: " ++ alert))).
Proof.
  intros Hc Hs Hi Hr Hrows Hlo Hhi.
  destruct (@consistent_authenticated s Hc Hs) as [u [Hu [Hne [Hagent _]]]].
  exists u.
  rewrite (@glucose_turn env input s db u reading Hs Hu Hagent Hi Hr).
  cbn [CGMAgent.process_glucose_reading_value PyNum.format].
  set (db1 := with_request _ _ _ _ _).
  destruct (@ReadingFacts.process_glucose_reading_run (float_str env)
              (get_cgm_trends env) (CGMAgent.create_cgm_agent (Some u)) reading
              db1 rows)
    as [u' [alert [message [recs [target [Hu' E]]]]]]; auto.
  { cbn. destruct (String.eqb_spec u EmptyString); [contradiction | reflexivity]. }
  cbn in Hu'. injection Hu' as <-.
  exists alert, message. eexists. split; [exact Hu |].
  unfold try_except, bind, lift_db. cbn [db_of self_of]. rewrite E.
  unfold item, lift_result, ret, ReadingFacts.accepted_reply, glucose_reply.
  cbn. rewrite Hs. reflexivity.
Qed.

Lemma glucose_turn_is_stored_witness :
  exists u alert message recommendations,
    authenticated_user_id Sample.logged_in = Some u
    /\ process_user_input Sample.env "my glucose is 150"
         (mk_world Sample.logged_in Sample.store)
       = (Ok (glucose_reply message (VStr alert) recommendations),
          mk_world Sample.logged_in
            (ReadingFacts.after_reading
               (with_request Sample.store u "CGMAgent" "glucose_logging_request"
                  ("Logging glucose reading: "
                   ++ float_str Sample.env (inject_Z 150) ++ " mg/dL"))
               u (inject_Z 150) alert message
               ("Reading: " ++ float_str Sample.env (inject_Z 150)
                ++ " mg/dL, Alert: " ++ alert))).
Proof.
  apply (@glucose_turn_is_stored Sample.env "my glucose is 150" Sample.logged_in
           Sample.store [Sample.jane; Sample.sam] (inject_Z 150)).
  - cbn. repeat split.
  - reflexivity.
  - vm_compute. reflexivity.
  - vm_compute. reflexivity.
  - reflexivity.
  - vm_compute. discriminate.
  - vm_compute. discriminate.
Defined.

(** Three hundred and ten nines. *)
Definition nines : string :=
  let nine5 := "99999" in
  let nine10 := nine5 ++ nine5 in
  let nine50 := nine10 ++ nine10 ++ nine10 ++ nine10 ++ nine10 in
  nine50 ++ nine50 ++ nine50 ++ nine50 ++ nine50 ++ nine50 ++ nine10.

(** A reading the meter cannot show: below 20, above 600, or infinite. *)
Definition outside_meter_range (reading : PyNum.float_value) : Prop :=
  match reading with
  | PyNum.Finite q => (q < inject_Z 20)%Q \/ (inject_Z 600 < q)%Q
  | PyNum.Infinity => True
  end.

(** X20.  A glucose turn that stores no reading.  When no number is found
    in the input, the reply asks for one and nothing is written.  When the
    extracted reading, the double that [float] made of the digits, lies
    outside 20..600 or is infinite, the agent refuses it and stores neither
    reading nor alert, but the orchestrator has already logged the request
    in [agent_interactions], and the reply still carries
    [data_logged = "glucose"] around the agent's "Invalid glucose reading"
    message. *)
Theorem refused_glucose_turn_is_still_logged (env : environment) (input : string)
    (s : t) (db : Database) :
  consistent s -> system_state s = Authenticated ->
  _detect_primary_intent (PyStr.strip input) = "cgm_monitoring" ->
  (_extract_glucose_reading (PyStr.strip input) = Ok None ->
   process_user_input env input (mk_world s db)
   = (Ok [ ("response",
            VStr "I couldn't find a glucose reading in your message. Please include the number, like 'My glucose is 120' or '125 mg/dL'");
           ("agent_used", VStr "CGMAgent");
           ("system_state", VStr "authenticated") ],
      mk_world s db))
  /\ (forall reading : PyNum.float_value,
        _extract_glucose_reading (PyStr.strip input) = Ok (Some reading) ->
        outside_meter_range reading ->
        exists u,
          authenticated_user_id s = Some u
          /\ process_user_input env input (mk_world s db)
             = (Ok (glucose_reply
                      ("Invalid glucose reading: "
                       ++ PyNum.format (float_str env) reading
                       ++ " mg/dL. Please check your meter and try again.")
                      VNone VNone),
                mk_world s
                  (with_request db u "CGMAgent" "glucose_logging_request"
                     ("Logging glucose reading: "
                      ++ PyNum.format (float_str env) reading ++ " mg/dL")))).
Proof.
  intros Hc Hs Hi.
  destruct (@consistent_authenticated s Hc Hs) as [u [Hu [Hne [Hagent _]]]].
  assert (Htruthy : PyStr.truthy (Some u) = true).
  { cbn. destruct (String.eqb_spec u EmptyString); [contradiction | reflexivity]. }
  split.
  - intros Hr.
    rewrite turn_dispatches; [| exact Hs | rewrite Hi; discriminate].
    rewrite Hi. unfold dispatch. cbn [String.eqb Ascii.eqb Bool.eqb].
    unfold try_except, _handle_cgm_monitoring, bind at 1, get_self.
    cbn [self_of]. rewrite Hr. unfold bind, lift_result, ret. rewrite Hs.
    reflexivity.
  - intros reading Hr Hout. exists u. split; [exact Hu |].
    rewrite (@glucose_turn env input s db u reading Hs Hu Hagent Hi Hr).
    unfold try_except, bind, lift_db. cbn [db_of self_of].
    destruct reading as [q |]; cbn [CGMAgent.process_glucose_reading_value].
    + rewrite CGMAgentFacts.process_glucose_reading_refused; auto.
      unfold item, lift_result, ret, glucose_reply. cbn. rewrite Hs. reflexivity.
    + cbn [CGMAgent.authenticated_user_id CGMAgent.create_cgm_agent].
      rewrite Htruthy.
      unfold item, lift_result, ret, glucose_reply. cbn. rewrite Hs. reflexivity.
Qed.

(** A reading a hair above 600 is the double 600 and is not refused, one
    well above is; three hundred and ten nines are infinite. *)
Lemma refused_glucose_turn_is_still_logged_witness :
  _extract_glucose_reading "glucose 600.00000000000000001"
  = Ok (Some (inject_Z 600))
  /\ (exists u,
        authenticated_user_id Sample.logged_in = Some u
        /\ process_user_input Sample.env "glucose 700"
             (mk_world Sample.logged_in Sample.store)
           = (Ok (glucose_reply
                    ("Invalid glucose reading: "
                     ++ float_str Sample.env (inject_Z 700)
                     ++ " mg/dL. Please check your meter and try again.")
                    VNone VNone),
              mk_world Sample.logged_in
                (with_request Sample.store u "CGMAgent" "glucose_logging_request"
                   ("Logging glucose reading: "
                    ++ float_str Sample.env (inject_Z 700) ++ " mg/dL"))))
  /\ (exists u,
        authenticated_user_id Sample.logged_in = Some u
        /\ process_user_input Sample.env ("glucose " ++ nines)
             (mk_world Sample.logged_in Sample.store)
           = (Ok (glucose_reply
                    "Invalid glucose reading: inf mg/dL. Please check your meter and try again."
                    VNone VNone),
              mk_world Sample.logged_in
                (with_request Sample.store u "CGMAgent" "glucose_logging_request"
                   "Logging glucose reading: inf mg/dL"))).
Proof.
  split; [vm_compute; reflexivity |]. split.
  - refine (proj2 (@refused_glucose_turn_is_still_logged Sample.env "glucose 700"
                     Sample.logged_in Sample.store _ eq_refl _)
              (PyNum.Finite (inject_Z 700)) _ _).
    + cbn. repeat split.
    + vm_compute. reflexivity.
    + vm_compute. reflexivity.
    + right. vm_compute. reflexivity.
  - refine (proj2 (@refused_glucose_turn_is_still_logged Sample.env
                     ("glucose " ++ nines) Sample.logged_in Sample.store _ eq_refl _)
              PyNum.Infinity _ _).
    + cbn. repeat split.
    + vm_compute. reflexivity.
    + vm_compute. reflexivity.
    + exact I.
Defined.

End TurnAccounting.


(** ** What a group captures *)

Module CaptureFacts.
Import Re ReFacts PyStr PyStrFacts.

(** The bodies of the groups of a pattern, outermost only. *)
Fixpoint groups (r : regex) : list regex :=
  match r with
  | Grp r1 => [r1]
  | Seq r1 r2 | Alt r1 r2 => groups r1 ++ groups r2
  | Opt r1 => groups r1
  | Eps | Cls _ | Rep _ _ _ _ | Bol | Eol => []
  end.

(** Group 1 holds a text its group matched. *)
Definition captured (r : regex) (g : option string) : Prop :=
  exists body m, In body (groups r) /\ matches body m /\ g = Some m.

Lemma take_matched (m rest : string) :
  take (String.length (m ++ rest) - String.length rest) (m ++ rest) = m.
Proof.
  rewrite length_append.
  replace (String.length m + String.length rest - String.length rest)
    with (String.length m) by lia.
  induction m as [|c m IH]; cbn.
  - destruct rest; reflexivity.
  - now rewrite IH.
Qed.

Lemma captured_left (r1 r2 : regex) (g : option string) :
  captured r1 g -> (forall x, In x (groups r1) -> In x (groups r2)) -> captured r2 g.
Proof.
  intros [body [m [Hin [Hm Hg]]]] Hsub. exists body, m. auto.
Qed.

Lemma run_captures (A : Type) (r : regex) :
  Forall (fun body => anchor_free body = true) (groups r) ->
  forall bol s g (k : bool -> string -> option string -> option A) a,
    run r bol s g k = Some a ->
    exists bol' s' g',
      k bol' s' g' = Some a /\ (g' = g \/ captured r g').
Proof.
  induction r as [| p | r1 IH1 r2 IH2 | r1 IH1 r2 IH2 | r1 IH1
                  | p lo hi greedy | r1 IH1 | |];
    intros Hfree bol s g k a H; cbn [run] in H; cbn [groups] in Hfree.
  - exists bol, s, g. auto.
  - destruct s as [|c s]; [discriminate |].
    destruct (p c); [| discriminate]. exists false, s, g. auto.
  - apply Forall_app in Hfree. destruct Hfree as [F1 F2].
    apply (IH1 F1) in H. destruct H as [bol1 [s1 [g1 [H G1]]]].
    apply (IH2 F2) in H. destruct H as [bol2 [s2 [g2 [H G2]]]].
    exists bol2, s2, g2. split; [exact H |].
    destruct G2 as [-> | G2].
    + destruct G1 as [-> | G1]; [now left | right].
      eapply captured_left; [exact G1 |]. intros x Hx. cbn. apply in_or_app. now left.
    + right. eapply captured_left; [exact G2 |]. intros x Hx. cbn. apply in_or_app.
      now right.
  - apply Forall_app in Hfree. destruct Hfree as [F1 F2].
    apply or_else_some in H. destruct H as [H | H].
    + apply (IH1 F1) in H. destruct H as [bol' [s' [g' [H G]]]].
      exists bol', s', g'. split; [exact H |].
      destruct G as [-> | G]; [now left | right].
      eapply captured_left; [exact G |]. intros x Hx. cbn. apply in_or_app. now left.
    + apply (IH2 F2) in H. destruct H as [bol' [s' [g' [H G]]]].
      exists bol', s', g'. split; [exact H |].
      destruct G as [-> | G]; [now left | right].
      eapply captured_left; [exact G |]. intros x Hx. cbn. apply in_or_app. now right.
  - apply or_else_some in H. destruct H as [H | H].
    + apply (IH1 Hfree) in H. destruct H as [bol' [s' [g' [H G]]]].
      exists bol', s', g'. split; [exact H |].
      destruct G as [-> | G]; [now left | right].
      eapply captured_left; [exact G |]. auto.
    + exists bol, s, g. auto.
  - apply rep_sound in H. destruct H as [m [rest [bol' [_ [_ [_ [_ H]]]]]]].
    exists bol', rest, g. auto.
  - apply Forall_inv in Hfree.
    apply run_sound in H; [| exact Hfree].
    destruct H as [m [rest [bol' [g' [-> [M H]]]]]].
    rewrite take_matched in H.
    exists bol', rest, (Some m). split; [exact H |]. right.
    exists r1, m. cbn. auto.
  - destruct bol; [| discriminate]. exists true, s, g. auto.
  - assert (E : k bol s g = Some a).
    { destruct s as [|c [|d s]]; try discriminate; [exact H |].
      destruct (Ascii.eqb c "010"); [exact H | discriminate]. }
    exists bol, s, g. auto.
Qed.

(** [m.group(1)] of a search is a text one of the pattern's groups
    matched. *)
Lemma search_captures (r : regex) (s : string) (bol : bool) (m : match_object)
    (g : string) :
  Forall (fun body => anchor_free body = true) (groups r) ->
  search_from r bol s = Some m -> group1 m = Some g ->
  exists body, In body (groups r) /\ matches body g.
Proof.
  intros Hfree. revert bol.
  assert (K : forall bol s',
             match_at r bol s' = Some m -> group1 m = Some g ->
             exists body, In body (groups r) /\ matches body g).
  { intros bol s' E Hg. unfold match_at in E.
    apply run_captures in E; [| exact Hfree].
    destruct E as [_ [_ [g' [E G]]]]. injection E as <-. cbn in Hg.
    destruct G as [-> | [body [m' [Hin [Hm E]]]]]; [discriminate |].
    rewrite E in Hg. injection Hg as <-. eauto. }
  induction s as [|c s IH]; intros bol H Hg; cbn in H.
  - destruct (match_at r bol EmptyString) as [mo|] eqn:E; [| discriminate].
    cbn in H. injection H as ->. eapply K; eauto.
  - destruct (match_at r bol (String c s)) as [mo|] eqn:E.
    + cbn in H. injection H as ->. eapply K; eauto.
    + cbn in H. eapply IH; eauto.
Qed.

(** *** Taking matches apart *)

Lemma matches_seq (r1 r2 : regex) (m : string) :
  matches (Seq r1 r2) m ->
  exists m1 m2, m = m1 ++ m2 /\ matches r1 m1 /\ matches r2 m2.
Proof. intros H. inversion H; subst. eauto. Qed.

Lemma matches_rep (p : ascii -> bool) (lo : nat) (hi : option nat) (greedy : bool)
    (m : string) :
  matches (Rep p lo hi greedy) m ->
  all_in p m = true /\ lo <= String.length m /\ within hi (String.length m).
Proof. intros H. inversion H; subst. auto. Qed.

Lemma matches_chr (c : ascii) (m : string) :
  matches (Cls (chr c)) m -> m = String c EmptyString.
Proof.
  intros H. inversion H as [| p d Hp | | | | | | |]; subst.
  unfold chr in Hp. apply Ascii.eqb_eq in Hp. now subst.
Qed.

Lemma matches_opt (r : regex) (m : string) :
  matches (Opt r) m -> m = EmptyString \/ matches r m.
Proof. intros H. inversion H; subst; auto. Qed.

(** *** Splitting at a separator *)

Lemma split_without (sep : ascii) (s : string) :
  has_char sep s = false -> split sep s = [s].
Proof.
  induction s as [|c s IH]; cbn; [reflexivity |].
  rewrite orb_false_iff. intros [Hc Hs]. rewrite Hc, (IH Hs). reflexivity.
Qed.

Lemma split_at (sep : ascii) (a b : string) :
  has_char sep a = false -> split sep (a ++ String sep b) = a :: split sep b.
Proof.
  induction a as [|c a IH]; cbn.
  - intros _. now rewrite Ascii.eqb_refl.
  - rewrite orb_false_iff. intros [Hc Ha]. rewrite Hc, (IH Ha). reflexivity.
Qed.

Lemma class_without (p : ascii -> bool) (sep : ascii) (s : string) :
  p sep = false -> all_in p s = true -> has_char sep s = false.
Proof.
  intros Hp Hall. apply not_true_is_false. intros H.
  pose proof (@ResolverFacts.has_char_all_in p sep s Hall H). congruence.
Qed.

End CaptureFacts.


(** ** The glucose extractor *)

Module ReadingExtractorFacts.
Import Re ReFacts PyStr PyStrFacts HealthAgentSystem ExtractorFacts CaptureFacts.

(** [\d+(?:\.\d+)?], the body of the group of every glucose pattern. *)
Definition number_body : regex :=
  Seq (plus digit) (Opt (Seq (lit ".") (plus digit))).

Lemma glucose_pattern_groups :
  Forall (fun pattern => groups pattern = [number_body]) glucose_patterns.
Proof. repeat constructor. Qed.

Lemma digits_value_total (s : string) :
  all_in is_digit s = true ->
  forall acc, (0 <= acc)%Z ->
  exists n, digits_value acc s = Some n /\ (0 <= n)%Z.
Proof.
  induction s as [|c s IH]; cbn [digits_value all_in]; intros Hall acc Hacc;
    [eauto |].
  apply andb_true_iff in Hall. destruct Hall as [Hc Hs]. rewrite Hc.
  apply IH; [exact Hs | lia].
Qed.

Lemma inject_nonneg (n : Z) : (0 <= n)%Z -> (0 <= inject_Z n)%Q.
Proof. intros H. unfold Qle. cbn. lia. Qed.

Lemma round_half_even_nonneg (n d : Z) :
  (0 <= n)%Z -> (0 < d)%Z -> (0 <= PyNum.round_half_even n d)%Z.
Proof.
  intros Hn Hd. unfold PyNum.round_half_even.
  pose proof (Z.div_pos n d Hn Hd).
  destruct (2 * (n mod d) ?= d)%Z; [destruct (Z.even _) | |]; lia.
Qed.

(** The nearest double of a number that is not negative is not negative
    either. *)
Lemma nearest_double_nonneg (n d : Z) :
  (0 <= n)%Z -> (0 < d)%Z -> PyNum.le (inject_Z 0) (PyNum.nearest_double n d).
Proof.
  intros Hn Hd. unfold PyNum.nearest_double.
  destruct (n <=? 0)%Z; [cbn; apply Qle_refl |].
  set (e := Z.max _ _).
  destruct (0 <=? e)%Z eqn:He.
  - apply Z.leb_le in He.
    assert (Hp : (0 < 2 ^ e)%Z) by (apply Z.pow_pos_nonneg; lia).
    pose proof (@round_half_even_nonneg n (d * 2 ^ e) Hn ltac:(nia)) as Hm.
    destruct (2 ^ 1024 <=? _)%Z; [exact I |].
    cbn [PyNum.le]. apply inject_nonneg. nia.
  - apply Z.leb_gt in He.
    assert (Hp : (0 < 2 ^ (- e))%Z) by (apply Z.pow_pos_nonneg; lia).
    pose proof (@round_half_even_nonneg (n * 2 ^ (- e)) d ltac:(nia) Hd) as Hm.
    cbn [PyNum.le]. rewrite Qred_correct. unfold Qle. cbn. lia.
Qed.

(** [float] accepts every text the group can capture, and the value is
    not negative. *)
Lemma float_of_number (g : string) :
  matches number_body g ->
  exists v, PyNum.float g = Ok v /\ PyNum.le (inject_Z 0) v.
Proof.
  intros H. unfold number_body in H.
  apply matches_seq in H. destruct H as [whole [tail [-> [Hw Ht]]]].
  apply matches_rep in Hw. destruct Hw as [Hall [Hlen _]].
  assert (Hdot : has_char "." whole = false)
    by (apply (@class_without digit); [reflexivity | exact Hall]).
  destruct (@digits_value_total whole Hall 0%Z) as [n [Hn Hn0]]; [lia |].
  destruct whole as [|c whole]; [cbn in Hlen; lia |].
  apply matches_opt in Ht. destruct Ht as [-> | Ht].
  - rewrite append_nil_r. unfold PyNum.float.
    rewrite (@split_without "." _ Hdot), Hn.
    eexists. split; [reflexivity | apply nearest_double_nonneg; lia].
  - apply matches_seq in Ht. destruct Ht as [dot [frac [-> [Hd Hf]]]].
    cbn [lit] in Hd. apply matches_chr in Hd. subst dot.
    apply matches_rep in Hf. destruct Hf as [Hfall [Hflen _]].
    assert (Hfdot : has_char "." frac = false)
      by (apply (@class_without digit); [reflexivity | exact Hfall]).
    destruct (@digits_value_total frac Hfall 0%Z) as [f [Hf Hf0]]; [lia |].
    destruct frac as [|d frac]; [cbn in Hflen; lia |].
    unfold PyNum.float. cbn [append].
    change (String c (whole ++ String "." (String d frac)))
      with (String c whole ++ String "." (String d frac)).
    rewrite (@split_at "." _ _ Hdot), (@split_without "." _ Hfdot), Hn, Hf.
    eexists. split; [reflexivity |].
    set (scale := (10 ^ Z.of_nat (String.length (String d frac)))%Z).
    assert (Hscale : (0 < scale)%Z) by (apply Z.pow_pos_nonneg; lia).
    apply nearest_double_nonneg; nia.
Qed.

Lemma has_split (p : ascii -> bool) (s : string) :
  has p s = true -> exists pre c suf, s = pre ++ String c suf /\ p c = true.
Proof.
  induction s as [|d s IH]; cbn; [discriminate |].
  destruct (p d) eqn:Hd; cbn.
  - intros _. exists EmptyString, d, s. auto.
  - intros H. destruct (IH H) as [pre [c [suf [-> Hc]]]].
    exists (String d pre), c, suf. auto.
Qed.

(** A text with a digit has a stretch the bare number pattern matches. *)
Lemma number_is_found (s : string) :
  has is_digit s = true -> re_search number s <> None.
Proof.
  intros H. destruct (@has_split is_digit s H) as [pre [c [suf [-> Hc]]]].
  apply found_iff.
  change (pre ++ String c suf) with (pre ++ String c EmptyString ++ suf).
  apply search_complete. unfold number. apply M_Grp.
  rewrite <- (append_nil_r (String c EmptyString)).
  apply M_Seq; [| apply M_OptNone].
  apply M_Rep; [cbn [all_in]; unfold digit; now rewrite Hc | cbn; lia | exact I].
Qed.

Lemma first_reading_some (patterns : list regex) (text_lower : string)
    (v : PyNum.float_value) :
  first_reading patterns text_lower = Ok (Some v) ->
  exists pattern m g,
    In pattern patterns /\ re_search pattern text_lower = Some m
    /\ group1 m = Some g /\ PyNum.float g = Ok v.
Proof.
  induction patterns as [|pattern rest IH]; cbn [first_reading]; [discriminate |].
  destruct (re_search pattern text_lower) as [m |] eqn:E.
  - destruct (group1 m) as [g |] eqn:G; [| discriminate].
    destruct (PyNum.float g) as [v' | e] eqn:F.
    + intros H. injection H as <-. exists pattern, m, g. cbn. auto.
    + intros H.
      assert (H' : first_reading rest text_lower = Ok (Some v))
        by (destruct e; solve [exact H | discriminate]).
      destruct (IH H') as [p [m' [g' [Hin K]]]]. exists p, m', g'. cbn. auto.
  - intros H. destruct (IH H) as [p [m' [g' [Hin K]]]]. exists p, m', g'. cbn. auto.
Qed.

Lemma first_reading_none_needs (patterns : list regex) (text_lower : string) :
  first_reading patterns text_lower = Ok None ->
  forall pattern m g,
    In pattern patterns -> re_search pattern text_lower = Some m ->
    group1 m = Some g ->
    exists msg, PyNum.float g = Raise (ValueError msg).
Proof.
  induction patterns as [|p rest IH]; cbn [first_reading]; intros H pattern m g Hin.
  - contradiction.
  - destruct Hin as [<- | Hin].
    + intros E G. rewrite E, G in H.
      destruct (PyNum.float g) as [v | e]; [discriminate |].
      destruct e; try discriminate. eauto.
    + destruct (re_search p text_lower) as [m' |].
      * destruct (group1 m') as [g' |]; [| discriminate].
        destruct (PyNum.float g') as [v | e]; [discriminate |].
        destruct e; try discriminate. now apply IH.
      * now apply IH.
Qed.

Lemma anchor_free_number_body :
  Forall (fun body => anchor_free body = true) [number_body].
Proof. repeat constructor. Qed.

(** X21.  The glucose extractor finds a reading exactly when the input has
    a decimal digit, and the reading is never negative (it is a finite
    value from 0 on, or infinite): there is no sign in the patterns, so the
    digits after a minus sign are read as a positive number. *)
Theorem reading_found_iff_digit (text : string) :
  (_extract_glucose_reading text = Ok None <-> has is_digit text = false)
  /\ (forall v, _extract_glucose_reading text = Ok (Some v) ->
      PyNum.le (inject_Z 0) v)
  /\ (has is_digit text = true ->
      exists v, _extract_glucose_reading text = Ok (Some v)).
Proof.
  assert (Hcap : forall pattern m g,
             In pattern glucose_patterns ->
             re_search pattern (lower text) = Some m -> group1 m = Some g ->
             matches number_body g).
  { intros pattern m g Hin E G.
    pose proof glucose_pattern_groups as Hg. rewrite Forall_forall in Hg.
    pose proof (Hg _ Hin) as Hp.
    destruct (@search_captures pattern (lower text) true m g) as [body [Hb M]];
      auto.
    - rewrite Hp. exact anchor_free_number_body.
    - rewrite Hp in Hb. destruct Hb as [<- | []]. exact M. }
  assert (Hdigit : has is_digit text = true ->
                   _extract_glucose_reading text <> Ok None).
  { intros Hd Hnone. unfold _extract_glucose_reading in Hnone.
    rewrite <- has_digit_lower in Hd.
    pose proof (@number_is_found _ Hd) as Hfound.
    destruct (re_search number (lower text)) as [m |] eqn:E; [| contradiction].
    destruct (@search_sets_group number (lower text) true m eq_refl E) as [g G].
    assert (Hin : In number glucose_patterns) by (cbn; tauto).
    destruct (@first_reading_none_needs _ _ Hnone _ _ _ Hin E G) as [msg F].
    destruct (@float_of_number _ (Hcap _ _ _ Hin E G)) as [v [F' _]].
    congruence. }
  split; [| split].
  - split.
    + intros H. destruct (has is_digit text) eqn:Hd; [| reflexivity].
      exfalso. now apply Hdigit.
    + apply no_digit_no_reading.
  - intros v H. unfold _extract_glucose_reading in H.
    apply first_reading_some in H.
    destruct H as [pattern [m [g [Hin [E [G F]]]]]].
    destruct (@float_of_number _ (Hcap _ _ _ Hin E G)) as [v' [F' Hv]].
    congruence.
  - intros Hd. destruct (extract_glucose_reading_total text) as [[v |] E].
    + eauto.
    + exfalso. now apply Hdigit.
Qed.

Lemma reading_found_iff_digit_witness :
  (0 <= inject_Z 5)%Q
  /\ exists v, _extract_glucose_reading "it dropped to -5 overnight" = Ok (Some v).
Proof.
  pose proof (@reading_found_iff_digit "it dropped to -5 overnight")
    as [_ [Hpos Hsome]].
  split.
  - apply (Hpos (PyNum.Finite (inject_Z 5))). vm_compute. reflexivity.
  - apply Hsome. reflexivity.
Defined.

End ReadingExtractorFacts.


(** ** The date extractor *)

Module DateFacts.
Import Re ReFacts PyStr PyStrFacts HealthAgentSystem CaptureFacts.

(** A date written year-month-day with four, two and two digits. *)
Definition iso_date (d : string) : Prop :=
  exists year month day,
    d = year ++ "-" ++ month ++ "-" ++ day
    /\ String.length year = 4 /\ String.length month = 2 /\ String.length day = 2
    /\ all_in is_digit year = true /\ all_in is_digit month = true
    /\ all_in is_digit day = true.

Lemma first_date_some (patterns : list regex) (text d : string) :
  first_date patterns text = Some d ->
  exists pattern m g,
    In pattern patterns /\ re_search pattern text = Some m
    /\ group1 m = Some g /\ normalize_date m = Ok d.
Proof.
  induction patterns as [|pattern rest IH]; cbn [first_date]; [discriminate |].
  destruct (re_search pattern text) as [m |] eqn:E.
  - destruct (normalize_date m) as [d' | e] eqn:N.
    + intros H. injection H as <-.
      destruct (group1 m) as [g |] eqn:G.
      * exists pattern, m, g. cbn. auto.
      * unfold normalize_date in N. rewrite G in N. discriminate.
    + intros H. destruct (IH H) as [p [m' [g [Hin K]]]]. exists p, m', g. cbn. auto.
  - intros H. destruct (IH H) as [p [m' [g [Hin K]]]]. exists p, m', g. cbn. auto.
Qed.

(** Three runs of digits joined by a separator. *)
Definition three_fields (sep : ascii) (lo1 hi1 lo2 hi2 lo3 hi3 : nat) : regex :=
  seqs [range digit lo1 hi1; Cls (chr sep); range digit lo2 hi2; Cls (chr sep);
        range digit lo3 hi3].

Lemma three_fields_parts (sep : ascii) (lo1 hi1 lo2 hi2 lo3 hi3 : nat) (g : string) :
  matches (three_fields sep lo1 hi1 lo2 hi2 lo3 hi3) g ->
  exists a b c,
    g = a ++ String sep (b ++ String sep c)
    /\ (all_in is_digit a = true /\ lo1 <= String.length a <= hi1)
    /\ (all_in is_digit b = true /\ lo2 <= String.length b <= hi2)
    /\ (all_in is_digit c = true /\ lo3 <= String.length c <= hi3).
Proof.
  unfold three_fields, range. cbn [seqs]. intros H.
  apply matches_seq in H. destruct H as [a [g1 [-> [Ha H]]]].
  apply matches_seq in H. destruct H as [s1 [g2 [-> [Hs1 H]]]].
  apply matches_seq in H. destruct H as [b [g3 [-> [Hb H]]]].
  apply matches_seq in H. destruct H as [s2 [c [-> [Hs2 Hc]]]].
  apply matches_chr in Hs1, Hs2. subst s1 s2.
  apply matches_rep in Ha, Hb, Hc. cbn [within] in Ha, Hb, Hc.
  exists a, b, c. cbn [append]. unfold digit in *. intuition.
Qed.

Lemma split_three (sep : ascii) (a b c : string) :
  is_digit sep = false ->
  all_in is_digit a = true -> all_in is_digit b = true ->
  all_in is_digit c = true ->
  split sep (a ++ String sep (b ++ String sep c)) = [a; b; c].
Proof.
  intros Hsep Ha Hb Hc.
  rewrite split_at by now apply (@class_without is_digit).
  rewrite split_at by now apply (@class_without is_digit).
  rewrite split_without by now apply (@class_without is_digit).
  reflexivity.
Qed.

Lemma has_char_fields (x sep : ascii) (a b c : string) :
  is_digit x = false ->
  all_in is_digit a = true -> all_in is_digit b = true ->
  all_in is_digit c = true ->
  has_char x (a ++ String sep (b ++ String sep c)) = Ascii.eqb sep x.
Proof.
  intros Hx Ha Hb Hc.
  rewrite IdShapeFacts.has_char_append. cbn [has_char].
  rewrite IdShapeFacts.has_char_append. cbn [has_char].
  rewrite !(@class_without is_digit x) by assumption.
  cbn. now rewrite !orb_false_r, orb_diag.
Qed.

Lemma zfill_two (a : string) :
  all_in is_digit a = true -> 1 <= String.length a <= 2 ->
  String.length (zfill 2 a) = 2 /\ all_in is_digit (zfill 2 a) = true.
Proof.
  intros Ha Hlen.
  destruct a as [|x [|y [|z a]]]; cbn in Hlen; try lia; unfold zfill; cbn.
  - cbn in Ha. rewrite andb_true_r in Ha. rewrite Ha. auto.
  - cbn in Ha. auto.
Qed.

Lemma month_day_year_is_iso (month day year : string) :
  all_in is_digit month = true -> 1 <= String.length month <= 2 ->
  all_in is_digit day = true -> 1 <= String.length day <= 2 ->
  all_in is_digit year = true -> String.length year = 4 ->
  exists d, month_day_year [month; day; year] = Ok d /\ iso_date d.
Proof.
  intros Hm Lm Hd Ld Hy Ly.
  destruct (@zfill_two month Hm Lm) as [Lm' Hm'].
  destruct (@zfill_two day Hd Ld) as [Ld' Hd'].
  eexists. split; [reflexivity |].
  exists year, (zfill 2 month), (zfill 2 day). repeat split; auto.
Qed.

(** What [normalize_date] makes of the text each pattern captures. *)
Lemma normalized_is_iso (pattern : regex) (m : match_object) (g d : string) :
  In pattern date_patterns ->
  (forall body, In body (groups pattern) -> matches body g) ->
  group1 m = Some g -> normalize_date m = Ok d -> iso_date d.
Proof.
  intros Hin Hcap G N. unfold normalize_date in N. rewrite G in N.
  cbn in Hin. destruct Hin as [<- | [<- | [<- | []]]].
  - specialize (Hcap _ (or_introl eq_refl)).
    apply (@three_fields_parts "-" 4 4 2 2 2 2) in Hcap.
    destruct Hcap as [a [b [c [-> [[Ha La] [[Hb Lb] [Hc Lc]]]]]]].
    rewrite (has_char_fields "/" "-") in N by (reflexivity || assumption).
    rewrite (has_char_fields "-" "-") in N by (reflexivity || assumption).
    rewrite split_three in N by (reflexivity || assumption).
    cbn [Ascii.eqb Bool.eqb andb] in N.
    replace (Nat.leb (String.length a) 2) with false in N
      by (symmetry; apply Nat.leb_gt; lia).
    injection N as <-.
    exists a, b, c. repeat split; auto; lia.
  - specialize (Hcap _ (or_introl eq_refl)).
    apply (@three_fields_parts "/" 1 2 1 2 4 4) in Hcap.
    destruct Hcap as [a [b [c [-> [[Ha La] [[Hb Lb] [Hc Lc]]]]]]].
    rewrite (has_char_fields "/" "/") in N by (reflexivity || assumption).
    rewrite split_three in N by (reflexivity || assumption).
    cbn [Ascii.eqb Bool.eqb andb] in N.
    destruct (@month_day_year_is_iso a b c) as [d' [E Hiso]]; auto; try lia.
    rewrite E in N. now injection N as <-.
  - specialize (Hcap _ (or_introl eq_refl)).
    apply (@three_fields_parts "-" 1 2 1 2 4 4) in Hcap.
    destruct Hcap as [a [b [c [-> [[Ha La] [[Hb Lb] [Hc Lc]]]]]]].
    rewrite (has_char_fields "/" "-") in N by (reflexivity || assumption).
    rewrite (has_char_fields "-" "-") in N by (reflexivity || assumption).
    rewrite split_three in N by (reflexivity || assumption).
    cbn [Ascii.eqb Bool.eqb andb] in N.
    replace (Nat.leb (String.length a) 2) with true in N
      by (symmetry; apply Nat.leb_le; lia).
    destruct (@month_day_year_is_iso a b c) as [d' [E Hiso]]; auto; try lia.
    rewrite E in N. now injection N as <-.
Qed.

Lemma date_pattern_groups (pattern : regex) :
  In pattern date_patterns ->
  Forall (fun body => anchor_free body = true) (groups pattern).
Proof.
  cbn. intros [<- | [<- | [<- | []]]]; repeat constructor.
Qed.

(** X22.  Whatever date the extractor returns is one of the three days of
    the clock (for "today", "tomorrow", "yesterday" in the input) or a text
    of the form YYYY-MM-DD with four, two and two decimal digits: a date
    written month/day/year or month-day-year is rewritten year first with
    month and day filled to two digits.  The digits are not checked
    against the calendar. *)
Theorem extracted_date_is_iso (today tomorrow yesterday text d : string) :
  _extract_date_from_input today tomorrow yesterday text = Some d ->
  (PyStr.any_in ["today"; "tomorrow"; "yesterday"] (lower text) = true
   /\ (d = today \/ d = tomorrow \/ d = yesterday))
  \/ (PyStr.any_in ["today"; "tomorrow"; "yesterday"] (lower text) = false
      /\ iso_date d).
Proof.
  unfold _extract_date_from_input, any_in. cbn [existsb].
  destruct (contains (lower text) "today").
  { intros H. injection H as <-. left. auto. }
  destruct (contains (lower text) "tomorrow").
  { intros H. injection H as <-. left. auto. }
  destruct (contains (lower text) "yesterday").
  { intros H. injection H as <-. left. auto. }
  intros H. right. split; [reflexivity |].
  apply first_date_some in H. destruct H as [pattern [m [g [Hin [E [G N]]]]]].
  apply (@normalized_is_iso pattern m g d Hin); auto.
  intros body Hb.
  destruct (@search_captures pattern text true m g (@date_pattern_groups pattern Hin) E G)
    as [body' [Hb' M]].
  assert (body' = body).
  { cbn in Hin. destruct Hin as [<- | [<- | [<- | []]]]; cbn in Hb, Hb';
      destruct Hb as [<- | []]; destruct Hb' as [<- | []]; reflexivity. }
  now subst.
Qed.

Lemma extracted_date_is_iso_witness :
  (PyStr.any_in ["today"; "tomorrow"; "yesterday"] (lower "plan for 3/7/2026")
   = true
   /\ ("2026-03-07" = "2026-01-15" \/ "2026-03-07" = "2026-01-16"
       \/ "2026-03-07" = "2026-01-14"))
  \/ (PyStr.any_in ["today"; "tomorrow"; "yesterday"] (lower "plan for 3/7/2026")
      = false
      /\ iso_date "2026-03-07").
Proof.
  exact (@extracted_date_is_iso "2026-01-15" "2026-01-16" "2026-01-14"
           "plan for 3/7/2026" "2026-03-07" eq_refl).
Defined.

End DateFacts.


(** ** The interrupt agent: routing and general questions *)

Module RoutingFacts.
Import PyStr PyStrFacts InterruptAgent IdShapeFacts.

Lemma prefix_append (w suf : string) : String.prefix w (w ++ suf) = true.
Proof.
  induction w as [|c w IH]; cbn; [now destruct suf |].
  destruct (ascii_dec c c); [exact IH | contradiction].
Qed.

Lemma contains_complete (pre w suf : string) :
  contains (pre ++ w ++ suf) w = true.
Proof.
  induction pre as [|c pre IH]; cbn [append].
  - destruct (w ++ suf) eqn:E; cbn [contains]; rewrite <- E, prefix_append;
      reflexivity.
  - cbn [contains]. rewrite IH. apply orb_true_r.
Qed.

(** A text that contains a phrase contains every stretch of it. *)
Lemma contains_part (s a b c : string) :
  contains s (a ++ b ++ c) = true -> contains s b = true.
Proof.
  intros H. destruct (@contains_split s (a ++ b ++ c) H) as [pre [suf ->]].
  rewrite !append_assoc. rewrite <- (append_assoc pre a).
  apply contains_complete.
Qed.

Lemma any_in_intro (ws : list string) (s w : string) :
  In w ws -> contains s w = true -> any_in ws s = true.
Proof.
  intros Hin Hc. unfold any_in. apply existsb_exists. eauto.
Qed.

(** The agents [route_to_appropriate_agent] tries before the meal planner,
    and those [check_health_related_query] tries before the meal plan. *)
Definition before_meal_planner : list string :=
  [ "mood_tracker"; "cgm_monitor"; "food_intake" ].

Definition before_meal_plan : list string := [ "mood"; "glucose"; "food" ].

Lemma routed_before_planner (user_input food_word : string) :
  In food_word ["eat"; "meal"] ->
  contains (lower user_input) food_word = true ->
  exists agent_name,
    dict_get (route_to_appropriate_agent user_input) "recommended_agent"
    = Some (VStr agent_name)
    /\ In agent_name before_meal_planner.
Proof.
  intros Hw Hc. unfold route_to_appropriate_agent, routing_map.
  cbn [first_route keywords].
  destruct (any_in _ (lower user_input)).
  { eexists. split; [reflexivity |]. cbn. tauto. }
  destruct (any_in _ (lower user_input)).
  { eexists. split; [reflexivity |]. cbn. tauto. }
  rewrite (@any_in_intro _ (lower user_input) food_word); [| | exact Hc].
  - eexists. split; [reflexivity |]. cbn. tauto.
  - cbn in Hw |- *. destruct Hw as [<- | [<- | []]]; tauto.
Qed.

(** X23.  A request for a meal plan never reaches the meal planner through
    the interrupt agent's routing.  The food route is tried first and its
    keywords "meal" and "eat" occur inside the planner's keywords "meal
    plan", "plan meals" and "what to eat": an input with one of these is
    routed to the mood, glucose or food agent.  In the same way
    [check_health_related_query] never suggests meal_plan for an input
    with "meal plan". *)
Theorem meal_plan_requests_bypass_the_planner (user_input : string) :
  (contains (lower user_input) "meal plan" = true
   \/ contains (lower user_input) "plan meals" = true
   \/ contains (lower user_input) "what to eat" = true ->
   exists agent_name,
     dict_get (route_to_appropriate_agent user_input) "recommended_agent"
     = Some (VStr agent_name)
     /\ In agent_name before_meal_planner)
  /\ (contains (lower user_input) "meal plan" = true ->
      exists agent_name,
        dict_get (check_health_related_query user_input) "suggested_agent"
        = Some (VStr agent_name)
        /\ In agent_name before_meal_plan).
Proof.
  split.
  - intros [H | [H | H]].
    + apply (@routed_before_planner user_input "meal"); [cbn; tauto |].
      exact (@contains_part _ EmptyString "meal" " plan" H).
    + apply (@routed_before_planner user_input "meal"); [cbn; tauto |].
      exact (@contains_part _ "plan " "meal" "s" H).
    + apply (@routed_before_planner user_input "eat"); [cbn; tauto |].
      exact (@contains_part _ "what to " "eat" EmptyString H).
  - intros H.
    pose proof (@contains_part _ EmptyString "meal" " plan" H) as Hmeal.
    unfold check_health_related_query, agent_mapping. cbn [first_agent].
    destruct (any_in _ (lower user_input)).
    { eexists. split; [reflexivity |]. cbn. tauto. }
    destruct (any_in _ (lower user_input)).
    { eexists. split; [reflexivity |]. cbn. tauto. }
    rewrite (@any_in_intro _ (lower user_input) "meal"); [| cbn; tauto | exact Hmeal].
    eexists. split; [reflexivity |]. cbn. tauto.
Qed.

Lemma meal_plan_requests_bypass_the_planner_witness :
  exists agent_name,
    dict_get (route_to_appropriate_agent "Please make a meal plan") "recommended_agent"
    = Some (VStr agent_name)
    /\ In agent_name before_meal_planner.
Proof.
  apply (proj1 (@meal_plan_requests_bypass_the_planner "Please make a meal plan")).
  left. reflexivity.
Defined.

End RoutingFacts.


(** ** General questions *)

Module GeneralQuestionFacts.
Import DatabaseManager HealthAgentSystem.

(** The values the routing suggestion of a reply can take: none, a
    suggestion of [answer_general_question], or an agent of
    [route_to_appropriate_agent]. *)
Definition routing_suggestions : list value :=
  [ VNone;
    VStr "mood_tracking"; VStr "food_logging"; VStr "glucose_logging";
    VStr "mood_tracker"; VStr "cgm_monitor"; VStr "food_intake";
    VStr "meal_planner"; VStr "main_menu" ].

(** An environment whose question answering is the interrupt agent's. *)
Definition answers_with (env : environment) (agent : InterruptAgent.t) : Prop :=
  (forall question db,
     answer_general_question env question db
     = (Ok (InterruptAgent.answer_general_question agent question), db))
  /\ (forall user_input db,
        route_to_appropriate_agent env user_input db
        = (Ok (InterruptAgent.route_to_appropriate_agent user_input), db)).

Lemma answer_shape (agent : InterruptAgent.t) (question : string) :
  exists answer suggestion is_health user_context,
    InterruptAgent.answer_general_question agent question
    = [ ("status", VStr "success"); ("question", VStr question);
        ("answer", VStr answer); ("is_health_related", VBool is_health);
        ("user_context", VBool user_context);
        ("routing_suggestion", suggestion) ]
    /\ In suggestion
          [VNone; VStr "mood_tracking"; VStr "food_logging"; VStr "glucose_logging"].
Proof.
  unfold InterruptAgent.answer_general_question.
  repeat match goal with
         | |- context [if InterruptAgent.any_search ?ps ?t then _ else _] =>
             destruct (InterruptAgent.any_search ps t)
         end;
  try match goal with
      | |- context [if PyStr.any_in ?ws ?t then _ else _] =>
          destruct (PyStr.any_in ws t) eqn:?
      end;
  do 4 eexists; (split; [reflexivity | cbn; tauto]).
Qed.

Lemma route_shape (user_input : string) :
  exists found agent_name message,
    InterruptAgent.route_to_appropriate_agent user_input
    = [ ("status", VStr "success"); ("routing_found", VBool found);
        ("recommended_agent", agent_name); ("message", VStr message);
        ("routing_suggestion", if found then VStr message else VNone) ]
    /\ message <> EmptyString
    /\ In agent_name
          [VNone; VStr "mood_tracker"; VStr "cgm_monitor"; VStr "food_intake";
           VStr "meal_planner"; VStr "main_menu"].
Proof.
  unfold InterruptAgent.route_to_appropriate_agent, InterruptAgent.routing_map.
  cbn [InterruptAgent.first_route InterruptAgent.keywords].
  repeat match goal with
         | |- context [if PyStr.any_in ?ws ?t then _ else _] =>
             destruct (PyStr.any_in ws t)
         end;
  cbn [InterruptAgent.agent InterruptAgent.route_message];
  first [ exists true; do 2 eexists;
          (split; [reflexivity | split; [discriminate | cbn; tauto]])
        | exists false; do 2 eexists;
          (split; [reflexivity | split; [discriminate | cbn; tauto]]) ].
Qed.

Lemma world_eta (w : World) : mk_world (self_of w) (db_of w) = w.
Proof. now destruct w. Qed.

(** X24.  A general question is always answered.  With the interrupt
    agent's [answer_general_question] and [route_to_appropriate_agent]
    behind it, [_handle_general_question] returns an InterruptAgent reply
    for every input, never raises and changes neither session nor store.
    The routing suggestion of the reply is none, one of the three intents
    [answer_general_question] names (mood_tracking, food_logging,
    glucose_logging) or one of the five agent names of
    [route_to_appropriate_agent]. *)
Theorem general_question_is_always_answered (env : environment)
    (user_input : string) (w : World) :
  answers_with env (interrupt_agent (self_of w)) ->
  exists response suggestion,
    _handle_general_question env user_input w
    = (Ok [ ("response", VStr response);
            ("agent_used", VStr "InterruptAgent");
            ("system_state", VStr (state_str (system_state (self_of w))));
            ("routing_suggestion", suggestion) ],
       w)
    /\ In suggestion routing_suggestions.
Proof.
  intros [Hanswer Hroute].
  destruct (answer_shape (interrupt_agent (self_of w)) user_input)
    as [answer [suggestion [is_health [user_context [Ea Hs]]]]].
  destruct (route_shape user_input) as [found [agent_name [message [Er [Hm Hag]]]]].
  unfold _handle_general_question, bind at 1, get_self.
  unfold bind at 1, lift_db. rewrite Hanswer, Ea, world_eta.
  unfold bind at 1, item, lift_result. cbn [dict_item dict_get String.eqb Ascii.eqb Bool.eqb].
  cbn [dict_get_default dict_get String.eqb Ascii.eqb Bool.eqb].
  destruct (value_truthy suggestion) eqn:Ht; cbn [negb].
  - unfold bind, ret. do 2 eexists. split; [reflexivity |].
    unfold routing_suggestions. cbn in Hs |- *. tauto.
  - unfold bind at 1. unfold bind at 1, lift_db. rewrite Hroute, Er, world_eta.
    cbn [dict_get_default dict_get String.eqb Ascii.eqb Bool.eqb].
    destruct found.
    + assert (Htm : value_truthy (VStr message) = true).
      { cbn. destruct (String.eqb_spec message EmptyString);
          [contradiction | reflexivity]. }
      rewrite Htm. unfold bind, item, lift_result, ret.
      cbn [dict_item dict_get String.eqb Ascii.eqb Bool.eqb].
      do 2 eexists. split; [reflexivity |].
      unfold routing_suggestions. cbn in Hag |- *. tauto.
    + cbn [value_truthy]. unfold bind, ret. do 2 eexists. split; [reflexivity |].
      unfold routing_suggestions. cbn in Hs |- *. tauto.
Qed.

(** The sample environment with the interrupt agent's question answering. *)
Definition answering_env (agent : InterruptAgent.t) : environment :=
  mk_env (float_str Sample.env) (value_str Sample.env)
    (today Sample.env) (tomorrow Sample.env) (yesterday Sample.env)
    (sql_like Sample.env) (round1 Sample.env) (get_cgm_trends Sample.env)
    (get_recent_cgm_readings Sample.env) (get_mood_rolling_average Sample.env)
    (get_recent_mood_data Sample.env) (get_user_context Sample.env)
    (get_health_summary Sample.env) (log_meal_authenticated Sample.env)
    (get_nutrition_insights_authenticated Sample.env)
    (generate_meal_plan_authenticated Sample.env)
    (fun question => ret (InterruptAgent.answer_general_question agent question))
    (fun user_input => ret (InterruptAgent.route_to_appropriate_agent user_input))
    (_format_mood_trends Sample.env) (_format_glucose_trends Sample.env)
    (_format_nutrition_insights Sample.env)
    (_generate_comprehensive_insights Sample.env).

Lemma general_question_is_always_answered_witness :
  exists response suggestion,
    _handle_general_question
      (answering_env (interrupt_agent Sample.logged_in)) "life is hard"
      (mk_world Sample.logged_in Sample.store)
    = (Ok [ ("response", VStr response);
            ("agent_used", VStr "InterruptAgent");
            ("system_state", VStr "authenticated");
            ("routing_suggestion", suggestion) ],
       mk_world Sample.logged_in Sample.store)
    /\ In suggestion routing_suggestions.
Proof.
  apply (@general_question_is_always_answered
           (answering_env (interrupt_agent Sample.logged_in)) "life is hard"
           (mk_world Sample.logged_in Sample.store)).
  split; intros; reflexivity.
Defined.

End GeneralQuestionFacts.


(** ** Cross-agent insights *)

Module CrossInsightFacts.
Import Insights.

Lemma and_then_ok {A B} (r : result A) (k : A -> result B) (b : B) :
  and_then r k = Ok b -> exists a, r = Ok a /\ k a = Ok b.
Proof. destruct r as [a | e]; cbn; [eauto | discriminate]. Qed.

Lemma both_ok (a b : result bool) (x : bool) :
  both a b = Ok x ->
  (a = Ok false /\ x = false) \/ (a = Ok true /\ b = Ok x).
Proof.
  unfold both. intros H. apply and_then_ok in H. destruct H as [[|] [-> H]].
  - now right.
  - injection H as <-. now left.
Qed.

(** One comparison of two metrics: at most one insight is added. *)
Lemma stage_adds_at_most_one (paired : bool) (first second : result bool)
    (one two : string) (insights out : list string) :
  (if paired then
     a <-? first ;;
     if a then Ok (insights ++ [one])%list
     else b <-? second ;; if b then Ok (insights ++ [two])%list else Ok insights
   else Ok insights) = Ok out ->
  (out = insights \/ (paired = true /\ exists text, out = (insights ++ [text])%list)).
Proof.
  destruct paired; [| intros H; injection H as <-; now left].
  intros H. apply and_then_ok in H. destruct H as [[|] [_ H]].
  - injection H as <-. right. eauto.
  - apply and_then_ok in H. destruct H as [[|] [_ H]]; injection H as <-;
      [right; eauto | now left].
Qed.

(** X25.  At most three cross-agent insights are produced, one for each
    pair of metrics, and a pair contributes only when both of its metrics
    have entries: with no glucose readings and no mood entries, or with
    data for one metric only, the list is empty. *)
Theorem cross_agent_insights_are_few (health_summary : dict)
    (insights : list string) :
  _generate_cross_agent_insights health_summary = Ok insights ->
  List.length insights <= 3
  /\ forall mood glucose nutrition,
       dict_get health_summary "mood_summary" = Some mood ->
       dict_get health_summary "glucose_summary" = Some glucose ->
       dict_get health_summary "nutrition_summary" = Some nutrition ->
       (above mood "entries_count" 0 = Ok false
        /\ above glucose "readings_count" 0 = Ok false)
       \/ (above mood "entries_count" 0 = Ok false
           /\ above nutrition "entries_count" 0 = Ok false)
       \/ (above glucose "readings_count" 0 = Ok false
           /\ above nutrition "entries_count" 0 = Ok false) ->
       insights = [].
Proof.
  unfold _generate_cross_agent_insights. intros H.
  apply and_then_ok in H. destruct H as [mood [Hm H]].
  apply and_then_ok in H. destruct H as [glucose [Hg H]].
  apply and_then_ok in H. destruct H as [nutrition [Hn H]].
  apply and_then_ok in H. destruct H as [pair1 [P1 H]].
  apply and_then_ok in H. destruct H as [l1 [S1 H]].
  apply and_then_ok in H. destruct H as [pair2 [P2 H]].
  apply and_then_ok in H. destruct H as [l2 [S2 H]].
  apply and_then_ok in H. destruct H as [pair3 [P3 S3]].
  apply stage_adds_at_most_one in S1, S2, S3.
  split.
  - destruct S1 as [-> | [_ [t1 ->]]], S2 as [-> | [_ [t2 ->]]],
      S3 as [-> | [_ [t3 ->]]]; rewrite ?length_app; cbn; lia.
  - intros mood' glucose' nutrition' Em Eg En Hnone.
    unfold dict_item in Hm, Hg, Hn. rewrite Em in Hm. rewrite Eg in Hg.
    rewrite En in Hn. injection Hm as <-. injection Hg as <-. injection Hn as <-.
    assert (F1 : pair1 = false).
    { apply both_ok in P1.
      destruct Hnone as [[A B] | [[A B] | [A B]]];
        destruct P1 as [[_ E] | [E1 E2]]; congruence. }
    assert (F2 : pair2 = false).
    { apply both_ok in P2.
      destruct Hnone as [[A B] | [[A B] | [A B]]];
        destruct P2 as [[_ E] | [E1 E2]]; congruence. }
    assert (F3 : pair3 = false).
    { apply both_ok in P3.
      destruct Hnone as [[A B] | [[A B] | [A B]]];
        destruct P3 as [[_ E] | [E1 E2]]; congruence. }
    subst pair1 pair2 pair3.
    destruct S1 as [-> | [K _]]; [| discriminate].
    destruct S2 as [-> | [K _]]; [| discriminate].
    destruct S3 as [-> | [K _]]; [| discriminate].
    reflexivity.
Qed.

(** A summary with glucose readings only. *)
Definition glucose_only : dict :=
  [ ("user_info", VDict [("name", VStr "Jane Doe")]);
    ("mood_summary",
     VDict [("average", VInt 0); ("trend", VStr "no_data"); ("entries_count", VInt 0)]);
    ("glucose_summary",
     VDict [("average", VFloat (inject_Z 190)); ("trend", VStr "stable");
            ("readings_count", VInt 4)]);
    ("nutrition_summary",
     VDict [("average_calories", VInt 0); ("average_carbs", VInt 0);
            ("average_protein", VInt 0); ("average_fat", VInt 0);
            ("entries_count", VInt 0)]) ].

Lemma cross_agent_insights_are_few_witness :
  _generate_cross_agent_insights glucose_only = Ok []
  /\ List.length (@nil string) <= 3.
Proof.
  split; [reflexivity |].
  exact (proj1 (@cross_agent_insights_are_few glucose_only [] eq_refl)).
Defined.

End CrossInsightFacts.


(** ** Turns that end in an apology, and turns that cannot *)

Module TurnOutcomes.
Import DatabaseManager HealthAgentSystem TurnFacts NormaliseFacts SessionFacts
  TurnAccounting.

(** X26.  Asking for mood trends ends in an apology whenever there is
    something to show.  In a consistent Authenticated session, with
    [_format_mood_trends] as [main.py] defines it, an insights request that
    mentions "mood" is answered with "Sorry, I encountered an error:
    'min_mood'" as soon as the user has a mood entry in the past 30 days;
    the trend analysis has been logged by then. *)
Theorem mood_trends_request_ends_in_an_apology (env : environment) (input : string)
    (s : t) (db db1 : Database) (summary : option dict) :
  consistent s -> system_state s = Authenticated ->
  _detect_primary_intent (PyStr.strip input) = "insights_request" ->
  PyStr.contains (PyStr.lower (PyStr.strip input)) "mood" = true ->
  _format_mood_trends env = Insights._format_mood_trends (value_str env) ->
  get_health_summary env (authenticated_user_id s) db = (Ok summary, db1) ->
  entries_count (get_recent_mood_data env (authenticated_user_id s) 30 db1) <> 0%Z ->
  exists u,
    authenticated_user_id s = Some u
    /\ process_user_input env input (mk_world s db)
       = (Ok (sorry_reply (KeyError "min_mood")),
          mk_world s
            (MoodFacts.after_trend_analysis db1 u
               (entries_count
                  (get_recent_mood_data env (authenticated_user_id s) 30 db1))
               30)).
Proof.
  intros Hc Hs Hi Hmood Hformat Hsummary Hentries.
  destruct (@consistent_authenticated s Hc Hs) as [u [Hu [Hne [_ Hagent]]]].
  exists u. split; [exact Hu |].
  rewrite turn_dispatches; [| exact Hs | rewrite Hi; discriminate].
  rewrite Hi. unfold dispatch. cbn [String.eqb Ascii.eqb Bool.eqb].
  unfold try_except, _handle_insights_request, bind at 1, get_self.
  cbn [self_of]. unfold bind at 1, lift_db at 1. cbn [db_of self_of].
  rewrite Hsummary, Hmood, Hagent.
  unfold bind at 1, call, lift_db. cbn [db_of self_of].
  pose proof (@DisplayFacts.mood_trends_display_fails_on_entries_run
                (value_str env) (get_recent_mood_data env)
                (MoodTrackerAgent.create_mood_tracker_agent (Some u)) 30 db1)
    as K.
  rewrite Hu in Hentries. cbn [MoodTrackerAgent.authenticated_user_id
                               MoodTrackerAgent.create_mood_tracker_agent] in K.
  destruct K as [trends [E F]]; [| exact Hentries |].
  { cbn. destruct (String.eqb_spec u EmptyString); [contradiction | reflexivity]. }
  rewrite E. unfold bind, lift_result. rewrite Hformat, F.
  unfold error_reply, bind, get_self, ret, sorry_reply. cbn [self_of].
  rewrite Hs, Hu. reflexivity.
Qed.

(** The sample environment with the formatters of [main.py]. *)
Definition formatting_env : environment :=
  mk_env (float_str Sample.env) (value_str Sample.env)
    (today Sample.env) (tomorrow Sample.env) (yesterday Sample.env)
    (sql_like Sample.env) (round1 Sample.env) (get_cgm_trends Sample.env)
    (get_recent_cgm_readings Sample.env) (get_mood_rolling_average Sample.env)
    (get_recent_mood_data Sample.env) (get_user_context Sample.env)
    (get_health_summary Sample.env) (log_meal_authenticated Sample.env)
    (get_nutrition_insights_authenticated Sample.env)
    (generate_meal_plan_authenticated Sample.env)
    (answer_general_question Sample.env) (route_to_appropriate_agent Sample.env)
    (Insights._format_mood_trends (value_str Sample.env))
    (Insights._format_glucose_trends (value_str Sample.env))
    (_format_nutrition_insights Sample.env)
    (_generate_comprehensive_insights Sample.env).

Lemma mood_trends_request_ends_in_an_apology_witness :
  exists u,
    authenticated_user_id Sample.logged_in = Some u
    /\ process_user_input formatting_env "Show me my mood trends"
         (mk_world Sample.logged_in Sample.store)
       = (Ok (sorry_reply (KeyError "min_mood")),
          mk_world Sample.logged_in
            (MoodFacts.after_trend_analysis Sample.store u 2 30)).
Proof.
  apply (@mood_trends_request_ends_in_an_apology formatting_env
           "Show me my mood trends" Sample.logged_in Sample.store Sample.store None).
  - cbn. repeat split.
  - reflexivity.
  - vm_compute. reflexivity.
  - vm_compute. reflexivity.
  - reflexivity.
  - reflexivity.
  - discriminate.
Defined.

(** *** With the users table in place *)

(** The row an Unauthenticated turn looks up: the one with the typed id,
    when the input has the shape of an id. *)
Definition looked_up (input : string) (table : list user_row) : option user_row :=
  if _looks_like_user_id (PyStr.strip input)
  then find (fun r => String.eqb (row_user_id r) (PyStr.strip input)) table
  else None.

(** X27.  With the users table in place, a turn of an Unauthenticated
    session raises in one case only: the input is an id whose row holds a
    [medical_conditions] column that [json.loads] rejects (NULL, or text
    that is no JSON).  Then the decoder's error leaves
    [process_user_input], with session and store as they were.  Every
    other input is answered with a reply, and the store is as it was. *)
Theorem unauthenticated_turn_returns_with_users_table (env : environment)
    (input : string) (s : t) (db : Database) (table : list user_row) :
  system_state s = Unauthenticated ->
  users_table db = Some table ->
  (forall row e,
     looked_up input table = Some row ->
     json_loads (row_medical_conditions row) = Raise e ->
     process_user_input env input (mk_world s db) = (Raise e, mk_world s db))
  /\ ((forall row,
         looked_up input table = Some row ->
         exists conditions,
           json_loads (row_medical_conditions row) = Ok conditions) ->
      exists reply s',
        process_user_input env input (mk_world s db) = (Ok reply, mk_world s' db)
        /\ dict_get reply "agent_used"
           = Some (if String.eqb (PyStr.strip input) EmptyString then VNone
                   else VStr "GreetingAgent")).
Proof.
  intros Hs Htable. unfold looked_up.
  destruct (_looks_like_user_id (PyStr.strip input)) eqn:Hid.
  - rewrite (@id_turn env input (mk_world s db) Hs Hid).
    rewrite (@authenticate_by_id_run (PyStr.strip input) s db
               (strip_idempotent input) (id_shape_is_not_empty Hid)).
    rewrite Htable.
    destruct (String.eqb_spec (PyStr.strip input) EmptyString) as [E | _].
    { exfalso. exact (id_shape_is_not_empty Hid E). }
    destruct (find _ table) as [row |].
    + unfold load_user, and_then. split.
      * intros row' e Hrow He. injection Hrow as <-. now rewrite He.
      * intros Hloads. destruct (Hloads row eq_refl) as [conditions ->].
        do 2 eexists. split; reflexivity.
    + split; [discriminate |]. intros _. do 2 eexists. split; reflexivity.
  - split; [discriminate |]. intros _.
    unfold process_user_input, bind, get_self. cbn [self_of].
    destruct (String.eqb (PyStr.strip input) EmptyString).
    { do 2 eexists. split; reflexivity. }
    rewrite Hs. unfold _handle_authentication. rewrite Hid.
    destruct (_looks_like_name_search (PyStr.strip input)).
    + unfold search_by_name.
      destruct (ExtractorFacts.extract_name_total (PyStr.strip input)) as [who Hwho].
      rewrite Hwho. unfold bind at 1, lift_result. unfold bind at 1, get_self.
      unfold bind at 1, lift_db, GreetingAgent.search_users_by_name, bind at 1,
        get_user_by_name.
      cbn [db_of self_of]. rewrite Htable.
      destruct (map _ (filter _ table)) as [| user [| other found]]; cbn;
        do 2 eexists; (split; reflexivity).
    + do 2 eexists. split; reflexivity.
Qed.

Lemma unauthenticated_turn_returns_with_users_table_witness :
  process_user_input Sample.env "9012"
    (mk_world init Sample.store_with_null_conditions)
  = (Raise (TypeError "the JSON object must be str, bytes or bytearray, not NoneType"),
     mk_world init Sample.store_with_null_conditions)
  /\ exists reply s',
       process_user_input Sample.env "my name is ann"
         (mk_world init Sample.store_with_null_conditions)
       = (Ok reply, mk_world s' Sample.store_with_null_conditions)
       /\ dict_get reply "agent_used"
          = Some (if String.eqb (PyStr.strip "my name is ann") EmptyString
                  then VNone else VStr "GreetingAgent").
Proof.
  split.
  - exact (proj1 (@unauthenticated_turn_returns_with_users_table Sample.env "9012"
                    init Sample.store_with_null_conditions _ eq_refl eq_refl)
             _ _ eq_refl eq_refl).
  - apply (proj2 (@unauthenticated_turn_returns_with_users_table Sample.env
                    "my name is ann" init Sample.store_with_null_conditions _
                    eq_refl eq_refl)).
    intros row H. discriminate H.
Defined.

End TurnOutcomes.


(** ** Suggestions the dispatcher never shows *)

Module SuggestionFacts.
Import Re ReFacts PyStr PyStrFacts HealthAgentSystem ClassifierFacts CaptureFacts
  RoutingFacts IntentFacts.

Lemma sum_in_zero (k : Z) (ws : list string) (s : string) :
  (0 < k)%Z -> (sum_in k ws s <= 0)%Z ->
  forall w, In w ws -> contains s w = false.
Proof.
  intros Hk. induction ws as [|x ws IH]; cbn [sum_in]; intros H w Hin.
  - contradiction.
  - pose proof (@sum_in_nonneg k ws s ltac:(lia)) as Hn.
    destruct (contains s x) eqn:Ex; [lia |].
    destruct Hin as [<- | Hin]; [exact Ex |].
    apply IH; [lia | exact Hin].
Qed.

(** An input without an intent of its own scores nothing anywhere. *)
Lemma general_question_scores_nothing (user_input : string) :
  _detect_primary_intent user_input = "general_question" ->
  forall e, In e (scores (strip (lower user_input))) -> (snd e <= 0)%Z.
Proof.
  unfold _detect_primary_intent.
  destruct (existsb _ cgm_indicators_values); [discriminate |].
  set (q := strip (lower user_input)). cbn [scores].
  match goal with
  | |- context [max_key ?f ?d] =>
      pose proof (max_value_ge d (snd f)) as [Hb Hrest];
      pose proof (max_key_is_a_key d f) as Hkey;
      destruct (0 <? max_value (snd f) d)%Z eqn:E
  end.
  - intros H. exfalso. rewrite H in Hkey. cbn [fst map In] in Hkey.
    repeat (destruct Hkey as [Hkey | Hkey]; [discriminate |]). contradiction.
  - intros _ e He. apply Z.ltb_ge in E. cbn [snd] in Hb, Hrest, E.
    destruct He as [<- | He]; [cbn [snd]; lia |].
    specialize (Hrest e He). lia.
Qed.

Lemma matches_lit (w m : string) : matches (lit w) m -> m = w.
Proof.
  revert m. induction w as [|c w IH]; intros m H.
  - inversion H. reflexivity.
  - destruct w as [|d w].
    + cbn [lit] in H. now apply matches_chr in H.
    + change (lit (String c (String d w)))
        with (Seq (Cls (chr c)) (lit (String d w))) in H.
      apply matches_seq in H. destruct H as [m1 [m2 [-> [H1 H2]]]].
      apply matches_chr in H1. subst m1. now rewrite (IH _ H2).
Qed.

Lemma matches_alts (rs : list regex) (m : string) :
  rs <> [] -> matches (alts rs) m -> exists r, In r rs /\ matches r m.
Proof.
  induction rs as [|r rs IH]; intros Hne H; [contradiction |].
  destruct rs as [|r' rs].
  - exists r. cbn in H |- *. auto.
  - change (alts (r :: r' :: rs)) with (Alt r (alts (r' :: rs))) in H.
    inversion H; subst.
    + exists r. cbn. auto.
    + destruct IH as [x [Hin Hx]]; [discriminate | assumption |].
      exists x. split; [now right | exact Hx].
Qed.

Lemma matches_words (ws : list string) (m : string) :
  ws <> [] -> matches (InterruptAgent.words ws) m -> In m ws.
Proof.
  intros Hne H. unfold InterruptAgent.words in H.
  apply matches_alts in H; [| destruct ws; [contradiction | discriminate]].
  destruct H as [r [Hin Hr]]. apply in_map_iff in Hin.
  destruct Hin as [w [<- Hw]]. apply matches_lit in Hr. now subst.
Qed.

(** A match of a sequence holds a match of each of its parts. *)
Lemma matches_seqs_part (rs : list regex) (m : string) (r : regex) :
  matches (seqs rs) m -> In r rs ->
  exists a x b, m = a ++ x ++ b /\ matches r x.
Proof.
  revert m. induction rs as [|r0 rs IH]; intros m H Hin; [contradiction |].
  destruct rs as [|r1 rs].
  - destruct Hin as [<- | []]. exists EmptyString, m, EmptyString.
    cbn [append]. rewrite append_nil_r. auto.
  - change (seqs (r0 :: r1 :: rs)) with (Seq r0 (seqs (r1 :: rs))) in H.
    apply matches_seq in H. destruct H as [m1 [m2 [-> [H1 H2]]]].
    destruct Hin as [<- | Hin].
    + exists EmptyString, m1, m2. auto.
    + destruct (IH m2 H2 Hin) as [a [x [b [-> Hx]]]].
      exists (m1 ++ a), x, b. rewrite append_assoc. auto.
Qed.

(** A pattern with a choice of words is found only in a text holding one
    of the words. *)
Lemma found_holds_a_word (rs : list regex) (ws : list string) (text : string) :
  anchor_free (seqs rs) = true -> In (InterruptAgent.words ws) rs -> ws <> [] ->
  found (re_search (seqs rs) text) = true ->
  exists w, In w ws /\ contains text w = true.
Proof.
  intros Hfree Hin Hne H. apply search_sound in H; [| exact Hfree].
  destruct H as [pre [m [suf [-> M]]]].
  destruct (@matches_seqs_part rs m _ M Hin) as [a [x [b [-> Hx]]]].
  exists x. split; [now apply matches_words |].
  rewrite !append_assoc. rewrite <- (append_assoc pre a).
  apply contains_complete.
Qed.

Lemma food_pattern_holds_a_word (text : string) :
  InterruptAgent.any_search InterruptAgent.food_patterns text = true ->
  exists w,
    In w ["ate"; "had"; "consumed"; "eaten"; "finished"; "breakfast"; "lunch";
          "dinner"]
    /\ contains text w = true.
Proof.
  unfold InterruptAgent.any_search, InterruptAgent.food_patterns.
  cbn [existsb]. rewrite !orb_true_iff.
  intros [H | [H | [H | H]]]; [| | | discriminate].
  - apply (@found_holds_a_word _ ["ate"; "had"; "consumed"; "eaten"]) in H;
      [| reflexivity | cbn; tauto | discriminate].
    destruct H as [w [Hw Hc]]. exists w. split; [cbn in Hw |- *; tauto | exact Hc].
  - apply (@found_holds_a_word _ ["ate"; "had"; "finished"]) in H;
      [| reflexivity | cbn; tauto | discriminate].
    destruct H as [w [Hw Hc]]. exists w. split; [cbn in Hw |- *; tauto | exact Hc].
  - apply (@found_holds_a_word _ ["breakfast"; "lunch"; "dinner"]) in H;
      [| reflexivity | cbn; tauto | discriminate].
    destruct H as [w [Hw Hc]]. exists w. split; [cbn in Hw |- *; tauto | exact Hc].
Qed.

(** X28.  The dispatcher never shows the food-logging suggestion.  Whenever
    [answer_general_question] would suggest food_logging for an input, the
    intent classifier gives that input an intent of its own — the words
    of the food patterns are keywords of the food or planning scores — so
    [_handle_general_question], which the dispatcher calls for
    general_question only, is not called with it. *)
Theorem food_suggestion_is_never_shown (agent : InterruptAgent.t)
    (question : string) :
  dict_get (InterruptAgent.answer_general_question agent question)
           "routing_suggestion"
  = Some (VStr "food_logging") ->
  _detect_primary_intent question <> "general_question".
Proof.
  intros Hfood Hgeneral.
  assert (Hsearch : InterruptAgent.any_search InterruptAgent.food_patterns
                      (strip (lower question)) = true).
  { unfold InterruptAgent.answer_general_question in Hfood.
    destruct (InterruptAgent.any_search InterruptAgent.emotional_patterns _);
      [discriminate |].
    destruct (InterruptAgent.any_search InterruptAgent.food_patterns _);
      [reflexivity |].
    destruct (InterruptAgent.any_search InterruptAgent.glucose_patterns _);
      [discriminate |].
    destruct (InterruptAgent.any_search InterruptAgent.negative_expressions _);
      [discriminate |].
    destruct (any_in InterruptAgent.health_keywords _); discriminate. }
  destruct (food_pattern_holds_a_word _ Hsearch) as [w [Hw Hc]].
  pose proof (general_question_scores_nothing _ Hgeneral) as Hzero.
  set (q := strip (lower question)) in *.
  assert (Hfoodscore : (calculate_food_score q <= 0)%Z).
  { apply (Hzero ("food_logging", calculate_food_score q)). cbn. tauto. }
  assert (Hplan : (calculate_planning_score q <= 0)%Z).
  { apply (Hzero ("meal_planning", calculate_planning_score q)). cbn. tauto. }
  assert (S1 := fun ws => @sum_in_nonneg 1 ws q ltac:(lia)).
  assert (S2 := fun ws => @sum_in_nonneg 2 ws q ltac:(lia)).
  assert (S3 := fun ws => @sum_in_nonneg 3 ws q ltac:(lia)).
  assert (S4 := fun ws => @sum_in_nonneg 4 ws q ltac:(lia)).
  pose proof (S3 food_indicators_past_tense).
  pose proof (S2 food_indicators_present_tense).
  pose proof (S1 food_indicators_food_items).
  pose proof (S1 food_indicators_context).
  pose proof (S2 food_indicators_meals). pose proof (S1 food_indicators_meals).
  pose proof (S4 planning_indicators_direct).
  pose proof (S2 planning_indicators_questions).
  pose proof (S1 planning_indicators_time_based).
  assert (Hpast : forall x, In x food_indicators_past_tense -> contains q x = false).
  { apply (@sum_in_zero 3); [lia |].
    unfold calculate_food_score in Hfoodscore.
    repeat match type of Hfoodscore with
           | context [if ?b then _ else _] => destruct b
           end; lia. }
  assert (Hmeals : forall x, In x food_indicators_meals -> contains q x = false).
  { unfold calculate_food_score in Hfoodscore.
    unfold calculate_planning_score in Hplan.
    destruct (any_in planning_indicators_planning_verbs q).
    - exfalso. cbn [negb andb] in Hfoodscore.
      destruct (any_in ["meal"; "menu"; "food"; "diet"] q); cbn [andb] in Hplan; lia.
    - cbn [negb andb] in Hfoodscore.
      destruct (any_in (food_indicators_past_tense ++ food_indicators_context) q).
      + apply (@sum_in_zero 2); lia.
      + apply (@sum_in_zero 1); lia. }
  cbn in Hw.
  repeat (destruct Hw as [<- | Hw];
          [first [ rewrite Hpast in Hc by (cbn; tauto)
                 | rewrite Hmeals in Hc by (cbn; tauto) ];
           discriminate |]).
  contradiction.
Qed.

Lemma food_suggestion_is_never_shown_witness :
  _detect_primary_intent "so, for lunch i will fast" <> "general_question".
Proof.
  exact (@food_suggestion_is_never_shown (InterruptAgent.mk_agent None None)
           "so, for lunch i will fast" eq_refl).
Defined.

End SuggestionFacts.
